(** * Guass_Project: the report pipeline of [src/backend.py]

    A shallow embedding of the relevance filter, the metrics engine, the
    video-comment fetcher, the comment-corpus analysis and the orchestrator,
    with the properties the specification states about them.

    Conventions of the embedding.
    - A Python [str] is a [string]; its characters are the code points
      0..255 (Latin-1), on which [lower], [split] and [strip] are written
      out as Python defines them.
    - A Python [dict] read with [.get] is a [gmap string _]; a dict that the
      code only ever reads through fixed keys is a record.
    - A Python float is an exact rational ([Q]): rounding and overflow are
      not modelled, and no value is infinite or not a number.  The
      statements about the metrics engine are about the runs whose floats
      stay finite; none of them says that the engine cannot raise.
      An exception is an explicit [Raise] result.
    - The providers reached over the network are the fields of a [world];
      every call to one of them is recorded in a trace of [event]s. *)

From Stdlib Require Import String Ascii List ZArith QArith Lia Lqa Permutation Sorted Bool.
From stdpp Require Import base option list gmap strings.
Import ListNotations.

Open Scope string_scope.
Open Scope nat_scope.
Open Scope list_scope.

(** ** Text primitives of Python's [str] *)

(** [str.isspace] on one code point below 256: TAB..CR, FS..US, SPACE,
    NEL (0x85) and NBSP (0xA0). *)
Definition py_isspace (a : ascii) : bool :=
  let n := nat_of_ascii a in
  ((9 <=? n) && (n <=? 13)) || ((28 <=? n) && (n <=? 32))
  || (n =? 133) || (n =? 160).

(** [str.lower] on one code point below 256: A..Z and the Latin-1 capitals
    0xC0..0xDE (without the multiplication sign 0xD7) move up by 32. *)
Definition lower_char (a : ascii) : ascii :=
  let n := nat_of_ascii a in
  if ((65 <=? n) && (n <=? 90))
     || ((192 <=? n) && (n <=? 222) && negb (n =? 215))
  then ascii_of_nat (n + 32) else a.

Fixpoint lower (s : string) : string :=
  match s with
  | EmptyString => EmptyString
  | String a s' => String (lower_char a) (lower s')
  end.

(** [s.split()]: the maximal runs of non-whitespace characters, in order.
    [cur] is the word being read. *)
Fixpoint split_go (cur : string) (s : string) : list string :=
  match s with
  | EmptyString => if String.eqb cur "" then [] else [cur]
  | String a s' =>
      if py_isspace a
      then (if String.eqb cur "" then split_go "" s' else cur :: split_go "" s')
      else split_go (cur +:+ String a "") s'
  end.

Definition split (s : string) : list string := split_go "" s.

Fixpoint lstrip (s : string) : string :=
  match s with
  | EmptyString => EmptyString
  | String a s' => if py_isspace a then lstrip s' else s
  end.

(** Drops trailing whitespace: a character stays when it is not whitespace
    or when something stays after it. *)
Fixpoint rstrip (s : string) : string :=
  match s with
  | EmptyString => EmptyString
  | String a s' =>
      match rstrip s' with
      | EmptyString => if py_isspace a then EmptyString else String a EmptyString
      | r => String a r
      end
  end.

Definition strip (s : string) : string := rstrip (lstrip s).

(** [needle in hay]: [needle] occurs as a contiguous substring. *)
Fixpoint contains (needle hay : string) : bool :=
  String.prefix needle hay ||
  match hay with
  | EmptyString => false
  | String _ hay' => contains needle hay'
  end.

(** [s[:n]] for [n >= 0]. *)
Fixpoint take_str (n : nat) (s : string) : string :=
  match n, s with
  | O, _ => EmptyString
  | _, EmptyString => EmptyString
  | S n', String a s' => String a (take_str n' s')
  end.

Fixpoint drop_str (n : nat) (s : string) : string :=
  match n, s with
  | O, _ => s
  | _, EmptyString => EmptyString
  | S n', String _ s' => drop_str n' s'
  end.

(** [s[a:b]] for [a, b >= 0]. *)
Definition slice (s : string) (a b : nat) : string :=
  take_str (b - a) (drop_str a s).

(** [sep.join(parts)]. *)
Fixpoint join (sep : string) (parts : list string) : string :=
  match parts with
  | [] => ""
  | [p] => p
  | p :: rest => p +:+ sep +:+ join sep rest
  end.

(** ** Comments *)

(** A comment dict.  [text] and [body] hold the empty string when the key
    is missing: both readers, [comment.get('text', '')] and
    [c.get("body") or c.get("text") or ""], treat the two alike. *)
Record comment := mk_comment {
  author : option string;
  text : string;
  body : string
}.

(** ** Relevance filter: [filter_financial_comments] *)

Definition high_value_keywords : list (string * nat) :=
  [ ("buy", 3); ("sell", 3); ("hold", 2); ("invest", 2); ("investing", 2);
    ("portfolio", 2); ("bullish", 3); ("bearish", 3); ("long term", 3);
    ("short term", 2);
    ("overvalued", 3); ("undervalued", 3); ("valuation", 2);
    ("target price", 3); ("fair value", 2); ("intrinsic value", 3);
    ("discounted", 2);
    ("pe ratio", 2); ("p/e", 2); ("eps", 2); ("revenue", 2); ("earnings", 2);
    ("profit", 2); ("dividend", 2); ("yield", 2); ("cash flow", 2);
    ("debt", 2); ("margin", 2);
    ("fundamentals", 2); ("analysis", 1); ("forecast", 2); ("prediction", 2);
    ("outlook", 2); ("due diligence", 3); ("dcf", 2); ("balance sheet", 2);
    ("income statement", 2);
    ("risk", 2); ("reward", 2); ("opportunity", 2); ("upside", 2);
    ("downside", 2); ("conviction", 2); ("thesis", 2); ("moat", 3);
    ("competitive advantage", 3) ].

Definition medium_value_keywords : list string :=
  [ "stock"; "share"; "price"; "market cap"; "growth"; "quarter"; "quarterly";
    "report"; "guidance"; "beat"; "miss"; "estimate"; "market"; "sector";
    "revenue"; "sales"; "profit"; "margin"; "roi"; "return"; "performance";
    "financial"; "investor"; "shareholder"; "value"; "worth"; "evaluation";
    "recommendation"; "rating"; "upgrade"; "downgrade"; "catalyst";
    "momentum" ].

Definition spam_keywords : list string :=
  [ "subscribe"; "like and subscribe"; "check out my"; "click here";
    "giveaway"; "free money"; "get rich"; "first!"; "early squad";
    "notification squad"; "who else"; "anyone else"; "came here from";
    "full video"; "check my channel"; "dm me"; "contact me"; "crypto" ].

(** An entry of [scored_comments]. *)
Record scored := mk_scored {
  sc_comment : comment;
  sc_score : nat;
  sc_word_count : nat
}.

(** The relevance score of the loop body, from [score = 0] to the last
    length bonus. *)
Definition relevance_score (txt : string) (word_count : nat) : nat :=
  let score := 0 in
  let score :=
    fold_left (fun sc kw => if contains (fst kw) txt then sc + snd kw else sc)
              high_value_keywords score in
  let score :=
    fold_left (fun sc kw => if contains kw txt then sc + 1 else sc)
              medium_value_keywords score in
  let score := if 30 <? word_count then score + 1 else score in
  let score := if 50 <? word_count then score + 2 else score in
  let score := if 100 <? word_count then score + 2 else score in
  score.

(** One pass of the loop body on [c]: [None] for each [continue] and for a
    score under 4, otherwise the entry appended to [scored_comments]. *)
Definition score_comment (c : comment) : option scored :=
  let txt := lower (text c) in
  let word_count := length (split txt) in
  if word_count <? 10 then None
  else if String.length (strip txt) <? 40 then None
  else if existsb (fun spam => contains spam txt) spam_keywords then None
  else
    let score := relevance_score txt word_count in
    if 4 <=? score
    then Some (mk_scored c score word_count)
    else None.

Definition filter_step (scored_comments : list scored) (c : comment) : list scored :=
  match score_comment c with
  | Some e => scored_comments ++ [e]
  | None => scored_comments
  end.

(** [list.sort(key=lambda x: x['score'], reverse=True)]: Python's sort is
    stable, also with [reverse=True], so entries of equal score keep their
    order.  Written as a stable insertion sort: [x], which precedes all of
    [l] in the list being sorted, goes in front of the first entry whose
    score is not larger than its own. *)
Fixpoint insert_desc (x : scored) (l : list scored) : list scored :=
  match l with
  | [] => [x]
  | y :: l' =>
      if sc_score x <? sc_score y then y :: insert_desc x l' else x :: l
  end.

Fixpoint sort_desc (l : list scored) : list scored :=
  match l with
  | [] => []
  | x :: l' => insert_desc x (sort_desc l')
  end.

Definition filter_financial_comments (comments : list comment) : list comment :=
  let scored_comments := fold_left filter_step comments [] in
  let scored_comments := sort_desc scored_comments in
  map sc_comment scored_comments.

(** The claim's reading of the filter: which comments qualify, and with
    which score.  The score is written after the specification, not after
    the loop: the weights of the high-value keywords that occur in the
    text, one point for every medium-value keyword that occurs, and the
    length bonus, which is 1 above 30 words, 3 above 50 and 5 above 100. *)
Definition keyword_points (txt : string) : nat :=
  list_sum
    (map snd (List.filter (fun kw => contains (fst kw) txt) high_value_keywords))
  + length (List.filter (fun kw => contains kw txt) medium_value_keywords).

Definition length_bonus (word_count : nat) : nat :=
  if 100 <? word_count then 5
  else if 50 <? word_count then 3
  else if 30 <? word_count then 1
  else 0.

Definition comment_score (c : comment) : nat :=
  keyword_points (lower (text c))
  + length_bonus (length (split (lower (text c)))).

Definition qualifies (c : comment) : bool :=
  (10 <=? length (split (lower (text c))))
  && (40 <=? String.length (strip (lower (text c))))
  && negb (existsb (fun spam => contains spam (lower (text c))) spam_keywords)
  && (4 <=? comment_score c).

Definition entry_of (c : comment) : scored :=
  mk_scored c (comment_score c) (length (split (lower (text c)))).

Definition score_ge (a b : scored) : Prop := sc_score b <= sc_score a.

(** The order of the claim on the output: non-increasing score. *)
Definition ranked (out : list comment) : Prop :=
  StronglySorted (fun a b => comment_score b <= comment_score a) out.


(** ** Python values, exceptions *)

(** The values that the provider dicts and the metrics dict hold.
    [PyRoot q] is the float [sqrt q], which the volatility produces and no
    rational equals in general. *)
Inductive pyval :=
| PyNone
| PyNum (q : Q)
| PyStr (s : string)
| PyRoot (q : Q).

(** [bool(v)]. *)
Definition truthy (v : pyval) : bool :=
  match v with
  | PyNone => false
  | PyNum q => negb (Qeq_bool q 0)
  | PyStr s => negb (String.eqb s "")
  | PyRoot q => negb (Qeq_bool q 0)
  end.

(** [a or b]. *)
Definition py_or (a b : pyval) : pyval := if truthy a then a else b.

(** [d.get(k)]. *)
Definition dict_get (d : gmap string pyval) (k : string) : pyval :=
  default PyNone (d !! k).

(** The outcome of code that may raise: a value, or the exception with its
    message. *)
Inductive res (A : Type) :=
| Ok (a : A)
| Raise (msg : string).
Arguments Ok {A} a.
Arguments Raise {A} msg.

#[global] Instance res_ret : MRet res := fun A a => Ok a.
#[global] Instance res_bind : MBind res := fun A B k m =>
  match m with
  | Ok a => k a
  | Raise msg => Raise msg
  end.

(** ** Metrics engine: [compute_company_metrics] *)

(** A history record.  A field is [None] when the key is missing or holds
    [None]; [row.get] does not tell the two apart. *)
Record row := mk_row {
  Close : option Q;
  close : option Q;
  Volume : option Q;
  volume : option Q
}.

(** The dict returned by [fetch_yahoo_company], with the [_metrics_text]
    that the orchestrator attaches. *)
Record yahoo_data := mk_yahoo {
  y_info : gmap string pyval;
  y_summary : pyval;
  y_history : option (list row);
  y_metrics_text : option string
}.

(** [a or b] on two [row.get] results: zero and [None] are falsy. *)
Definition num_or (a b : option Q) : option Q :=
  match a with
  | Some q => if Qeq_bool q 0 then b else a
  | None => b
  end.

(** [int(v)]: truncation toward zero. *)
Definition py_int (v : Q) : Z := Z.quot (Qnum v) (Zpos (Qden v)).

(** [a / b] on floats. *)
Definition py_div (a b : Q) : res Q :=
  if Qeq_bool b 0 then Raise "float division by zero" else Ok (a / b)%Q.

(** [sum(l)]. *)
Definition py_sum (l : list Q) : Q := fold_left Qplus l 0%Q.

(** [values[-window:]]; with [window = 0] this is [values[0:]]. *)
Definition neg_slice {A : Type} (window : nat) (values : list A) : list A :=
  match window with
  | O => values
  | _ => skipn (length values - window) values
  end.

(** The loop over [history]: the close and volume samples.  On rationals
    neither [float(c)] nor [int(v)] raises. *)
Definition history_step (acc : list Q * list Z) (r : row) : list Q * list Z :=
  let c := num_or (Close r) (close r) in
  let v := num_or (Volume r) (volume r) in
  let closes := match c with Some q => fst acc ++ [q] | None => fst acc end in
  let volumes :=
    match v with Some q => snd acc ++ [py_int q] | None => snd acc end in
  (closes, volumes).

Definition history_samples (history : list row) : list Q * list Z :=
  fold_left history_step history ([], []).

Definition moving_average (values : list Q) (window : nat) : res (option Q) :=
  if length values <? window then Ok None
  else
    q ← py_div (py_sum (neg_slice window values)) (inject_Z (Z.of_nat window));
    Ok (Some q).

(** [moving_average(closes, w) or moving_average(closes, min(w', len(closes)))];
    the second call is made only when the first result is falsy. *)
Definition moving_average_or (closes : list Q) (w w' : nat) : res pyval :=
  a ← moving_average closes w;
  if truthy (from_option PyNum PyNone a) then Ok (from_option PyNum PyNone a)
  else
    b ← moving_average closes (Nat.min w' (length closes));
    Ok (from_option PyNum PyNone b).

(** The loop over [range(1, len(closes))]; a zero previous close raises and
    the step is skipped. *)
Fixpoint daily_returns (closes : list Q) : list Q :=
  match closes with
  | prev :: rest =>
      match rest with
      | cur :: _ =>
          match py_div (cur - prev)%Q prev with
          | Ok r => r :: daily_returns rest
          | Raise _ => daily_returns rest
          end
      | [] => []
      end
  | [] => []
  end.

(** [statistics.pvariance]: the mean squared deviation from the mean.
    [pstdev] is its square root.  On floats [pstdev] raises when a return
    is infinite or not a number, which a quotient of two finite closes can
    be; on rationals no such return exists, so here it does not raise. *)
Definition pvariance (data : list Q) : Q :=
  let n := inject_Z (Z.of_nat (length data)) in
  let mu := (py_sum data / n)%Q in
  (py_sum (map (fun x => (x - mu) * (x - mu))%Q data) / n)%Q.

(** The block under [if closes:]. *)
Definition close_metrics (closes : list Q) (metrics : gmap string pyval)
  : res (gmap string pyval) :=
  let pct_change :=
    match py_div (List.last closes 0 - hd 0 closes)%Q (hd 0%Q closes) with
    | Ok q => PyNum (q * 100)%Q
    | Raise _ => PyNone
    end in
  let metrics := <["period_pct_change" := pct_change]> metrics in
  ma_50 ← moving_average_or closes 50 10;
  let metrics := <["ma_50" := ma_50]> metrics in
  ma_200 ← moving_average_or closes 200 50;
  let metrics := <["ma_200" := ma_200]> metrics in
  let returns := daily_returns closes in
  match returns with
  | _ :: _ =>
      (* pstdev(returns) * sqrt(252) = sqrt(pvariance(returns) * 252) *)
      Ok (<["volatility_annual_approx" := PyRoot (pvariance returns * 252)%Q]> metrics)
  | [] => Ok (<["volatility_annual_approx" := PyNone]> metrics)
  end.

Definition compute_company_metrics (yahoo : yahoo_data) : res (gmap string pyval) :=
  let info := y_info yahoo in
  let history := default [] (y_history yahoo) in
  let metrics : gmap string pyval := ∅ in
  let metrics := <["market_cap" := dict_get info "marketCap"]> metrics in
  let metrics := <["trailing_pe" := dict_get info "trailingPE"]> metrics in
  let metrics := <["forward_pe" := dict_get info "forwardPE"]> metrics in
  let metrics := <["beta" := dict_get info "beta"]> metrics in
  let metrics := <["sector" := dict_get info "sector"]> metrics in
  let metrics := <["industry" := dict_get info "industry"]> metrics in
  let (closes, volumes) := history_samples history in
  metrics ←
    match closes with
    | _ :: _ => close_metrics closes metrics
    | [] => Ok metrics
    end;
  let metrics :=
    match volumes with
    | _ :: _ =>
        <["avg_volume" :=
            PyNum (inject_Z (fold_left Z.add volumes 0%Z)
                   / inject_Z (Z.of_nat (length volumes)))%Q]> metrics
    | [] => metrics
    end in
  Ok metrics.

(** ** The outside world *)

(** What [requests.get] returns: the status code, and what [r.json()]
    gives (or the exception it raises on a malformed body). *)
Record response (A : Type) := mk_response {
  status_code : nat;
  json : res A
}.
Arguments mk_response {A} status_code json.
Arguments status_code {A} r.
Arguments json {A} r.

(** An item of the video search: [v["id"]["videoId"]] ([None] when a key
    on the path is missing, a [KeyError]) and [v["snippet"].get("title")]. *)
Record video_item := mk_video_item {
  videoId : option string;
  title : option string
}.

(** The [snippet] of a top-level comment. *)
Record comment_item := mk_comment_item {
  authorDisplayName : option string;
  textDisplay : string
}.

(** A page of [commentThreads]. *)
Record comment_page := mk_comment_page {
  items : list comment_item;
  nextPageToken : option string
}.

(** The configuration and the providers.  A provider answers a request by
    a value or by an exception (time-out, connection error, SDK error); the
    same request gets the same answer during one run. *)
Record world := mk_world {
  YOUTUBE_API_KEY : option string;
  ANTHROPIC_API_KEY : option string;
  (* yf.Ticker(ticker): the handle is built without a request; the
     library raises on a symbol that it refuses *)
  yf_Ticker : string -> res unit;
  (* yf.Ticker(ticker).info *)
  ticker_info : string -> res (gmap string pyval);
  (* yf.Ticker(ticker).history(period="90d") as records; empty for an
     empty or missing frame *)
  ticker_history : string -> res (list row);
  (* the MediaWiki query for a title: data["query"]["pages"].values() *)
  wikipedia_api : string -> res (response (list (gmap string pyval)));
  (* youtube/v3/search for q with maxResults: the "items" *)
  youtube_search : string -> nat -> res (response (list video_item));
  (* youtube/v3/commentThreads for a video and a page token *)
  youtube_comment_threads :
    string -> option string -> res (response comment_page);
  (* the Messages API for a prompt and max_tokens: the completion text *)
  anthropic_messages : string -> nat -> res string
}.

(** A call that leaves the process. *)
Inductive event :=
| CallTickerInfo (ticker : string)
| CallTickerHistory (ticker : string)
| CallWikipedia (query : string)
| CallYouTubeSearch (q : string) (max_results : nat)
| CallYouTubeComments (video_id : string) (page_token : option string)
| CallAnthropic (prompt : string) (max_tokens : nat).

(** ** Effectful code

    A computation extends the trace of calls made so far and ends in a
    value or an exception; [None] is a run that has not finished within
    the fuel given to its loops. *)
Definition M (A : Type) : Type := list event -> option (res A * list event).

Definition ret {A : Type} (a : A) : M A := fun tr => Some (Ok a, tr).

Definition raise {A : Type} (msg : string) : M A := fun tr => Some (Raise msg, tr).

Definition diverge {A : Type} : M A := fun _ => None.

Definition bind {A B : Type} (m : M A) (k : A -> M B) : M B :=
  fun tr =>
    match m tr with
    | Some (Ok a, tr') => k a tr'
    | Some (Raise msg, tr') => Some (Raise msg, tr')
    | None => None
    end.

(** [try: m except Exception as e: handler e]. *)
Definition try_except {A : Type} (m : M A) (handler : string -> M A) : M A :=
  fun tr =>
    match m tr with
    | Some (Ok a, tr') => Some (Ok a, tr')
    | Some (Raise msg, tr') => handler msg tr'
    | None => None
    end.

(** A provider call: recorded, then answered. *)
Definition call {A : Type} (e : event) (answer : res A) : M A :=
  fun tr => Some (answer, tr ++ [e]).

(** A pure step that may raise. *)
Definition lift {A : Type} (r : res A) : M A := fun tr => Some (r, tr).

#[global] Instance M_ret : MRet M := fun A a => ret a.
#[global] Instance M_bind : MBind M := fun A B k m => bind m k.

(** [not key] for a key read with [os.getenv]. *)
Definition unset (key : option string) : bool :=
  match key with
  | Some k => String.eqb k ""
  | None => true
  end.

(** [r.raise_for_status()]. *)
Definition raise_for_status {A : Type} (r : response A) : M unit :=
  if (400 <=? status_code r) && (status_code r <? 600)
  then raise "HTTPError" else ret tt.

(** ** Video-comment fetcher *)

(** The [for item in data.get("items", [])] loop, with its [break]. *)
Fixpoint add_items (max_comments : nat) (its : list comment_item)
    (comments : list comment) : list comment :=
  match its with
  | [] => comments
  | item :: rest =>
      let comments :=
        comments ++ [mk_comment (authorDisplayName item) (textDisplay item) ""] in
      if max_comments <=? length comments then comments
      else add_items max_comments rest comments
  end.

(** The [while len(comments) < max_comments] loop of
    [fetch_comments_for_video] and the [return comments] after it; one unit
    of fuel per page requested. *)
Fixpoint fetch_comments_loop (w : world) (fuel : nat) (video_id : string)
    (max_comments : nat) (page_token : option string)
    (comments : list comment) : M (list comment) :=
  if length comments <? max_comments then
    match fuel with
    | O => diverge
    | S fuel' =>
        r ← call (CallYouTubeComments video_id page_token)
                  (youtube_comment_threads w video_id page_token);
        if status_code r =? 403 then ret []
        else
          raise_for_status r;;
          data ← lift (json r);
          let comments := add_items max_comments (items data) comments in
          match nextPageToken data with
          | Some page =>
              if String.eqb page "" then ret comments
              else fetch_comments_loop w fuel' video_id max_comments
                     (Some page) comments
          | None => ret comments
          end
    end
  else ret comments.

Definition fetch_comments_for_video (w : world) (fuel : nat)
    (video_id : string) (max_comments : nat) : M (list comment) :=
  if unset (YOUTUBE_API_KEY w) then ret []
  else
    try_except
      (fetch_comments_loop w fuel video_id max_comments None [])
      (fun _ => ret []).

Record video_summary := mk_video_summary {
  vs_video_id : string;
  vs_title : string;
  vs_url : string;
  vs_top_comments : list comment
}.

(** The dict returned by [fetch_youtube_comments_for_query]. *)
Record youtube_data := mk_youtube_data {
  all_comments : list comment;
  videos : list video_summary
}.

Definition financial_keywords : list string :=
  [ "stock"; "invest"; "earnings"; "analysis"; "buy"; "sell"; "financial";
    "dividend"; "valuation"; "portfolio"; "market" ].

(** The [for v in videos] loop and the [return] after it.  The three
    accumulators are [all_comments], [video_summaries] and
    [videos_with_comments]. *)
Fixpoint videos_loop (w : world) (fuel : nat) (max_videos : nat)
    (max_comments_per_video : nat) (vs : list video_item)
    (all : list comment) (video_summaries : list video_summary)
    (videos_with_comments : nat) : M youtube_data :=
  match vs with
  | [] => ret (mk_youtube_data all video_summaries)
  | v :: rest =>
      if max_videos <=? videos_with_comments
      then ret (mk_youtube_data all video_summaries)
      else
        vid ← match videoId v with
               | Some vid => ret vid
               | None => raise "KeyError"
               end;
        let video_title := default "Unknown" (title v) in
        let title_lower := lower video_title in
        let is_financial :=
          existsb (fun keyword => contains keyword title_lower)
                  financial_keywords in
        if negb is_financial
        then videos_loop w fuel max_videos max_comments_per_video rest
               all video_summaries videos_with_comments
        else
          comment_list ←
            fetch_comments_for_video w fuel vid max_comments_per_video;
          match comment_list with
          | [] =>
              videos_loop w fuel max_videos max_comments_per_video rest
                all video_summaries videos_with_comments
          | _ :: _ =>
              let relevant_comments := filter_financial_comments comment_list in
              match relevant_comments with
              | [] =>
                  videos_loop w fuel max_videos max_comments_per_video rest
                    all video_summaries videos_with_comments
              | _ :: _ =>
                  videos_loop w fuel max_videos max_comments_per_video rest
                    (all ++ relevant_comments)
                    (video_summaries ++
                       [mk_video_summary vid video_title
                          ("https://www.youtube.com/watch?v=" +:+ vid)
                          (firstn 3 relevant_comments)])
                    (S videos_with_comments)
              end
          end
  end.

Definition no_youtube_data : youtube_data := mk_youtube_data [] [].

Definition fetch_youtube_comments_for_query (w : world) (fuel : nat)
    (query : string) (max_videos : nat) (max_comments_per_video : nat)
    : M youtube_data :=
  if unset (YOUTUBE_API_KEY w) then ret no_youtube_data
  else
    try_except
      (let financial_query := query +:+ " stock analysis investment earnings" in
       r ← call (CallYouTubeSearch financial_query (max_videos * 3))
                 (youtube_search w financial_query (max_videos * 3));
       if status_code r =? 403 then ret no_youtube_data
       else
         raise_for_status r;;
         vs ← lift (json r);
         videos_loop w fuel max_videos max_comments_per_video vs [] [] 0)
      (fun _ => ret no_youtube_data).

(** ** Comment-corpus analysis *)

(** A parsed JSON value. *)
#[local] Unset Elimination Schemes.
Inductive jval :=
| JNull
| JBool (b : bool)
| JNum (q : Q)
| JStr (s : string)
| JArr (l : list jval)
| JObj (l : list (string * jval)).
#[local] Set Elimination Schemes.

Definition safe_truncate (txt : string) (max_len : nat) : string :=
  if String.eqb txt "" then txt
  else if String.length txt <=? max_len then txt
       else take_str max_len txt +:+ "...".

(** [c.get("body") or c.get("text") or ""]. *)
Definition comment_text (c : comment) : string :=
  if negb (String.eqb (body c) "") then body c
  else if negb (String.eqb (text c) "") then text c
  else "".

(** One pass of the loop over [comments[:30]]. *)
Definition comment_sample (c : comment) : string :=
  safe_truncate (comment_text c) 800.

(** The list built by the loop over [comments[:30]]. *)
Definition sample_texts (comments : list comment) : list string :=
  map comment_sample (firstn 30 comments).

(** [s.find(c)] and [s.rfind(c)] for a one-character [c]; [None] is
    Python's [-1]. *)
Fixpoint find_char (c : ascii) (s : string) : option nat :=
  match s with
  | EmptyString => None
  | String a s' => if Ascii.eqb a c then Some 0 else S <$> find_char c s'
  end.

Fixpoint rfind_char (c : ascii) (s : string) : option nat :=
  match s with
  | EmptyString => None
  | String a s' =>
      match rfind_char c s' with
      | Some i => Some (S i)
      | None => if Ascii.eqb a c then Some 0 else None
      end
  end.

Definition newline : string := String (ascii_of_nat 10) EmptyString.

(** [anthropic_complete]: without an API key it raises before any call;
    otherwise the SDK or the HTTP request produces the text or raises. *)
Definition anthropic_complete (w : world) (prompt : string) (max_tokens : nat)
  : M string :=
  if unset (ANTHROPIC_API_KEY w) then raise "ANTHROPIC_API_KEY not configured"
  else call (CallAnthropic prompt max_tokens) (anthropic_messages w prompt max_tokens).

(** The canonical analysis of an empty corpus. *)
Definition empty_analysis (source_name : string) : gmap string jval :=
  <["source" := JStr source_name]>
  (<["summary" := JStr ""]>
  (<["sentiment" := JStr "neutral"]>
  (<["themes" := JArr []]>
  (<["representative" := JArr []]> ∅)))).

(** The analysis returned when the provider call raises. *)
Definition failed_analysis (source_name : string) : gmap string jval :=
  <["source" := JStr source_name]>
  (<["summary" := JStr "(analysis failed)"]>
  (<["sentiment" := JStr "unknown"]>
  (<["themes" := JArr []]>
  (<["representative" := JArr []]> ∅)))).

(** The last [return]: the raw response as the summary. *)
Definition summary_only (source_name resp : string) : gmap string jval :=
  <["source" := JStr source_name]> (<["summary" := JStr resp]> ∅).

(** [payload.setdefault("source", source_name)]. *)
Definition setdefault_source (payload : gmap string jval) (source_name : string)
  : gmap string jval :=
  match payload !! "source" with
  | Some _ => payload
  | None => <["source" := JStr source_name]> payload
  end.

Section Analysis.

(** [json.loads] on a span that starts with an opening brace: the object,
    or the decoding error. *)
Variable json_loads : string -> res (gmap string jval).

(** The fixed text of the template of [build_analyze_comments_prompt]
    before and after the comments. *)
Variables analyze_prompt_head analyze_prompt_tail : string.

Definition build_analyze_comments_prompt (samples : list string) : string :=
  let joined := join (newline +:+ "---" +:+ newline) samples in
  analyze_prompt_head +:+ joined +:+ analyze_prompt_tail.

(** The second [try] block: the payload it returns, or [None] when it
    falls through (no brace found, or [json.loads] raises). *)
Definition parse_analysis (resp source_name : string)
  : option (gmap string jval) :=
  let txt := strip resp in
  match find_char "{" txt, rfind_char "}" txt with
  | Some start, Some end_ =>
      match json_loads (slice txt start (end_ + 1)) with
      | Ok payload => Some (setdefault_source payload source_name)
      | Raise _ => None
      end
  | _, _ => None
  end.

Definition analyze_comments_with_anthropic (w : world)
    (comments : list comment) (source_name : string)
  : M (gmap string jval) :=
  match comments with
  | [] => ret (empty_analysis source_name)
  | _ :: _ =>
      let prompt := build_analyze_comments_prompt (sample_texts comments) in
      attempt ← try_except
                  (resp ← anthropic_complete w prompt 800; ret (Some resp))
                  (fun _ => ret None);
      match attempt with
      | None => ret (failed_analysis source_name)
      | Some resp =>
          match parse_analysis resp source_name with
          | Some payload => ret payload
          | None => ret (summary_only source_name resp)
          end
      end
  end.

End Analysis.

(** ** Orchestrator *)

(** The metadata dict of [validate_ticker]; [m_name] is [PyNone] when the
    key is not set. *)
Record ticker_meta := mk_meta {
  m_message : string;
  m_name : pyval;
  m_info : gmap string pyval
}.

(** The dict returned by [compare_and_summarize]. *)
Record comparator_result := mk_comparator {
  markdown : string;
  source : string;
  inputs : pyval * pyval * string;
  error : option string
}.

Record report_header := mk_header {
  h_title : string;
  h_sources : list string;
  h_generated_at : string
}.

(** The values of the dict returned by [generate_company_report]. *)
Inductive report_value :=
| RStr (s : string)
| RVal (v : pyval)
| RDict (d : gmap string pyval)
| RYahoo (y : yahoo_data)
| RAnalyses (l : list (gmap string jval))
| RVideos (l : list video_summary)
| RComparator (c : comparator_result)
| RHeader (h : report_header).

(** [not info] on a dict. *)
Definition empty_dict (d : gmap string pyval) : bool := size d =? 0.

Definition extract_ticker_metadata_from_info (info : gmap string pyval)
  : gmap string pyval :=
  if empty_dict info then ∅
  else
    <["name" := py_or (dict_get info "longName") (dict_get info "shortName")]>
    (<["sector" := dict_get info "sector"]>
    (<["industry" := dict_get info "industry"]>
    (<["market_cap" := dict_get info "marketCap"]>
    (<["trailing_pe" := dict_get info "trailingPE"]>
    (<["forward_pe" := dict_get info "forwardPE"]>
    (<["beta" := dict_get info "beta"]>
    (<["website" := dict_get info "website"]>
    (<["country" := dict_get info "country"]> ∅)))))))).

(** The loop over the pages of the MediaWiki answer. *)
Fixpoint first_wikipedia_page (pages : list (gmap string pyval))
  : gmap string pyval :=
  match pages with
  | [] => ∅
  | page :: rest =>
      match page !! "missing" with
      | Some _ => first_wikipedia_page rest
      | None =>
          <["title" := dict_get page "title"]>
          (<["summary" := dict_get page "extract"]>
          (<["url" := dict_get page "fullurl"]> ∅))
      end
  end.

Definition fetch_wikipedia_summary (w : world) (query : string)
  : M (gmap string pyval) :=
  try_except
    (r ← call (CallWikipedia query) (wikipedia_api w query);
     raise_for_status r;;
     pages ← lift (json r);
     ret (first_wikipedia_page pages))
    (fun _ => ret ∅).

(** [fetch_yahoo_company]: the handle is built before the [try], so an
    exception of [yf.Ticker] leaves the function; inside the [try], what
    has been stored in [result] before an exception stays there. *)
Definition fetch_yahoo_company (w : world) (ticker : string) : M yahoo_data :=
  lift (yf_Ticker w ticker);;
  let result := mk_yahoo ∅ (PyStr "") None None in
  got_info ← try_except
               (info ← call (CallTickerInfo ticker) (ticker_info w ticker);
                ret (Some info))
               (fun _ => ret None);
  match got_info with
  | None => ret result
  | Some info =>
      let result :=
        mk_yahoo info
          (py_or (dict_get info "longBusinessSummary")
             (py_or (dict_get info "shortBusinessSummary") (PyStr "")))
          None None in
      got_hist ← try_except
                   (hist ← call (CallTickerHistory ticker)
                                (ticker_history w ticker);
                    ret (Some hist))
                   (fun _ => ret None);
      match got_hist with
      | Some ((_ :: _) as records) =>
          ret (mk_yahoo (y_info result) (y_summary result) (Some records) None)
      | _ => ret result
      end
  end.

(** [validate_ticker]: here too [t = yf.Ticker(ticker)] comes before the
    [try], which guards the look-up [t.info] alone. *)
Definition validate_ticker (w : world) (ticker : string)
  : M (bool * ticker_meta) :=
  lift (yf_Ticker w ticker);;
  got_info ← try_except
               (info ← call (CallTickerInfo ticker) (ticker_info w ticker);
                ret (inl info))
               (fun e => ret (inr e));
  match got_info with
  | inr e => ret (false, mk_meta ("Failed to fetch ticker info: " +:+ e) PyNone ∅)
  | inl info =>
      if empty_dict info
      then ret (false,
                mk_meta ("Ticker " +:+ ticker +:+ " not found or no info available")
                        PyNone ∅)
      else
        let name := py_or (dict_get info "longName") (dict_get info "shortName") in
        if negb (truthy name)
        then ret (false,
                  mk_meta ("Ticker " +:+ ticker
                           +:+ " appears invalid (no company name found)")
                          PyNone info)
        else ret (true, mk_meta "ok" name info)
  end.

Section Orchestrator.

Variable json_loads : string -> res (gmap string jval).
Variables analyze_prompt_head analyze_prompt_tail : string.

(** [prompts.build_compare_prompt], a fixed template around its
    arguments. *)
Variable build_compare_prompt :
  pyval -> pyval -> list (gmap string jval) -> string -> string.

(** [format_metrics_text]: the metrics as lines of text; it formats
    floats, which is not modelled. *)
Variable format_metrics_text : gmap string pyval -> string.

(** [str(v)] on a number, [s.upper()], and
    [datetime.utcnow().isoformat()] at the time of the run. *)
Variable num_str : pyval -> string.
Variable upper : string -> string.
Variable utcnow_isoformat : string.

(** [str(v)], as an f-string applies it. *)
Definition py_str (v : pyval) : string :=
  match v with
  | PyStr s => s
  | PyNone => "None"
  | _ => num_str v
  end.

Definition compare_and_summarize (w : world) (yahoo : yahoo_data)
    (web : gmap string pyval) (social_summaries : list (gmap string jval))
  : M comparator_result :=
  let yahoo_summary :=
    py_or (y_summary yahoo)
      (if empty_dict (y_info yahoo) then PyStr ""
       else dict_get (y_info yahoo) "longBusinessSummary") in
  let web_summary :=
    if empty_dict web then PyStr "" else dict_get web "summary" in
  let metrics_text := default "" (y_metrics_text yahoo) in
  let prompt :=
    build_compare_prompt yahoo_summary web_summary social_summaries
      metrics_text in
  try_except
    (md ← anthropic_complete w prompt 2048;
     ret (mk_comparator md "anthropic"
            (yahoo_summary, web_summary, metrics_text) None))
    (fun e =>
       ret (mk_comparator
              ("# Error" +:+ newline +:+ "LLM comparator failed to run.")
              "anthropic"
              (yahoo_summary, web_summary, metrics_text) (Some e))).

Definition generate_company_report (w : world) (fuel : nat) (ticker : string)
  : M (gmap string report_value) :=
  validated ← validate_ticker w ticker;
  let ok := fst validated in
  let meta := snd validated in
  if negb ok
  then ret (<["error" := RStr "ticker_validation_failed"]>
            (<["message" := RStr (m_message meta)]> ∅))
  else
    let company_name := m_name meta in
    yahoo ← fetch_yahoo_company w ticker;
    web ← fetch_wikipedia_summary w (py_str company_name);
    yt_data ← fetch_youtube_comments_for_query w fuel (py_str company_name) 5 100;
    let yt_comments := all_comments yt_data in
    let yt_videos := videos yt_data in
    yt_analysis ← analyze_comments_with_anthropic json_loads
                    analyze_prompt_head analyze_prompt_tail
                    w yt_comments "YouTube";
    metrics ← lift (compute_company_metrics yahoo);
    let metrics_text := format_metrics_text metrics in
    let yahoo :=
      mk_yahoo (y_info yahoo) (y_summary yahoo) (y_history yahoo)
               (Some metrics_text) in
    comparator_result ← compare_and_summarize w yahoo web [yt_analysis];
    let header :=
      mk_header
        ("Company Insight Report: " +:+ py_str company_name
         +:+ " (" +:+ upper ticker +:+ ")")
        ["Yahoo Finance"; "Wikipedia"; "YouTube"]
        (utcnow_isoformat +:+ "Z") in
    ret (<["ticker" := RStr (upper ticker)]>
        (<["company_name" := RVal company_name]>
        (<["metadata" := RDict (extract_ticker_metadata_from_info (y_info yahoo))]>
        (<["yahoo" := RYahoo yahoo]>
        (<["wikipedia" := RDict web]>
        (<["social_analyses" := RAnalyses [yt_analysis]]>
        (<["youtube_videos" := RVideos yt_videos]>
        (<["metrics" := RDict metrics]>
        (<["metrics_text" := RStr metrics_text]>
        (<["comparator" := RComparator comparator_result]>
        (<["header" := RHeader header]> ∅))))))))))).

End Orchestrator.

(** ** Vocabulary of the statements *)

(** No derived numeric field is in the metrics dict. *)
Definition derived_fields_absent (metrics : gmap string pyval) : Prop :=
  metrics !! "period_pct_change" = None
  /\ metrics !! "ma_50" = None
  /\ metrics !! "ma_200" = None
  /\ metrics !! "volatility_annual_approx" = None
  /\ metrics !! "avg_volume" = None.

(** A history row as the market-data fetcher delivers it for a close
    price: the capitalised key only. *)
Definition close_row (c : Q) : row := mk_row (Some c) None None None.

(** The last [n] values of a series, and the arithmetic mean. *)
Definition lastn {A : Type} (n : nat) (l : list A) : list A :=
  skipn (length l - n) l.

Definition mean (l : list Q) : Q :=
  (py_sum l / inject_Z (Z.of_nat (length l)))%Q.

(** The arithmetic mean as the claim has it, written without the
    functions of the engine: the values added up one after the other,
    divided by their number. *)
Fixpoint running_total (acc : Q) (l : list Q) : Q :=
  match l with
  | [] => acc
  | x :: rest => running_total (acc + x)%Q rest
  end.

Definition arithmetic_mean (l : list Q) : Q :=
  (running_total 0 l / inject_Z (Z.of_nat (length l)))%Q.

(** Each value is smaller than the next one. *)
Fixpoint strictly_increasing (l : list Q) : bool :=
  match l with
  | a :: rest =>
      match rest with
      | b :: _ => negb (Qle_bool b a) && strictly_increasing rest
      | [] => true
      end
  | [] => true
  end.

(** The claim's reading of the long average: on the history of the closes
    [series] the metrics hold, under ["ma_200"], the arithmetic mean of the
    last 200 of them. *)
Definition long_average_is_mean_of_last_200 (info : gmap string pyval)
    (summary : pyval) (mtext : option string) (series : list Q) : Prop :=
  exists metrics q,
    compute_company_metrics
      (mk_yahoo info summary (Some (map close_row series)) mtext) = Ok metrics
    /\ metrics !! "ma_200" = Some (PyNum q)
    /\ (q == arithmetic_mean (lastn 200 series))%Q.

(** The sample that a row contributes to [closes] and to [volumes]. *)
Definition close_sample (r : row) : option Q := num_or (Close r) (close r).

Definition volume_sample (r : row) : option Z :=
  py_int <$> num_or (Volume r) (volume r).

(** A field that counts as a sample on its own: present and not zero. *)
Definition nonzero (o : option Q) : option Q :=
  match o with
  | Some q => if Qeq_bool q 0 then None else Some q
  | None => None
  end.

(** A row with the capitalised keys only, as the market-data provider
    names them. *)
Definition capitalised_only (r : row) : Prop :=
  close r = None /\ volume r = None.

Definition zero_field (o : option Q) : bool :=
  match o with
  | Some q => Qeq_bool q 0
  | None => false
  end.

(** The claim's reading of the sample sets: the rows whose ['Close'] is
    exactly 0 add nothing to the close samples, those whose ['Volume'] is
    exactly 0 add nothing to the volume samples, and no zero is among the
    close samples that the metrics are computed from. *)
Definition zero_rows_excluded (history : list row) : Prop :=
  fst (history_samples history)
  = fst (history_samples
           (List.filter (fun r => negb (zero_field (Close r))) history))
  /\ snd (history_samples history)
     = snd (history_samples
              (List.filter (fun r => negb (zero_field (Volume r))) history))
  /\ Forall (fun c => ~ (c == 0)%Q) (fst (history_samples history)).

(** The query sent to the video search. *)
Definition financial_query (query : string) : string :=
  query +:+ " stock analysis investment earnings".

(** The title test of the video loop. *)
Definition financial_title (v : video_item) : bool :=
  existsb (fun keyword => contains keyword (lower (default "Unknown" (title v))))
          financial_keywords.

(** The provider answers this request with the status 403. *)
Definition search_forbidden (w : world) (q : string) (max_results : nat) : Prop :=
  exists r, youtube_search w q max_results = Ok r /\ status_code r = 403.

Definition page_forbidden (w : world) (video_id : string)
    (page_token : option string) : Prop :=
  exists r,
    youtube_comment_threads w video_id page_token = Ok r /\ status_code r = 403.

(** The claim's reading of the 403 rule: a run of the fetch during which
    the search or any comment-thread page was answered 403 ends with no
    comments and no videos. *)
Definition forbidden_yields_empty (w : world) (fuel : nat) (query : string)
    (max_videos max_comments_per_video : nat) : Prop :=
  forall data tr,
    fetch_youtube_comments_for_query w fuel query max_videos
      max_comments_per_video [] = Some (Ok data, tr) ->
    ((In (CallYouTubeSearch (financial_query query) (max_videos * 3)) tr
      /\ search_forbidden w (financial_query query) (max_videos * 3))
     \/ (exists video_id page_token,
           In (CallYouTubeComments video_id page_token) tr
           /\ page_forbidden w video_id page_token)) ->
    data = no_youtube_data.

(** What the loop embeds for a text: the text itself up to [n] characters,
    its first [n] characters and an ellipsis beyond. *)
Definition cut (n : nat) (txt : string) : string :=
  if String.length txt <=? n then txt else take_str n txt +:+ "...".

(** ** Concrete inputs *)

(** The closes 1, 2, ..., 300. *)
Definition rising_series : list Q :=
  map (fun i => inject_Z (Z.of_nat i)) (seq 1 300).

(** The closes -200, ..., -1, 1, ..., 100: strictly increasing, 300 long,
    and the last 200 of them add up to zero. *)
Definition balanced_series : list Q :=
  map (fun i => inject_Z (Z.of_nat i - 201)) (seq 1 200)
  ++ map (fun i => inject_Z (Z.of_nat i)) (seq 1 100).

(** A first row that spells the close both ways, both zero. *)
Definition history_with_lowercase_zero : list row :=
  [ mk_row (Some 0%Q) (Some 0%Q) None None;
    mk_row (Some (5 # 1)%Q) None None None ].

(** Rows with the capitalised keys, the first close and volume zero. *)
Definition history_with_leading_zero : list row :=
  [ mk_row (Some 0%Q) None (Some 0%Q) None;
    mk_row (Some (10 # 1)%Q) None (Some (700 # 1)%Q) None;
    mk_row (Some (20 # 1)%Q) None (Some (900 # 1)%Q) None ].

(** [n] copies of one character. *)
Fixpoint repeat_char (a : ascii) (n : nat) : string :=
  match n with
  | O => EmptyString
  | S n' => String a (repeat_char a n')
  end.

(** A comment of 801 characters. *)
Definition long_comment : comment :=
  mk_comment (Some "ann") (repeat_char "a" 801) "".

(** The comment of the specification's scenario; it scores 11. *)
Definition substantive_comment : comment :=
  mk_comment (Some "ann")
    "I think this stock is overvalued and the pe ratio is way too high for this kind of growth, would not buy right now"
    "".

(** No provider can be reached and no key is configured. *)
Definition offline_world : world :=
  mk_world None None
    (fun _ => Ok tt)
    (fun _ => Raise "unreachable")
    (fun _ => Raise "unreachable")
    (fun _ => Raise "unreachable")
    (fun _ _ => Raise "unreachable")
    (fun _ _ => Raise "unreachable")
    (fun _ _ => Raise "unreachable").

(** The LLM provider answers in prose, without any brace. *)
Definition prose_reply : string := "The comments are mostly positive.".

Definition world_prose_reply : world :=
  mk_world None (Some "key")
    (fun _ => Ok tt)
    (fun _ => Raise "unreachable")
    (fun _ => Raise "unreachable")
    (fun _ => Raise "unreachable")
    (fun _ _ => Raise "unreachable")
    (fun _ _ => Raise "unreachable")
    (fun _ _ => Ok prose_reply).

(** Two candidate videos: the comment threads of the first answer 403,
    those of the second hold one substantive comment. *)
Definition world_second_video : world :=
  mk_world (Some "key") None
    (fun _ => Ok tt)
    (fun _ => Raise "unreachable")
    (fun _ => Raise "unreachable")
    (fun _ => Raise "unreachable")
    (fun _ _ =>
       Ok (mk_response 200
             (Ok [ mk_video_item (Some "v1") (Some "ACME stock analysis");
                   mk_video_item (Some "v2") (Some "Why I buy ACME") ])))
    (fun video_id _ =>
       if String.eqb video_id "v1"
       then Ok (mk_response 403 (Raise "no body"))
       else Ok (mk_response 200
                  (Ok (mk_comment_page
                         [ mk_comment_item (Some "ann") (text substantive_comment) ]
                         None))))
    (fun _ _ => Raise "unreachable").

(** The video platform answers every request with 403. *)
Definition world_forbidden : world :=
  mk_world (Some "key") None
    (fun _ => Ok tt)
    (fun _ => Raise "unreachable")
    (fun _ => Raise "unreachable")
    (fun _ => Raise "unreachable")
    (fun _ _ => Ok (mk_response 403 (Raise "no body")))
    (fun _ _ => Ok (mk_response 403 (Raise "no body")))
    (fun _ _ => Raise "unreachable").

(** A comment that the spam check rejects. *)
Definition spam_comment : comment :=
  mk_comment (Some "bob") "first! who else is here" "".

(** 91 days at the constant close 150. *)
Definition constant_history : list row :=
  map close_row (repeat (150 # 1)%Q 91).

(** The metrics hold the number [expected] (or its square root, for a
    [PyRoot]) under [key]. *)
Definition metric_is (yahoo : yahoo_data) (key : string) (expected : Q) : bool :=
  match compute_company_metrics yahoo with
  | Ok metrics =>
      match metrics !! key with
      | Some (PyNum q) => Qeq_bool q expected
      | Some (PyRoot q) => Qeq_bool q (expected * expected)
      | _ => false
      end
  | Raise _ => false
  end.

(** ** Proof automation *)

(** Unfolds the operations of [M] in the goal. *)
Ltac run_monad := cbv [mbind M_bind bind try_except call ret raise lift].

(** Reads a key of a dict built by [insert]s with literal keys. *)
Ltac lookup_literal :=
  rewrite ?lookup_insert_ne by done;
  first [apply lookup_insert_eq | apply lookup_empty].

(** ** Vocabulary for runs *)

(** Whenever [m] ends, it ends in a value. *)
Definition no_raise {A : Type} (m : M A) : Prop :=
  forall tr r tr', m tr = Some (r, tr') -> exists a, r = Ok a.

(** Whenever [m] ends, the calls it has added to the trace all satisfy
    [P]. *)
Definition emits {A : Type} (P : event -> Prop) (m : M A) : Prop :=
  forall tr r tr',
    m tr = Some (r, tr') -> exists evs, tr' = tr ++ evs /\ Forall P evs.

(** The calls to the video platform, and those to the LLM provider. *)
Definition is_youtube_call (e : event) : Prop :=
  match e with
  | CallYouTubeSearch _ _ | CallYouTubeComments _ _ => True
  | _ => False
  end.

Definition is_llm_call (e : event) : Prop :=
  match e with
  | CallAnthropic _ _ => True
  | _ => False
  end.

(** Whenever [m] ends in a value, the value satisfies [Q]. *)
Definition returns {A : Type} (Q : A -> Prop) (m : M A) : Prop :=
  forall tr a tr', m tr = Some (Ok a, tr') -> Q a.

(** From every trace [m] ends, in a value or in an exception. *)
Definition ends {A : Type} (m : M A) : Prop :=
  forall tr, exists r tr', m tr = Some (r, tr').

(** A page request for the comment threads of [video_id]. *)
Definition is_comment_page_of (video_id : string) (e : event) : Prop :=
  exists page_token, e = CallYouTubeComments video_id page_token.

(** [if not page] fails: the page names a successor. *)
Definition has_next_page (data : comment_page) : bool :=
  match nextPageToken data with
  | Some page => negb (String.eqb page "")
  | None => false
  end.

(** Every page of the video that names a successor holds a comment. *)
Definition pages_make_progress (w : world) (video_id : string) : Prop :=
  forall page_token r data,
    youtube_comment_threads w video_id page_token = Ok r ->
    json r = Ok data ->
    has_next_page data = true ->
    items data <> [].

(** What holds of every result of the video loop. *)
Definition youtube_data_ok (max_videos : nat) (data : youtube_data) : Prop :=
  length (videos data) <= max_videos
  /\ Forall (fun c => qualifies c = true) (all_comments data)
  /\ Forall (fun v =>
               1 <= length (vs_top_comments v) <= 3
               /\ (forall c, In c (vs_top_comments v) -> In c (all_comments data))
               /\ vs_url v = "https://www.youtube.com/watch?v=" +:+ vs_video_id v)
            (videos data)
  /\ (videos data = [] <-> all_comments data = []).

(** The calls to the market-data provider. *)
Definition is_market_call (e : event) : Prop :=
  match e with
  | CallTickerInfo _ | CallTickerHistory _ => True
  | _ => False
  end.

(** The name that the validator reads off the provider's metadata. *)
Definition company_name_of (info : gmap string pyval) : pyval :=
  py_or (dict_get info "longName") (dict_get info "shortName").

(** A dict with the three fields of an encyclopedia entry and no other. *)
Definition wikipedia_entry (d : gmap string pyval) : Prop :=
  is_Some (d !! "title") /\ is_Some (d !! "summary") /\ is_Some (d !! "url")
  /\ forall key, key <> "title" -> key <> "summary" -> key <> "url" ->
                 d !! key = None.

(** The LLM provider gives no text for this prompt: the key is not
    configured, or the call raises. *)
Definition llm_unavailable (w : world) (prompt : string) (max_tokens : nat)
  : Prop :=
  unset (ANTHROPIC_API_KEY w) = true
  \/ exists msg, anthropic_messages w prompt max_tokens = Raise msg.

(** [c] does not occur in [s]. *)
Definition lacks (c : ascii) (s : string) : Prop := find_char c s = None.

(** The markdown that stands for a failed fusion. *)
Definition comparator_placeholder : string :=
  "# Error" +:+ newline +:+ "LLM comparator failed to run.".

(** The eleven keys of a full report. *)
Definition report_keys : list string :=
  [ "ticker"; "company_name"; "metadata"; "yahoo"; "wikipedia";
    "social_analyses"; "youtube_videos"; "metrics"; "metrics_text";
    "comparator"; "header" ].

(** The provider knows the ticker ACME by its long name; nothing else can
    be reached and no key is configured. *)
Definition world_known_ticker : world :=
  mk_world None None
    (fun _ => Ok tt)
    (fun _ => Ok (<["longName" := PyStr "Acme Corp"]> ∅))
    (fun _ => Raise "unreachable")
    (fun _ => Raise "unreachable")
    (fun _ _ => Raise "unreachable")
    (fun _ _ => Raise "unreachable")
    (fun _ _ => Raise "unreachable").

(** The market-data library refuses every symbol: no handle is built. *)
Definition world_refused_symbol : world :=
  mk_world None None
    (fun _ => Raise "symbol refused")
    (fun _ => Ok (<["longName" := PyStr "Acme Corp"]> ∅))
    (fun _ => Raise "unreachable")
    (fun _ => Raise "unreachable")
    (fun _ _ => Raise "unreachable")
    (fun _ _ => Raise "unreachable")
    (fun _ _ => Raise "unreachable").

(** The video platform is reached with a key: the search finds one video
    on the topic, and every page of its comment threads holds one
    substantive comment and names a next page. *)
Definition world_endless_pages : world :=
  mk_world (Some "key") None
    (fun _ => Ok tt)
    (fun _ => Ok (<["longName" := PyStr "Acme Corp"]> ∅))
    (fun _ => Raise "unreachable")
    (fun _ => Raise "unreachable")
    (fun _ _ =>
       Ok (mk_response 200
             (Ok [ mk_video_item (Some "v1") (Some "ACME stock analysis") ])))
    (fun _ _ =>
       Ok (mk_response 200
             (Ok (mk_comment_page
                    [ mk_comment_item (Some "ann") (text substantive_comment) ]
                    (Some "next")))))
    (fun _ _ => Raise "unreachable").

(** A parser that reads every span as the same object. *)
Definition loads_bullish (span : string) : res (gmap string jval) :=
  Ok (<["sentiment" := JStr "bullish"]> ∅).

(** The text of the fixed-width float formats is not modelled: these
    stand-ins keep the runs of the orchestrator concrete. *)
Definition no_text (metrics : gmap string pyval) : string := "".

Definition no_prompt (yahoo_summary web_summary : pyval)
    (social_summaries : list (gmap string jval)) (metrics_text : string)
  : string := "".

(** The keys that the metrics engine copies from the fundamentals, and
    those it derives from the close samples. *)
Definition fundamental_keys : list (string * string) :=
  [ ("market_cap", "marketCap"); ("trailing_pe", "trailingPE");
    ("forward_pe", "forwardPE"); ("beta", "beta"); ("sector", "sector");
    ("industry", "industry") ].

Definition close_keys : list string :=
  [ "period_pct_change"; "ma_50"; "ma_200"; "volatility_annual_approx" ].

(** The window that a moving average ends up with on [n] samples: the
    nominal one when there are enough samples, the shorter fallback, cut
    to [n], otherwise. *)
Definition ma_window (nominal fallback n : nat) : nat :=
  if nominal <=? n then nominal else Nat.min fallback n.

(** [n] history rows at the close [c]. *)
Definition flat_history (c : Q) (n : nat) : list row :=
  map close_row (repeat c n).

(** ** The HTTP endpoint: [post_report] of [src/api.py] *)

(** What the endpoint gives back to the framework: the JSON content of a
    normal response, or the [HTTPException] it raises. *)
Inductive http_outcome :=
| JSONResponse (content : gmap string report_value)
| HTTPException (status : nat) (detail : string).

Section Api.

Variable json_loads : string -> res (gmap string jval).
Variables analyze_prompt_head analyze_prompt_tail : string.
Variable build_compare_prompt :
  pyval -> pyval -> list (gmap string jval) -> string -> string.
Variable format_metrics_text : gmap string pyval -> string.
Variable num_str : pyval -> string.
Variable upper : string -> string.
Variable utcnow_isoformat : string.

(** [json.loads(json.dumps(report, cls=CustomJSONEncoder))]: the content
    of the response, or the exception of the encoder. *)
Variable to_json_content :
  gmap string report_value -> res (gmap string report_value).

Definition post_report (w : world) (fuel : nat) (payload : gmap string string)
  : M http_outcome :=
  let ticker := default "" (payload !! "ticker") in
  if String.eqb ticker ""
  then ret (HTTPException 400 "ticker is required in JSON body")
  else
    try_except
      (report ← generate_company_report json_loads analyze_prompt_head
                  analyze_prompt_tail build_compare_prompt format_metrics_text
                  num_str upper utcnow_isoformat w fuel ticker;
       content ← lift (to_json_content report);
       ret (JSONResponse content))
      (fun e => ret (HTTPException 500 e)).

End Api.

(** An encoder that changes nothing. *)
Definition plain_content (report : gmap string report_value)
  : res (gmap string report_value) := Ok report.
(** *** The score that the loop accumulates *)

(** A loop that adds [f kw] for every [kw] that passes [p] ends with the
    sum of [f] over the entries that pass. *)
Lemma accumulated_weights {A : Type} (p : A -> bool) (f : A -> nat)
    (l : list A) (acc : nat) :
  fold_left (fun sc kw => if p kw then sc + f kw else sc) l acc
  = acc + list_sum (map f (List.filter p l)).
Proof.
  revert acc.
  induction l as [|kw l IH]; intros acc; cbn [fold_left List.filter].
  - cbn. lia.
  - rewrite IH. destruct (p kw); simpl; lia.
Qed.

Lemma list_sum_ones {A : Type} (l : list A) :
  list_sum (map (fun _ => 1) l) = length l.
Proof.
  induction l as [|x l IH]; [reflexivity|].
  simpl. now rewrite IH.
Qed.

(** The score of the loop body is the keyword points plus the length
    bonus: the two keyword loops add up the weights found, and the three
    bonus tests add 1, 3 or 5 in all. *)
Lemma relevance_score_points (txt : string) (word_count : nat) :
  relevance_score txt word_count
  = keyword_points txt + length_bonus word_count.
Proof.
  unfold relevance_score, keyword_points, length_bonus. cbv zeta.
  rewrite (accumulated_weights (fun kw => contains (fst kw) txt) snd
             high_value_keywords 0).
  rewrite (accumulated_weights (fun kw => contains kw txt) (fun _ => 1)
             medium_value_keywords).
  rewrite list_sum_ones.
  destruct (Nat.ltb_spec 30 word_count); destruct (Nat.ltb_spec 50 word_count);
    destruct (Nat.ltb_spec 100 word_count); lia.
Qed.

(** From here on the score is used through this equation only. *)
#[global] Opaque keyword_points length_bonus.

(** *** The loop collects the qualifying comments, in order *)

Lemma score_comment_qualifies (c : comment) :
  score_comment c = if qualifies c then Some (entry_of c) else None.
Proof.
  unfold score_comment, qualifies, entry_of, comment_score.
  set (txt := lower (text c)).
  set (wc := length (split txt)).
  cbv zeta.
  rewrite (Nat.leb_antisym wc 10).
  destruct (wc <? 10); cbn [negb andb]; [reflexivity|].
  rewrite (Nat.leb_antisym (String.length (strip txt)) 40).
  destruct (String.length (strip txt) <? 40); cbn [negb andb]; [reflexivity|].
  destruct (existsb _ spam_keywords); cbn [negb andb]; [reflexivity|].
  rewrite relevance_score_points.
  destruct (4 <=? keyword_points txt + length_bonus wc); reflexivity.
Qed.

Lemma fold_filter_step (cs : list comment) (acc : list scored) :
  fold_left filter_step cs acc = acc ++ map entry_of (List.filter qualifies cs).
Proof.
  revert acc.
  induction cs as [|c cs IH]; intros acc; simpl.
  - now rewrite app_nil_r.
  - rewrite IH. unfold filter_step.
    rewrite score_comment_qualifies.
    destruct (qualifies c); simpl; [|reflexivity].
    now rewrite <- app_assoc.
Qed.

(** *** The sort: a permutation, non-increasing, stable *)

Lemma insert_desc_perm (x : scored) (l : list scored) :
  Permutation (insert_desc x l) (x :: l).
Proof.
  induction l as [|y l IH]; simpl; [reflexivity|].
  destruct (sc_score x <? sc_score y); [|reflexivity].
  rewrite IH. apply perm_swap.
Qed.

Lemma sort_desc_perm (l : list scored) : Permutation (sort_desc l) l.
Proof.
  induction l as [|x l IH]; simpl; [reflexivity|].
  rewrite insert_desc_perm. now constructor.
Qed.

Lemma insert_desc_sorted (x : scored) (l : list scored) :
  StronglySorted score_ge l -> StronglySorted score_ge (insert_desc x l).
Proof.
  induction 1 as [|y l Hs IH Hy]; simpl.
  - repeat constructor.
  - destruct (sc_score x <? sc_score y) eqn:E.
    + apply Nat.ltb_lt in E. constructor; [exact IH|].
      rewrite insert_desc_perm. constructor; [unfold score_ge; lia|exact Hy].
    + apply Nat.ltb_ge in E. constructor; [now constructor|].
      constructor; [exact E|].
      eapply List.Forall_impl; [|exact Hy].
      unfold score_ge. intros z Hz. lia.
Qed.

Lemma sort_desc_sorted (l : list scored) : StronglySorted score_ge (sort_desc l).
Proof.
  induction l as [|x l IH]; simpl; [constructor|].
  now apply insert_desc_sorted.
Qed.

(** Stability: among the entries of any one score, sorting changes
    nothing. *)
Lemma insert_desc_stable (s : nat) (x : scored) (l : list scored) :
  List.filter (fun e => sc_score e =? s) (insert_desc x l)
  = List.filter (fun e => sc_score e =? s) (x :: l).
Proof.
  induction l as [|y l IH]; [reflexivity|].
  cbn [insert_desc].
  destruct (sc_score x <? sc_score y) eqn:E; [|reflexivity].
  apply Nat.ltb_lt in E.
  cbn [List.filter] in *. rewrite IH.
  destruct (sc_score x =? s) eqn:Ex; [|reflexivity].
  apply Nat.eqb_eq in Ex.
  assert ((sc_score y =? s) = false) as -> by (apply Nat.eqb_neq; lia).
  reflexivity.
Qed.

Lemma sort_desc_stable (s : nat) (l : list scored) :
  List.filter (fun e => sc_score e =? s) (sort_desc l)
  = List.filter (fun e => sc_score e =? s) l.
Proof.
  induction l as [|x l IH]; [reflexivity|].
  cbn [sort_desc]. rewrite insert_desc_stable.
  cbn [List.filter]. now rewrite IH.
Qed.

(** A list that is already non-increasing is left as it is. *)
Lemma sort_desc_sorted_id (l : list scored) :
  StronglySorted score_ge l -> sort_desc l = l.
Proof.
  induction 1 as [|x l Hs IH Hx]; [reflexivity|].
  cbn [sort_desc]. rewrite IH.
  destruct l as [|y l']; [reflexivity|].
  cbn [insert_desc].
  inversion Hx as [|? ? Hy _]; subst. unfold score_ge in Hy.
  assert ((sc_score x <? sc_score y) = false) as -> by (apply Nat.ltb_ge; lia).
  reflexivity.
Qed.

(** *** From entries back to comments *)

Lemma map_sc_comment_entry_of (l : list comment) :
  map sc_comment (map entry_of l) = l.
Proof.
  induction l as [|c l IH]; [reflexivity|].
  cbn [map]. now rewrite IH.
Qed.

Lemma sorted_entries (cs : list comment) :
  exists out : list comment,
    sort_desc (map entry_of cs) = map entry_of out /\ Permutation out cs.
Proof.
  exists (map sc_comment (sort_desc (map entry_of cs))).
  pose proof (sort_desc_perm (map entry_of cs)) as Hp.
  assert (Forall (fun e => entry_of (sc_comment e) = e) (sort_desc (map entry_of cs))) as Hall.
  { rewrite Hp. apply List.Forall_forall. intros e He.
    apply in_map_iff in He as (c & <- & _). reflexivity. }
  split.
  - rewrite map_map. symmetry. clear Hp.
    induction Hall as [|e l He _ IH]; [reflexivity|].
    cbn [map]. cbv beta. now rewrite He, IH.
  - now rewrite Hp, map_sc_comment_entry_of.
Qed.

Lemma filter_financial_comments_entries (cs : list comment) :
  map entry_of (filter_financial_comments cs)
  = sort_desc (map entry_of (List.filter qualifies cs)).
Proof.
  unfold filter_financial_comments. rewrite fold_filter_step. cbn [app].
  destruct (sorted_entries (List.filter qualifies cs)) as (out & -> & _).
  now rewrite map_sc_comment_entry_of.
Qed.

Lemma filter_entry_score (s : nat) (l : list comment) :
  List.filter (fun e => sc_score e =? s) (map entry_of l)
  = map entry_of (List.filter (fun c => comment_score c =? s) l).
Proof.
  induction l as [|c l IH]; [reflexivity|].
  cbn [map List.filter sc_score entry_of]. fold (entry_of c).
  destruct (comment_score c =? s); cbn [map]; now rewrite IH.
Qed.

Lemma map_entry_of_inj (l1 l2 : list comment) :
  map entry_of l1 = map entry_of l2 -> l1 = l2.
Proof.
  intros H. apply (f_equal (map sc_comment)) in H.
  now rewrite !map_sc_comment_entry_of in H.
Qed.

Lemma filter_output_facts (comments : list comment) :
  let out := filter_financial_comments comments in
  Permutation out (List.filter qualifies comments)
  /\ ranked out
  /\ (forall s : nat,
        List.filter (fun c => comment_score c =? s) out
        = List.filter (fun c => comment_score c =? s)
            (List.filter qualifies comments)).
Proof.
  intros out. unfold ranked.
  pose proof (filter_financial_comments_entries comments) as He.
  fold out in He.
  split; [|split].
  - destruct (sorted_entries (List.filter qualifies comments)) as (o & Ho & Hp).
    rewrite Ho in He. apply map_entry_of_inj in He. now rewrite He.
  - pose proof (sort_desc_sorted (map entry_of (List.filter qualifies comments))) as Hs.
    rewrite <- He in Hs. clear He.
    induction out as [|c l IH]; [constructor|].
    cbn [map] in Hs. inversion Hs as [|? ? Hl Hc]; subst.
    constructor; [now apply IH|].
    apply List.Forall_forall. intros d Hd.
    rewrite List.Forall_forall in Hc.
    specialize (Hc (entry_of d) (in_map entry_of l d Hd)).
    unfold score_ge in Hc. cbn [sc_score entry_of] in Hc. exact Hc.
  - intros s. apply map_entry_of_inj.
    rewrite <- !filter_entry_score, He. apply sort_desc_stable.
Qed.

Lemma filter_output_fixed (comments : list comment) :
  filter_financial_comments (filter_financial_comments comments)
  = filter_financial_comments comments.
Proof.
  destruct (filter_output_facts comments) as (Hp & Hs & _). unfold ranked in Hs.
  set (out := filter_financial_comments comments) in *.
  assert (List.filter qualifies out = out) as Hq.
  { apply forallb_filter_id. apply forallb_forall. intros c Hc.
    apply (Permutation_in _ Hp) in Hc. now apply filter_In in Hc. }
  apply map_entry_of_inj.
  rewrite filter_financial_comments_entries, Hq.
  apply sort_desc_sorted_id.
  clear Hp Hq. induction Hs as [|c l Hl IH Hc]; [constructor|].
  cbn [map]. constructor; [exact IH|].
  apply List.Forall_forall. intros e He.
  apply in_map_iff in He as (d & <- & Hd).
  rewrite List.Forall_forall in Hc. specialize (Hc d Hd).
  unfold score_ge. cbn [sc_score entry_of]. exact Hc.
Qed.

(** C1. The filter returns exactly the qualifying comments of its input:
    those with at least 10 words and 40 stripped characters in the
    lowercased text, no spam phrase, and a score of at least 4, the score
    being the weights of the keywords found plus the length bonus
    ([comment_score], which does not mention the loop).  They come ordered
    by non-increasing score, comments of equal score in their original
    order. *)
Theorem filter_financial_comments_spec (comments : list comment) :
  let out := filter_financial_comments comments in
  Permutation out (List.filter qualifies comments)
  /\ ranked out
  /\ (forall s : nat,
        List.filter (fun c => comment_score c =? s) out
        = List.filter (fun c => comment_score c =? s)
            (List.filter qualifies comments)).
Proof. exact (filter_output_facts comments). Qed.

(** C9. The filter is a function of its input list alone (it reads no
    state and calls no provider), so two applications to one list agree;
    and applied to its own output it returns that output, same comments in
    the same order. *)
Theorem filter_financial_comments_idempotent (comments : list comment) :
  filter_financial_comments (filter_financial_comments comments)
  = filter_financial_comments comments.
Proof. exact (filter_output_fixed comments). Qed.

(** ** Properties of the metrics engine *)

Lemma base_metrics_no_derived (info : gmap string pyval) :
  derived_fields_absent
    (<["industry" := dict_get info "industry"]>
     (<["sector" := dict_get info "sector"]>
     (<["beta" := dict_get info "beta"]>
     (<["forward_pe" := dict_get info "forwardPE"]>
     (<["trailing_pe" := dict_get info "trailingPE"]>
     (<["market_cap" := dict_get info "marketCap"]> ∅)))))).
Proof.
  unfold derived_fields_absent.
  repeat split; lookup_literal.
Qed.

(** C3. With an empty price history (the key missing, [None], or an empty
    list) the metrics dict holds none of the derived numeric fields: no
    percent change, no moving average, no volatility, no average volume. *)
Theorem empty_history_no_derived_metrics
    (info : gmap string pyval) (summary : pyval) (mtext : option string) :
  (exists metrics,
      compute_company_metrics (mk_yahoo info summary None mtext) = Ok metrics
      /\ derived_fields_absent metrics)
  /\ (exists metrics,
      compute_company_metrics (mk_yahoo info summary (Some []) mtext) = Ok metrics
      /\ derived_fields_absent metrics).
Proof.
  split; eexists; (split; [reflexivity | apply base_metrics_no_derived]).
Qed.

(** *** The samples read from the history *)

Lemma fold_history_step (h : list row) (cs : list Q) (vs : list Z) :
  fold_left history_step h (cs, vs)
  = (cs ++ omap close_sample h, vs ++ omap volume_sample h).
Proof.
  revert cs vs.
  induction h as [|r h IH]; intros cs vs.
  - cbn. now rewrite !app_nil_r.
  - cbn [fold_left]. unfold history_step at 2. cbn [fst snd].
    rewrite IH. cbn [omap list_omap]. unfold close_sample, volume_sample.
    destruct (num_or (Close r) (close r)) as [c|];
      destruct (num_or (Volume r) (volume r)) as [v|];
      cbn [fmap option_fmap option_map]; now rewrite <- ?app_assoc.
Qed.

Lemma history_samples_eq (h : list row) :
  history_samples h = (omap close_sample h, omap volume_sample h).
Proof. unfold history_samples. now rewrite fold_history_step. Qed.

(** *** Sums and moving averages *)

Lemma fold_Qplus_ge (l : list Q) (acc : Q) :
  Forall (fun p => 0 < p)%Q l -> (acc <= fold_left Qplus l acc)%Q.
Proof.
  intros H. revert acc.
  induction H as [|x l Hx _ IH]; intros acc; cbn [fold_left].
  - apply Qle_refl.
  - eapply Qle_trans; [|apply IH]. lra.
Qed.

Lemma py_sum_pos (l : list Q) :
  Forall (fun p => 0 < p)%Q l -> l <> [] -> (0 < py_sum l)%Q.
Proof.
  intros H Hne. destruct H as [|x l Hx Hl]; [congruence|].
  unfold py_sum. cbn [fold_left].
  eapply Qlt_le_trans; [|apply fold_Qplus_ge; exact Hl]. lra.
Qed.

Lemma Qeq_bool_pos (q : Q) : (0 < q)%Q -> Qeq_bool q 0 = false.
Proof.
  intros H. destruct (Qeq_bool q 0) eqn:E; [|reflexivity].
  apply Qeq_bool_iff in E. lra.
Qed.

Lemma window_nonzero (window : nat) :
  0 < window -> Qeq_bool (inject_Z (Z.of_nat window)) 0 = false.
Proof.
  intros H. apply Qeq_bool_pos.
  change 0%Q with (inject_Z 0). rewrite <- Zlt_Qlt. lia.
Qed.

Lemma moving_average_enough (values : list Q) (window : nat) :
  0 < window -> window <= length values ->
  moving_average values window
  = Ok (Some (py_sum (lastn window values) / inject_Z (Z.of_nat window))%Q).
Proof.
  intros Hw Hl. unfold moving_average.
  assert ((length values <? window) = false) as -> by (apply Nat.ltb_ge; lia).
  unfold py_div. rewrite (window_nonzero window Hw).
  destruct window; [lia|]. reflexivity.
Qed.

Lemma moving_average_short (values : list Q) (window : nat) :
  length values < window -> moving_average values window = Ok None.
Proof.
  intros Hl. unfold moving_average.
  now assert ((length values <? window) = true) as -> by (apply Nat.ltb_lt; lia).
Qed.

Lemma moving_average_or_ok (closes : list Q) (w w' : nat) :
  closes <> [] -> 0 < w -> 0 < w' ->
  exists v, moving_average_or closes w w' = Ok v.
Proof.
  intros Hne Hw Hw'. unfold moving_average_or.
  assert (0 < length closes) as Hlen by (destruct closes; [congruence|cbn; lia]).
  assert (exists b, moving_average closes (Nat.min w' (length closes)) = Ok b)
    as (b & Hb).
  { eexists. apply moving_average_enough; lia. }
  destruct (Nat.le_gt_cases w (length closes)) as [Hle|Hgt].
  - rewrite (moving_average_enough closes w Hw Hle). cbn [mbind res_bind].
    destruct (truthy _); [eauto|]. rewrite Hb. cbn [mbind res_bind]. eauto.
  - rewrite (moving_average_short closes w Hgt). cbn [mbind res_bind from_option truthy].
    rewrite Hb. cbn [mbind res_bind]. eauto.
Qed.

Lemma increasing_above (l : list Q) (a : Q) :
  strictly_increasing (a :: l) = true -> (0 <= a)%Q ->
  Forall (fun p => 0 < p)%Q l.
Proof.
  revert a.
  induction l as [|b l IH]; intros a Hinc Ha; [constructor|].
  cbn [strictly_increasing] in Hinc.
  apply andb_prop in Hinc as [Hab Hrest].
  assert (a < b)%Q as Hlt.
  { destruct (Qle_bool b a) eqn:E; [discriminate|].
    destruct (Qlt_le_dec a b) as [Hlt|Hle]; [exact Hlt|].
    apply Qle_bool_iff in Hle. congruence. }
  constructor; [lra|].
  apply (IH b); [exact Hrest|lra].
Qed.

(** The rows of a price series give its nonzero prices as close samples,
    and no volume sample. *)
Lemma close_rows_samples (series : list Q) :
  history_samples (map close_row series)
  = (List.filter (fun c => negb (Qeq_bool c 0)) series, []).
Proof.
  rewrite history_samples_eq. f_equal.
  - induction series as [|c l IH]; [reflexivity|].
    cbn [map omap list_omap List.filter].
    fold (omap close_sample (map close_row l)). rewrite IH.
    unfold close_sample, close_row. cbn [Close close num_or].
    now destruct (Qeq_bool c 0).
  - induction series as [|c l IH]; [reflexivity|].
    cbn [map omap list_omap]. fold (omap volume_sample (map close_row l)).
    now rewrite IH.
Qed.

Lemma filter_nonzero_positive (l : list Q) :
  Forall (fun p => 0 < p)%Q l ->
  List.filter (fun c => negb (Qeq_bool c 0)) l = l.
Proof.
  induction 1 as [|c l Hc _ IH]; [reflexivity|].
  cbn [List.filter]. now rewrite (Qeq_bool_pos c Hc), IH.
Qed.

(** With at least 200 positive close samples the long average is the one
    over the last 200. *)
Lemma ma_200_of_closes (info : gmap string pyval) (summary : pyval)
    (mtext : option string) (history : list row)
    (closes : list Q) (volumes : list Z) :
  history_samples history = (closes, volumes) ->
  Forall (fun p => 0 < p)%Q closes ->
  200 <= length closes ->
  exists metrics,
    compute_company_metrics (mk_yahoo info summary (Some history) mtext)
    = Ok metrics
    /\ metrics !! "ma_200"
       = Some (PyNum (py_sum (lastn 200 closes) / inject_Z (Z.of_nat 200))%Q).
Proof.
  intros Hsamples Hpos Hlen.
  unfold compute_company_metrics. cbn [y_history y_info default from_option id].
  rewrite Hsamples.
  destruct closes as [|c rest] eqn:Hs; [cbn in Hlen; lia|]. rewrite <- Hs in *.
  unfold close_metrics.
  destruct (moving_average_or_ok closes 50 10) as (a & ->);
    [rewrite Hs; congruence|lia|lia|].
  cbn [mbind res_bind].
  set (q := (py_sum (lastn 200 closes) / inject_Z (Z.of_nat 200))%Q).
  assert (moving_average_or closes 200 50 = Ok (PyNum q)) as ->.
  { unfold moving_average_or.
    rewrite (moving_average_enough closes 200) by lia.
    cbn [mbind res_bind from_option truthy]. fold q.
    assert (0 < q)%Q as Hq.
    { unfold q. apply Qlt_shift_div_l; [reflexivity|].
      rewrite Qmult_0_l. apply py_sum_pos.
      - unfold lastn. now apply Forall_drop.
      - intros Hnil. apply (f_equal length) in Hnil.
        unfold lastn in Hnil. rewrite length_skipn in Hnil. cbn in Hnil. lia. }
    now rewrite (Qeq_bool_pos q Hq). }
  cbn [mbind res_bind].
  destruct (daily_returns closes); destruct volumes; cbn [mbind res_bind];
    eexists; (split; [reflexivity|]);
    lookup_literal.
Qed.

(** The sum of the engine and the running total of the claim agree. *)
Lemma running_total_py_sum (l : list Q) (acc : Q) :
  running_total acc l = fold_left Qplus l acc.
Proof.
  revert acc. induction l as [|x l IH]; intros acc; [reflexivity|].
  cbn [running_total fold_left]. apply IH.
Qed.

Lemma arithmetic_mean_mean (l : list Q) : arithmetic_mean l = mean l.
Proof. unfold arithmetic_mean, mean, py_sum. now rewrite running_total_py_sum. Qed.

(** Whatever the engine returns on a history with a close sample, it
    holds under ["ma_200"] the result of the long moving average. *)
Lemma ma_200_reads_moving_average (yahoo : yahoo_data) (closes : list Q)
    (volumes : list Z) (metrics : gmap string pyval) :
  history_samples (default [] (y_history yahoo)) = (closes, volumes) ->
  closes <> [] ->
  compute_company_metrics yahoo = Ok metrics ->
  exists v, moving_average_or closes 200 50 = Ok v
            /\ metrics !! "ma_200" = Some v.
Proof.
  intros Hsamples Hne. unfold compute_company_metrics. rewrite Hsamples.
  destruct closes as [|c rest] eqn:Hs; [congruence|]. rewrite <- Hs in *.
  unfold close_metrics.
  destruct (moving_average_or closes 50 10) as [a|msg];
    cbn [mbind res_bind]; [|discriminate].
  destruct (moving_average_or closes 200 50) as [b|msg];
    cbn [mbind res_bind]; [|discriminate].
  destruct (daily_returns closes); destruct volumes; cbn [mbind res_bind];
    intros [= <-]; exists b; (split; [reflexivity|]); lookup_literal.
Qed.

Lemma ma_200_of_rising_prices
    (info : gmap string pyval) (summary : pyval) (mtext : option string)
    (series : list Q) :
  length series = 300 ->
  strictly_increasing series = true ->
  (0 <= hd 0 series)%Q ->
  exists metrics q,
    compute_company_metrics
      (mk_yahoo info summary (Some (map close_row series)) mtext) = Ok metrics
    /\ metrics !! "ma_200" = Some (PyNum q)
    /\ (q == mean (lastn 200 series))%Q.
Proof.
  intros Hlen Hinc Hfirst.
  destruct series as [|a l]; [discriminate|].
  cbn [hd] in Hfirst. cbn [length] in Hlen.
  pose proof (increasing_above l a Hinc Hfirst) as Hl.
  pose proof (close_rows_samples (a :: l)) as Hsamples.
  cbn [List.filter] in Hsamples. rewrite (filter_nonzero_positive l Hl) in Hsamples.
  assert (lastn 200 (a :: l) = lastn 200 l) as Hlast.
  { unfold lastn. cbn [length].
    replace (S (length l) - 200) with (S (length l - 200)) by lia.
    reflexivity. }
  assert (forall closes, lastn 200 closes = lastn 200 (a :: l) ->
          (py_sum (lastn 200 closes) / inject_Z (Z.of_nat 200)
           == mean (lastn 200 (a :: l)))%Q) as Hmean.
  { intros closes ->. unfold mean. unfold lastn at 3.
    rewrite length_skipn. cbn [length]. rewrite Hlen. reflexivity. }
  destruct (Qeq_bool a 0) eqn:Ea; cbn [negb] in Hsamples.
  - destruct (ma_200_of_closes info summary mtext _ _ _ Hsamples Hl)
      as (metrics & Hrun & Hma); [lia|].
    exists metrics. eexists. split; [exact Hrun|]. split; [exact Hma|].
    apply Hmean. now rewrite Hlast.
  - assert (0 < a)%Q as Ha.
    { destruct (Qlt_le_dec 0 a) as [Hlt|Hle]; [exact Hlt|].
      assert (a == 0)%Q as H0 by lra.
      apply Qeq_bool_iff in H0. congruence. }
    destruct (ma_200_of_closes info summary mtext _ _ _ Hsamples)
      as (metrics & Hrun & Hma); [now constructor|cbn [length]; lia|].
    exists metrics. eexists. split; [exact Hrun|]. split; [exact Hma|].
    now apply Hmean.
Qed.

(** C8, as the code has it.  For a strictly increasing series of 300 close
    prices of which the first, and so the lowest, is not negative, the
    metrics hold under ["ma_200"] the arithmetic mean of the last 200
    closes.  The sign matters: the engine reads the average through a
    truthiness test, which takes an average of zero for a missing one. *)
Theorem ma_200_is_mean_of_last_200_prices
    (info : gmap string pyval) (summary : pyval) (mtext : option string)
    (series : list Q) :
  length series = 300 ->
  strictly_increasing series = true ->
  (0 <= hd 0 series)%Q ->
  long_average_is_mean_of_last_200 info summary mtext series.
Proof.
  intros Hlen Hinc Hfirst. unfold long_average_is_mean_of_last_200.
  rewrite arithmetic_mean_mean.
  now apply ma_200_of_rising_prices.
Qed.

Lemma ma_200_is_mean_of_last_200_witness :
  long_average_is_mean_of_last_200 ∅ (PyStr "") None rising_series.
Proof.
  apply ma_200_is_mean_of_last_200_prices.
  - reflexivity.
  - vm_compute. reflexivity.
  - vm_compute. discriminate.
Defined.

(** C8 as stated fails on the closes -200, ..., -1, 1, ..., 100, which are
    strictly increasing and 300 long: the last 200 of them have the mean 0,
    which [moving_average(closes, 200) or ...] takes for a missing value,
    and ["ma_200"] holds the mean of the last 50 closes, 151/2. *)
Lemma zero_mean_falls_back_to_last_50 :
  length balanced_series = 300
  /\ strictly_increasing balanced_series = true
  /\ ~ long_average_is_mean_of_last_200 ∅ (PyStr "") None balanced_series.
Proof.
  split; [reflexivity|]. split; [vm_compute; reflexivity|].
  intros (metrics & q & Hrun & Hma & Hq).
  assert (history_samples (map close_row balanced_series)
          = (balanced_series, [])) as Hsamples.
  { rewrite close_rows_samples. vm_compute. reflexivity. }
  destruct (ma_200_reads_moving_average
              (mk_yahoo ∅ (PyStr "") (Some (map close_row balanced_series)) None)
              balanced_series [] metrics Hsamples ltac:(discriminate) Hrun)
    as (v & Hv & Hma').
  rewrite Hma in Hma'. injection Hma' as <-.
  assert (moving_average_or balanced_series 200 50
          = Ok (PyNum (mean (lastn 50 balanced_series)))) as Hcode
    by (vm_compute; reflexivity).
  rewrite Hcode in Hv. injection Hv as Hv.
  assert (q == 151 # 2)%Q as H50 by (subst q; vm_compute; reflexivity).
  assert (arithmetic_mean (lastn 200 balanced_series) == 0)%Q as H200
    by (vm_compute; reflexivity).
  rewrite H200 in Hq. rewrite Hq in H50. discriminate H50.
Qed.

(** *** Zero closes and volumes *)

Lemma capitalised_samples (h : list row) :
  Forall capitalised_only h ->
  omap close_sample h = omap (fun r => nonzero (Close r)) h
  /\ omap volume_sample h = omap (fun r => py_int <$> nonzero (Volume r)) h.
Proof.
  induction 1 as [|r h [Hc Hv] _ [IHc IHv]]; [split; reflexivity|].
  cbn [omap list_omap] in *.
  unfold close_sample at 1, volume_sample at 1, num_or.
  rewrite Hc, Hv.
  assert (forall o : option Q,
             match o with
             | Some q => if Qeq_bool q 0 then None else o
             | None => None
             end = nonzero o) as Hnz.
  { intros [q|]; [|reflexivity]. cbn. now destruct (Qeq_bool q 0). }
  rewrite !Hnz.
  split; [now rewrite IHc | now rewrite IHv].
Qed.

Lemma nonzero_samples (h : list row) :
  Forall (fun c => ~ (c == 0)%Q) (omap (fun r => nonzero (Close r)) h).
Proof.
  induction h as [|r h IH]; [constructor|].
  cbn [omap list_omap].
  destruct (Close r) as [q|]; cbn [nonzero]; [|exact IH].
  destruct (Qeq_bool q 0) eqn:E; [exact IH|].
  constructor; [|exact IH].
  intros Hq. apply Qeq_bool_iff in Hq. congruence.
Qed.

Lemma filter_nonzero_samples (f : row -> option Q) (g : Q -> Z) (h : list row) :
  omap (fun r => nonzero (f r)) h
  = omap (fun r => nonzero (f r))
         (List.filter (fun r => negb (zero_field (f r))) h)
  /\ omap (fun r => g <$> nonzero (f r)) h
     = omap (fun r => g <$> nonzero (f r))
            (List.filter (fun r => negb (zero_field (f r))) h).
Proof.
  induction h as [|r h [IH1 IH2]]; [split; reflexivity|].
  cbn [List.filter omap list_omap].
  destruct (f r) as [q|] eqn:Ef; cbn [zero_field nonzero].
  - destruct (Qeq_bool q 0) eqn:E; cbn [negb omap list_omap fmap option_fmap option_map].
    + split; assumption.
    + rewrite Ef. cbn [nonzero]. rewrite E.
      cbn [fmap option_fmap option_map]. split; f_equal; assumption.
  - cbn [negb omap list_omap]. rewrite Ef.
    cbn [nonzero fmap option_fmap option_map]. split; assumption.
Qed.

Lemma filter_capitalised (p : row -> bool) (h : list row) :
  Forall capitalised_only h -> Forall capitalised_only (List.filter p h).
Proof.
  intros H. apply List.Forall_forall. intros r Hr.
  apply filter_In in Hr as [Hr _].
  rewrite List.Forall_forall in H. now apply H.
Qed.

(** C10, as the code has it.  In a history whose rows carry only the
    capitalised keys, a row whose ['Close'] (['Volume']) is exactly 0 gives
    no close (volume) sample; no zero is among the close samples, so the
    percent-change division is never by zero, and the metrics are computed
    from the nonzero values alone. *)
Theorem zero_samples_excluded
    (info : gmap string pyval) (summary : pyval) (mtext : option string)
    (history : list row) :
  Forall capitalised_only history ->
  zero_rows_excluded history
  /\ fst (history_samples history) = omap (fun r => nonzero (Close r)) history
  /\ snd (history_samples history)
     = omap (fun r => py_int <$> nonzero (Volume r)) history
  /\ exists metrics,
       compute_company_metrics (mk_yahoo info summary (Some history) mtext)
       = Ok metrics
       /\ (fst (history_samples history) <> [] ->
           exists q, metrics !! "period_pct_change" = Some (PyNum q)).
Proof.
  intros Hcap.
  destruct (capitalised_samples history Hcap) as [Hc Hv].
  assert (fst (history_samples history)
          = omap (fun r => nonzero (Close r)) history) as Hcloses
    by (rewrite history_samples_eq; exact Hc).
  assert (snd (history_samples history)
          = omap (fun r => py_int <$> nonzero (Volume r)) history) as Hvolumes
    by (rewrite history_samples_eq; exact Hv).
  assert (Forall (fun c => ~ (c == 0)%Q) (fst (history_samples history))) as Hnz
    by (rewrite Hcloses; apply nonzero_samples).
  split; [|split; [exact Hcloses|split; [exact Hvolumes|]]].
  - unfold zero_rows_excluded. split; [|split; [|exact Hnz]].
    + rewrite Hcloses.
      destruct (capitalised_samples _ (filter_capitalised
                  (fun r => negb (zero_field (Close r))) history Hcap)) as [Hc' _].
      rewrite history_samples_eq. cbn [fst]. rewrite Hc'.
      apply (filter_nonzero_samples Close py_int).
    + rewrite Hvolumes.
      destruct (capitalised_samples _ (filter_capitalised
                  (fun r => negb (zero_field (Volume r))) history Hcap)) as [_ Hv'].
      rewrite history_samples_eq. cbn [snd]. rewrite Hv'.
      apply (filter_nonzero_samples Volume py_int).
  - unfold compute_company_metrics. cbn [y_history y_info default from_option id].
    destruct (history_samples history) as [closes volumes].
    cbn [fst] in Hnz |- *.
    destruct closes as [|c closes].
    + cbn [mbind res_bind]. eexists. split; [reflexivity|congruence].
    + unfold close_metrics.
      destruct (moving_average_or_ok (c :: closes) 50 10) as (a & ->);
        [congruence|lia|lia|].
      destruct (moving_average_or_ok (c :: closes) 200 50) as (b & ->);
        [congruence|lia|lia|].
      cbn [mbind res_bind hd]. unfold py_div.
      inversion Hnz as [|? ? Hc0 _]; subst.
      assert (Qeq_bool c 0 = false) as ->.
      { destruct (Qeq_bool c 0) eqn:E; [|reflexivity].
        apply Qeq_bool_iff in E. contradiction. }
      destruct (daily_returns (c :: closes)); destruct volumes;
        eexists; (split; [reflexivity|]); intros _; eexists;
        lookup_literal.
Qed.

Lemma zero_samples_excluded_witness :
  zero_rows_excluded history_with_leading_zero
  /\ fst (history_samples history_with_leading_zero)
     = omap (fun r => nonzero (Close r)) history_with_leading_zero
  /\ snd (history_samples history_with_leading_zero)
     = omap (fun r => py_int <$> nonzero (Volume r)) history_with_leading_zero
  /\ exists metrics,
       compute_company_metrics
         (mk_yahoo ∅ (PyStr "") (Some history_with_leading_zero) None)
       = Ok metrics
       /\ (fst (history_samples history_with_leading_zero) <> [] ->
           exists q, metrics !! "period_pct_change" = Some (PyNum q)).
Proof.
  apply zero_samples_excluded.
  repeat constructor.
Defined.

(** C10 as stated fails on a row that spells the close both ways: with
    ['Close'] and ['close'] both 0 the fallback hands the zero on, the row
    is a sample, and the zero reaches the division. *)
Lemma lowercase_zero_is_a_sample :
  ~ zero_rows_excluded history_with_lowercase_zero.
Proof.
  intros (H & _). vm_compute in H. discriminate H.
Qed.

(** ** Properties of the comment-corpus analysis *)

(** A run on a non-empty corpus with a configured key makes one call,
    with the prompt built from the samples. *)
Lemma analyze_calls_once
    (json_loads : string -> res (gmap string jval))
    (analyze_prompt_head analyze_prompt_tail : string)
    (w : world) (comments : list comment)
    (source_name : string) (tr : list event) :
  comments <> [] ->
  unset (ANTHROPIC_API_KEY w) = false ->
  exists analysis,
    analyze_comments_with_anthropic json_loads analyze_prompt_head
      analyze_prompt_tail w comments source_name tr
    = Some (Ok analysis,
            tr ++ [CallAnthropic
                     (build_analyze_comments_prompt analyze_prompt_head
                        analyze_prompt_tail (sample_texts comments)) 800]).
Proof.
  intros Hne Hkey. destruct comments as [|c cs]; [congruence|].
  unfold analyze_comments_with_anthropic, anthropic_complete.
  rewrite Hkey.
  run_monad.
  destruct (anthropic_messages w _ 800) as [resp|msg];
    run_monad;
    [|eexists; reflexivity].
  destruct (parse_analysis json_loads resp source_name);
    eexists; reflexivity.
Qed.

(** When the response does not parse, the raw text comes back as the
    summary. *)
Lemma analyze_parse_failure
    (json_loads : string -> res (gmap string jval))
    (analyze_prompt_head analyze_prompt_tail : string)
    (w : world) (comments : list comment)
    (source_name resp : string) (tr : list event) :
  comments <> [] ->
  unset (ANTHROPIC_API_KEY w) = false ->
  anthropic_messages w
    (build_analyze_comments_prompt analyze_prompt_head analyze_prompt_tail
       (sample_texts comments)) 800 = Ok resp ->
  parse_analysis json_loads resp source_name = None ->
  analyze_comments_with_anthropic json_loads analyze_prompt_head
    analyze_prompt_tail w comments source_name tr
  = Some (Ok (summary_only source_name resp),
          tr ++ [CallAnthropic
                   (build_analyze_comments_prompt analyze_prompt_head
                      analyze_prompt_tail (sample_texts comments)) 800]).
Proof.
  intros Hne Hkey Hresp Hparse. destruct comments as [|c cs]; [congruence|].
  unfold analyze_comments_with_anthropic, anthropic_complete.
  rewrite Hkey.
  run_monad.
  rewrite Hresp.
  run_monad.
  now rewrite Hparse.
Qed.

Lemma summary_only_fields (source_name resp : string) :
  summary_only source_name resp !! "source" = Some (JStr source_name)
  /\ summary_only source_name resp !! "summary" = Some (JStr resp)
  /\ summary_only source_name resp !! "sentiment" = None.
Proof.
  unfold summary_only. split; [|split].
  - apply lookup_insert_eq.
  - lookup_literal.
  - lookup_literal.
Qed.

(** C7. On the empty comment list the analysis is the canonical one,
    sentiment ["neutral"], summary [""], no themes and no quotes, and the
    trace of provider calls is the one it started from: the LLM provider is
    not called. *)
Theorem empty_corpus_is_neutral
    (json_loads : string -> res (gmap string jval))
    (analyze_prompt_head analyze_prompt_tail : string)
    (w : world) (source_name : string) (tr : list event) :
  exists analysis,
    analyze_comments_with_anthropic json_loads analyze_prompt_head
      analyze_prompt_tail w [] source_name tr = Some (Ok analysis, tr)
    /\ analysis !! "sentiment" = Some (JStr "neutral")
    /\ analysis !! "summary" = Some (JStr "")
    /\ analysis !! "themes" = Some (JArr [])
    /\ analysis !! "representative" = Some (JArr []).
Proof.
  exists (empty_analysis source_name).
  split; [reflexivity|]. unfold empty_analysis.
  repeat split; lookup_literal.
Qed.

(** C4, on the code.  A response in prose, with no brace in it, is not
    parsed; the analysis returned holds the source and the raw text as
    summary, and no ["sentiment"] at all, where the claim has the value
    ["unknown"]. *)
Theorem unparsed_response_has_no_sentiment
    (json_loads : string -> res (gmap string jval))
    (analyze_prompt_head analyze_prompt_tail : string)
    (source_name : string) (tr : list event) :
  exists analysis,
    analyze_comments_with_anthropic json_loads analyze_prompt_head
      analyze_prompt_tail world_prose_reply [substantive_comment]
      source_name tr
    = Some (Ok analysis,
            tr ++ [CallAnthropic
                     (build_analyze_comments_prompt analyze_prompt_head
                        analyze_prompt_tail (sample_texts [substantive_comment]))
                     800])
    /\ analysis !! "summary" = Some (JStr prose_reply)
    /\ analysis !! "sentiment" = None.
Proof.
  exists (summary_only source_name prose_reply).
  split.
  - apply analyze_parse_failure; [congruence|reflexivity|reflexivity|reflexivity].
  - split; apply summary_only_fields.
Qed.

(** *** The samples embedded in the prompt *)

Lemma length_take_str (n : nat) (s : string) :
  String.length (take_str n s) <= n.
Proof.
  revert s. induction n as [|n IH]; intros s; [cbn; lia|].
  destruct s as [|a s]; cbn; [lia|]. specialize (IH s). lia.
Qed.

Lemma length_append_str (s1 s2 : string) :
  String.length (s1 +:+ s2) = String.length s1 + String.length s2.
Proof.
  induction s1 as [|a s1 IH]; [reflexivity|].
  change (String a s1 +:+ s2) with (String a (s1 +:+ s2)).
  change (S (String.length (s1 +:+ s2))
          = S (String.length s1 + String.length s2)).
  now rewrite IH.
Qed.

Lemma safe_truncate_cut (txt : string) (n : nat) :
  safe_truncate txt n = cut n txt.
Proof.
  unfold safe_truncate, cut.
  destruct (String.eqb_spec txt "") as [->|_]; reflexivity.
Qed.

Lemma length_cut (n : nat) (txt : string) :
  String.length (cut n txt) <= n + 3.
Proof.
  unfold cut. destruct (String.length txt <=? n) eqn:E.
  - apply Nat.leb_le in E. lia.
  - rewrite length_append_str. pose proof (length_take_str n txt). cbn. lia.
Qed.

Lemma sample_texts_cut (comments : list comment) :
  sample_texts comments
  = map (fun c => cut 800 (comment_text c)) (firstn 30 comments).
Proof.
  unfold sample_texts. apply map_ext. intros c.
  unfold comment_sample. apply safe_truncate_cut.
Qed.

(** C6. For a non-empty comment list the prompt sent to the LLM provider
    is built from the first 30 comments at most, one embedded text for
    each of them, and no embedded text is longer than 2000 characters: a
    text of up to 800 characters is embedded whole, a longer one as its
    first 800 characters followed by an ellipsis. *)
Theorem analysis_prompt_samples
    (json_loads : string -> res (gmap string jval))
    (analyze_prompt_head analyze_prompt_tail : string)
    (w : world) (comments : list comment)
    (source_name : string) (tr : list event) :
  comments <> [] ->
  unset (ANTHROPIC_API_KEY w) = false ->
  sample_texts comments
  = map (fun c => cut 800 (comment_text c)) (firstn 30 comments)
  /\ length (sample_texts comments) <= 30
  /\ Forall (fun s => String.length s <= 2000) (sample_texts comments)
  /\ exists analysis,
       analyze_comments_with_anthropic json_loads analyze_prompt_head
         analyze_prompt_tail w comments source_name tr
       = Some (Ok analysis,
               tr ++ [CallAnthropic
                        (build_analyze_comments_prompt analyze_prompt_head
                           analyze_prompt_tail (sample_texts comments)) 800]).
Proof.
  intros Hne Hkey.
  split; [apply sample_texts_cut|].
  split.
  { unfold sample_texts. rewrite length_map, length_firstn. lia. }
  split.
  { rewrite sample_texts_cut. apply List.Forall_forall. intros s Hs.
    apply List.in_map_iff in Hs as (c & <- & _).
    pose proof (length_cut 800 (comment_text c)). lia. }
  now apply analyze_calls_once.
Qed.

Lemma analysis_prompt_samples_witness :
  sample_texts [long_comment]
  = map (fun c => cut 800 (comment_text c)) (firstn 30 [long_comment])
  /\ length (sample_texts [long_comment]) <= 30
  /\ Forall (fun s => String.length s <= 2000) (sample_texts [long_comment])
  /\ exists analysis,
       analyze_comments_with_anthropic (fun _ => Raise "not JSON") "" ""
         world_prose_reply [long_comment] "YouTube" []
       = Some (Ok analysis,
               [] ++ [CallAnthropic
                        (build_analyze_comments_prompt "" ""
                           (sample_texts [long_comment])) 800]).
Proof.
  apply analysis_prompt_samples.
  - discriminate.
  - reflexivity.
Defined.

(** The cut is at 800 characters, and it adds an ellipsis: a text of 801
    characters is embedded as 803. *)
Example long_comment_is_cut_at_800 :
  map String.length (sample_texts [long_comment]) = [803].
Proof. vm_compute. reflexivity. Qed.

(** ** Properties of the orchestrator *)

Lemma validate_ticker_trace (w : world) (ticker : string) (tr tr' : list event)
    (v : bool * ticker_meta) :
  validate_ticker w ticker tr = Some (Ok v, tr') ->
  tr' = tr ++ [CallTickerInfo ticker].
Proof.
  unfold validate_ticker.
  run_monad.
  destruct (yf_Ticker w ticker) as [[]|msg]; [|discriminate].
  destruct (ticker_info w ticker) as [info|msg]; [|congruence].
  destruct (empty_dict info); [congruence|].
  destruct (negb _); congruence.
Qed.

(** C2. When validation fails, the report is the error payload alone, the
    error identifier and the validator's message, and the only provider
    call of the run is the validator's own look-up: no source is fetched
    and the LLM provider is not called. *)
Theorem validation_failure_short_circuits
    (json_loads : string -> res (gmap string jval))
    (analyze_prompt_head analyze_prompt_tail : string)
    (build_compare_prompt :
       pyval -> pyval -> list (gmap string jval) -> string -> string)
    (format_metrics_text : gmap string pyval -> string)
    (num_str : pyval -> string) (upper : string -> string)
    (utcnow_isoformat : string)
    (w : world) (fuel : nat) (ticker : string) (tr tr' : list event)
    (meta : ticker_meta) :
  validate_ticker w ticker tr = Some (Ok (false, meta), tr') ->
  exists report,
    generate_company_report json_loads analyze_prompt_head analyze_prompt_tail
      build_compare_prompt format_metrics_text num_str upper utcnow_isoformat
      w fuel ticker tr
    = Some (Ok report, tr ++ [CallTickerInfo ticker])
    /\ report !! "error" = Some (RStr "ticker_validation_failed")
    /\ report !! "message" = Some (RStr (m_message meta))
    /\ (forall key, key <> "error" -> key <> "message" -> report !! key = None).
Proof.
  intros Hv.
  pose proof (validate_ticker_trace _ _ _ _ _ Hv) as ->.
  eexists. split; [|split; [|split]].
  - unfold generate_company_report, mbind, M_bind.
    unfold bind at 1. rewrite Hv. reflexivity.
  - apply lookup_insert_eq.
  - lookup_literal.
  - intros key He Hm. rewrite !lookup_insert_ne by congruence. apply lookup_empty.
Qed.

Lemma validation_failure_short_circuits_witness :
  exists report,
    generate_company_report (fun _ => Raise "not JSON") "" ""
      (fun _ _ _ _ => "") (fun _ => "") (fun _ => "") (fun s => s) ""
      offline_world 0 "ZZZZ" []
    = Some (Ok report, [] ++ [CallTickerInfo "ZZZZ"])
    /\ report !! "error" = Some (RStr "ticker_validation_failed")
    /\ report !! "message"
       = Some (RStr (m_message
                       (mk_meta "Failed to fetch ticker info: unreachable"
                                PyNone ∅)))
    /\ (forall key, key <> "error" -> key <> "message" -> report !! key = None).
Proof.
  apply (validation_failure_short_circuits _ _ _ _ _ _ _ _ offline_world 0
           "ZZZZ" [] [CallTickerInfo "ZZZZ"]).
  reflexivity.
Defined.

(** ** Properties of the video-comment fetcher *)

Lemma forbidden_page_ends_video (w : world) (fuel : nat) (video_id : string)
    (max_comments : nat) (page_token : option string)
    (comments : list comment) (tr : list event) :
  length comments < max_comments ->
  page_forbidden w video_id page_token ->
  fetch_comments_loop w (S fuel) video_id max_comments page_token comments tr
  = Some (Ok [], tr ++ [CallYouTubeComments video_id page_token]).
Proof.
  intros Hlen (r & Hr & Hs).
  cbn [fetch_comments_loop].
  assert ((length comments <? max_comments) = true) as ->
    by (apply Nat.ltb_lt; exact Hlen).
  run_monad. rewrite Hr, Hs. reflexivity.
Qed.

Lemma forbidden_first_page (w : world) (fuel : nat) (video_id : string)
    (max_comments : nat) (tr : list event) :
  unset (YOUTUBE_API_KEY w) = false ->
  0 < max_comments ->
  page_forbidden w video_id None ->
  fetch_comments_for_video w (S fuel) video_id max_comments tr
  = Some (Ok [], tr ++ [CallYouTubeComments video_id None]).
Proof.
  intros Hkey Hmax Hpage.
  unfold fetch_comments_for_video. rewrite Hkey.
  unfold try_except.
  now rewrite (forbidden_page_ends_video w fuel video_id max_comments None [] tr).
Qed.

(** C5, as the code has it.  With the API key configured: a 403 on the
    video search ends the whole fetch with the empty result after that one
    call; a 403 on a comment-thread page, in whichever state
    ([page_token], [comments]) the paging loop meets it, ends the fetch of
    that video with no comments and no further call for it; and a video
    whose fetch gave no comments is skipped, the loop over the candidates
    going on with the next one. *)
Theorem forbidden_status_handling (w : world) (fuel : nat) (query : string)
    (max_videos max_comments_per_video : nat) (tr : list event) :
  unset (YOUTUBE_API_KEY w) = false ->
  (search_forbidden w (financial_query query) (max_videos * 3) ->
   fetch_youtube_comments_for_query w fuel query max_videos
     max_comments_per_video tr
   = Some (Ok no_youtube_data,
           tr ++ [CallYouTubeSearch (financial_query query) (max_videos * 3)]))
  /\ (forall video_id page_token comments,
        length comments < max_comments_per_video ->
        page_forbidden w video_id page_token ->
        fetch_comments_loop w (S fuel) video_id max_comments_per_video
          page_token comments tr
        = Some (Ok [], tr ++ [CallYouTubeComments video_id page_token]))
  /\ (forall v video_id rest all video_summaries videos_with_comments tr',
        videoId v = Some video_id ->
        financial_title v = true ->
        videos_with_comments < max_videos ->
        fetch_comments_for_video w fuel video_id max_comments_per_video tr
        = Some (Ok [], tr') ->
        videos_loop w fuel max_videos max_comments_per_video (v :: rest)
          all video_summaries videos_with_comments tr
        = videos_loop w fuel max_videos max_comments_per_video rest
            all video_summaries videos_with_comments tr').
Proof.
  intros Hkey. split; [|split].
  - intros (r & Hr & Hs).
    unfold fetch_youtube_comments_for_query. rewrite Hkey.
    fold (financial_query query).
    run_monad. rewrite Hr, Hs. reflexivity.
  - intros video_id page_token comments Hlen Hpage.
    now apply forbidden_page_ends_video.
  - intros v video_id rest all video_summaries n tr' Hvid Hfin Hn Hnone.
    destruct fuel; cbn [videos_loop];
      (assert ((max_videos <=? n) = false) as -> by (apply Nat.leb_gt; exact Hn));
      rewrite Hvid; unfold financial_title in Hfin; rewrite Hfin;
      cbn [negb]; run_monad; now rewrite Hnone.
Qed.

Lemma forbidden_status_handling_witness :
  fetch_youtube_comments_for_query world_forbidden 1 "ACME" 5 100 []
  = Some (Ok no_youtube_data,
          [] ++ [CallYouTubeSearch (financial_query "ACME") (5 * 3)])
  /\ fetch_comments_loop world_forbidden 2 "v1" 100 None [] []
     = Some (Ok [], [] ++ [CallYouTubeComments "v1" None])
  /\ videos_loop world_forbidden 1 5 100
       [mk_video_item (Some "v1") (Some "ACME stock analysis")] [] [] 0 []
     = videos_loop world_forbidden 1 5 100 [] [] [] 0
         [CallYouTubeComments "v1" None].
Proof.
  destruct (forbidden_status_handling world_forbidden 1 "ACME" 5 100 [] eq_refl)
    as (Hsearch & Hpage & Hskip).
  split; [|split].
  - apply Hsearch. eexists. split; reflexivity.
  - apply Hpage; [cbn; lia|]. eexists. split; reflexivity.
  - apply (Hskip _ "v1"); [reflexivity|reflexivity|lia|reflexivity].
Defined.

(** C5 as stated fails when the comment threads of the first candidate
    answer 403 and the second candidate has a substantive comment: the
    fetch goes on after the 403 and returns that comment and that video. *)
Lemma forbidden_page_does_not_end_the_fetch :
  ~ forbidden_yields_empty world_second_video 5 "ACME" 5 100.
Proof.
  intros H.
  assert (exists data tr,
             fetch_youtube_comments_for_query world_second_video 5 "ACME" 5 100 []
             = Some (Ok data, tr)
             /\ all_comments data <> []
             /\ tr = [CallYouTubeSearch (financial_query "ACME") 15;
                      CallYouTubeComments "v1" None;
                      CallYouTubeComments "v2" None])
    as (data & tr & Hrun & Hcomments & Htr).
  { vm_compute. do 2 eexists. split; [reflexivity|]. split; [discriminate|reflexivity]. }
  assert (data = no_youtube_data) as Hempty.
  { apply (H data tr Hrun). right. exists "v1", None. split.
    - rewrite Htr. right. left. reflexivity.
    - eexists. split; reflexivity. }
  rewrite Hempty in Hcomments. now apply Hcomments.
Qed.

(** ** The scenarios of the specification *)

(** The tables as the specification describes them: every high-value
    weight is between 1 and 3. *)
Example keyword_weights_in_range :
  forallb (fun kw => (1 <=? snd kw) && (snd kw <=? 3)) high_value_keywords
  = true.
Proof. reflexivity. Qed.

(** The substantive comment is retained and the spam comment is dropped. *)
Example scenario_comments :
  comment_score substantive_comment = 11
  /\ filter_financial_comments [spam_comment; substantive_comment]
     = [substantive_comment].
Proof. split; vm_compute; reflexivity. Qed.

(** 91 days at a constant close: no change, no volatility, and a
    50-window average of 150. *)
Example scenario_constant_close :
  let yahoo := mk_yahoo ∅ (PyStr "") (Some constant_history) None in
  metric_is yahoo "period_pct_change" 0 = true
  /\ metric_is yahoo "volatility_annual_approx" 0 = true
  /\ metric_is yahoo "ma_50" (150 # 1) = true.
Proof. repeat split; vm_compute; reflexivity. Qed.

(** With the zero spelled both ways the first close sample is 0, the
    division raises, and the percent change is [None]. *)
Example lowercase_zero_reaches_division :
  fst (history_samples history_with_lowercase_zero) = [0%Q; (5 # 1)%Q]
  /\ exists metrics,
       compute_company_metrics
         (mk_yahoo ∅ (PyStr "") (Some history_with_lowercase_zero) None)
       = Ok metrics
       /\ metrics !! "period_pct_change" = Some PyNone.
Proof.
  split; [reflexivity|].
  vm_compute. eexists. split; reflexivity.
Qed.

(** * Further properties of the code *)

(** ** Runs: what ends a computation and what it adds to the trace *)

Lemma bind_inv {A B : Type} (m : M A) (k : A -> M B)
    (tr tr' : list event) (r : res B) :
  (m ≫= k) tr = Some (r, tr') ->
  (exists a tr1, m tr = Some (Ok a, tr1) /\ k a tr1 = Some (r, tr'))
  \/ (exists msg, m tr = Some (Raise msg, tr') /\ r = Raise msg).
Proof.
  unfold mbind, M_bind, bind.
  destruct (m tr) as [[[a|msg] tr1]|]; [eauto| |discriminate].
  intros [= <- <-]. right. eauto.
Qed.

Lemma try_except_inv {A : Type} (m : M A) (handler : string -> M A)
    (tr tr' : list event) (r : res A) :
  try_except m handler tr = Some (r, tr') ->
  (exists a, m tr = Some (Ok a, tr') /\ r = Ok a)
  \/ (exists msg tr1, m tr = Some (Raise msg, tr1)
                      /\ handler msg tr1 = Some (r, tr')).
Proof.
  unfold try_except.
  destruct (m tr) as [[[a|msg] tr1]|]; [|eauto|discriminate].
  intros [= <- <-]. left. eauto.
Qed.

Lemma emits_ret {A : Type} (P : event -> Prop) (a : A) : emits P (ret a).
Proof. intros tr r tr' [= <- <-]. exists []. now rewrite app_nil_r. Qed.

Lemma emits_raise {A : Type} (P : event -> Prop) (msg : string) :
  emits P (@raise A msg).
Proof. intros tr r tr' [= <- <-]. exists []. now rewrite app_nil_r. Qed.

Lemma emits_lift {A : Type} (P : event -> Prop) (x : res A) : emits P (lift x).
Proof. intros tr r tr' [= <- <-]. exists []. now rewrite app_nil_r. Qed.

Lemma emits_call {A : Type} (P : event -> Prop) (e : event) (x : res A) :
  P e -> emits P (call e x).
Proof. intros He tr r tr' [= <- <-]. exists [e]. split; [reflexivity|]. now constructor. Qed.

Lemma emits_bind {A B : Type} (P : event -> Prop) (m : M A) (k : A -> M B) :
  emits P m -> (forall a, emits P (k a)) -> emits P (m ≫= k).
Proof.
  intros Hm Hk tr r tr' H.
  apply bind_inv in H as [(a & tr1 & H1 & H2)|(msg & H1 & _)].
  - apply Hm in H1 as (evs1 & -> & HP1).
    apply Hk in H2 as (evs2 & -> & HP2).
    exists (evs1 ++ evs2). split; [now rewrite app_assoc|].
    apply Forall_app. now split.
  - now apply Hm in H1.
Qed.

Lemma emits_try_except {A : Type} (P : event -> Prop) (m : M A)
    (handler : string -> M A) :
  emits P m -> (forall msg, emits P (handler msg)) ->
  emits P (try_except m handler).
Proof.
  intros Hm Hh tr r tr' H.
  apply try_except_inv in H as [(a & H1 & _)|(msg & tr1 & H1 & H2)].
  - now apply Hm in H1.
  - apply Hm in H1 as (evs1 & -> & HP1).
    apply Hh in H2 as (evs2 & -> & HP2).
    exists (evs1 ++ evs2). split; [now rewrite app_assoc|].
    apply Forall_app. now split.
Qed.

Lemma emits_raise_for_status {A : Type} (P : event -> Prop) (r : response A) :
  emits P (raise_for_status r).
Proof.
  unfold raise_for_status.
  destruct (_ && _); [apply emits_raise | apply emits_ret].
Qed.

Lemma no_raise_ret {A : Type} (a : A) : no_raise (ret a).
Proof. intros tr r tr' [= <- <-]. eauto. Qed.

Lemma no_raise_bind {A B : Type} (m : M A) (k : A -> M B) :
  no_raise m -> (forall a, no_raise (k a)) -> no_raise (m ≫= k).
Proof.
  intros Hm Hk tr r tr' H.
  apply bind_inv in H as [(a & tr1 & _ & H2)|(msg & H1 & _)].
  - now apply Hk in H2.
  - apply Hm in H1 as (a & [=]).
Qed.

Lemma no_raise_try_except {A : Type} (m : M A) (handler : string -> M A) :
  (forall msg, no_raise (handler msg)) -> no_raise (try_except m handler).
Proof.
  intros Hh tr r tr' H.
  apply try_except_inv in H as [(a & _ & ->)|(msg & tr1 & _ & H2)]; [eauto|].
  now apply Hh in H2.
Qed.

Lemma ends_ret {A : Type} (a : A) : ends (ret a).
Proof. intros tr. now exists (Ok a), tr. Qed.

Lemma ends_lift {A : Type} (x : res A) : ends (lift x).
Proof. intros tr. now exists x, tr. Qed.

Lemma ends_call {A : Type} (e : event) (x : res A) : ends (call e x).
Proof. intros tr. now exists x, (tr ++ [e]). Qed.

Lemma ends_bind {A B : Type} (m : M A) (k : A -> M B) :
  ends m -> (forall a, ends (k a)) -> ends (m ≫= k).
Proof.
  intros Hm Hk tr. unfold mbind, M_bind, bind.
  destruct (Hm tr) as ([a|msg] & tr1 & ->); [apply Hk|eauto].
Qed.

Lemma ends_try_except {A : Type} (m : M A) (handler : string -> M A) :
  ends m -> (forall msg, ends (handler msg)) -> ends (try_except m handler).
Proof.
  intros Hm Hh tr. unfold try_except.
  destruct (Hm tr) as ([a|msg] & tr1 & ->); [eauto|apply Hh].
Qed.

(** ** The video-comment fetcher *)

Lemma add_items_length (max_comments : nat) (its : list comment_item)
    (comments : list comment) :
  length comments < max_comments ->
  length comments <= length (add_items max_comments its comments) <= max_comments.
Proof.
  revert comments.
  induction its as [|item its IH]; intros comments Hlen; cbn [add_items]; [lia|].
  destruct (max_comments <=? length (comments ++ [_])) eqn:E.
  - apply Nat.leb_le in E. rewrite length_app in *. cbn [length] in *. lia.
  - apply Nat.leb_gt in E. specialize (IH _ E).
    rewrite length_app in *. cbn [length] in *. lia.
Qed.

Lemma add_items_grows (max_comments : nat) (its : list comment_item)
    (comments : list comment) :
  its <> [] -> length comments < length (add_items max_comments its comments).
Proof.
  destruct its as [|item its]; [congruence|]. intros _. cbn [add_items].
  destruct (max_comments <=? length (comments ++ [_])) eqn:E.
  - rewrite length_app. cbn. lia.
  - apply Nat.leb_gt in E.
    pose proof (add_items_length max_comments its _ E) as H.
    rewrite length_app in H. cbn [length] in H. lia.
Qed.

Lemma fetch_comments_loop_emits (w : world) (fuel : nat) (video_id : string)
    (max_comments : nat) (page_token : option string) (comments : list comment) :
  emits (is_comment_page_of video_id)
    (fetch_comments_loop w fuel video_id max_comments page_token comments).
Proof.
  revert page_token comments.
  induction fuel as [|fuel IH]; intros page_token comments; cbn [fetch_comments_loop].
  - destruct (length comments <? max_comments); [|apply emits_ret].
    intros tr r tr' [=].
  - destruct (length comments <? max_comments); [|apply emits_ret].
    apply emits_bind; [apply emits_call; now exists page_token|].
    intros r. destruct (status_code r =? 403); [apply emits_ret|].
    apply emits_bind; [apply emits_raise_for_status|]. intros _.
    apply emits_bind; [apply emits_lift|]. intros data.
    destruct (nextPageToken data) as [page|]; [|apply emits_ret].
    destruct (String.eqb page ""); [apply emits_ret|apply IH].
Qed.

Lemma fetch_comments_loop_bound (w : world) (fuel : nat) (video_id : string)
    (max_comments : nat) (page_token : option string) (comments : list comment) :
  length comments <= max_comments ->
  returns (fun l => length l <= max_comments)
    (fetch_comments_loop w fuel video_id max_comments page_token comments).
Proof.
  revert page_token comments.
  induction fuel as [|fuel IH]; intros page_token comments Hlen tr l tr';
    cbn [fetch_comments_loop];
    destruct (length comments <? max_comments) eqn:E;
    try (intros [= <- <-]; exact Hlen).
  apply Nat.ltb_lt in E. intros H.
  apply bind_inv in H as [(r & tr1 & _ & H)|(msg & _ & [=])].
  destruct (status_code r =? 403); [injection H as <- <-; cbn; lia|].
  apply bind_inv in H as [(_ & tr2 & _ & H)|(msg & _ & [=])].
  apply bind_inv in H as [(data & tr3 & _ & H)|(msg & _ & [=])].
  pose proof (add_items_length max_comments (items data) comments E) as Hadd.
  destruct (nextPageToken data) as [page|]; [|injection H as <- <-; lia].
  destruct (String.eqb page ""); [injection H as <- <-; lia|].
  apply IH in H; [exact H|lia].
Qed.

Lemma fetch_comments_for_video_safe_facts (w : world) (fuel : nat)
    (video_id : string) (max_comments : nat) :
  no_raise (fetch_comments_for_video w fuel video_id max_comments)
  /\ returns (fun l => length l <= max_comments)
       (fetch_comments_for_video w fuel video_id max_comments)
  /\ emits (is_comment_page_of video_id)
       (fetch_comments_for_video w fuel video_id max_comments).
Proof.
  unfold fetch_comments_for_video.
  destruct (unset (YOUTUBE_API_KEY w)).
  - split; [apply no_raise_ret|]. split; [|apply emits_ret].
    intros tr l tr' [= <- <-]. cbn. lia.
  - split; [|split].
    + apply no_raise_try_except. intros _. apply no_raise_ret.
    + intros tr l tr' H.
      apply try_except_inv in H as [(a & H & [= <-])|(msg & tr1 & _ & H)].
      * apply fetch_comments_loop_bound in H; [exact H|cbn; lia].
      * injection H as <- <-. cbn. lia.
    + apply emits_try_except; [apply fetch_comments_loop_emits|].
      intros _. apply emits_ret.
Qed.

(** X1. Fetching the comments of one video never raises, returns at most
    [max_comments] comments, and calls nothing but the comment threads of
    that video. *)
Theorem fetch_comments_for_video_safe (w : world) (fuel : nat)
    (video_id : string) (max_comments : nat) :
  no_raise (fetch_comments_for_video w fuel video_id max_comments)
  /\ returns (fun l => length l <= max_comments)
       (fetch_comments_for_video w fuel video_id max_comments)
  /\ emits (is_comment_page_of video_id)
       (fetch_comments_for_video w fuel video_id max_comments).
Proof. apply fetch_comments_for_video_safe_facts. Qed.

Lemma fetch_comments_loop_ends (w : world) (video_id : string)
    (max_comments : nat) :
  pages_make_progress w video_id ->
  forall fuel page_token comments tr,
    max_comments - length comments <= fuel ->
    exists r tr',
      fetch_comments_loop w fuel video_id max_comments page_token comments tr
      = Some (r, tr').
Proof.
  intros Hprog fuel.
  induction fuel as [|fuel IH]; intros page_token comments tr Hfuel;
    cbn [fetch_comments_loop];
    destruct (length comments <? max_comments) eqn:E;
    try (unfold ret; eauto).
  - apply Nat.ltb_lt in E. lia.
  - apply Nat.ltb_lt in E. run_monad.
    destruct (youtube_comment_threads w video_id page_token) as [r|msg] eqn:Hr;
      [|eauto].
    destruct (status_code r =? 403); [eauto|].
    unfold raise_for_status. destruct (_ && _); run_monad; [eauto|].
    destruct (json r) as [data|msg] eqn:Hd; [|eauto].
    pose proof (Hprog page_token r data Hr Hd) as Hitems.
    unfold has_next_page in Hitems.
    destruct (nextPageToken data) as [page|]; [|eauto].
    destruct (String.eqb page ""); [eauto|].
    apply IH.
    pose proof (add_items_grows max_comments (items data) comments
                  (Hitems eq_refl)). lia.
Qed.

(** X2. If every comment page of the video that names a next page holds at
    least one comment, then [max_comments] page requests are enough: the
    fetch of that video ends. *)
Theorem fetch_comments_for_video_ends (w : world) (fuel : nat)
    (video_id : string) (max_comments : nat) (tr : list event) :
  pages_make_progress w video_id ->
  max_comments <= fuel ->
  exists comments tr',
    fetch_comments_for_video w fuel video_id max_comments tr
    = Some (Ok comments, tr').
Proof.
  intros Hprog Hfuel.
  unfold fetch_comments_for_video.
  destruct (unset (YOUTUBE_API_KEY w)); [unfold ret; eauto|].
  destruct (fetch_comments_loop_ends w video_id max_comments Hprog fuel None [] tr)
    as ([l|msg] & tr' & H); [cbn; lia| |];
    unfold try_except; rewrite H; unfold ret; eauto.
Qed.

(** Here every page names a next page, and holds a comment: three page
    requests give the three comments asked for. *)
Lemma fetch_comments_for_video_ends_witness :
  exists comments tr',
    fetch_comments_for_video world_endless_pages 3 "v1" 3 []
    = Some (Ok comments, tr').
Proof.
  apply fetch_comments_for_video_ends; [|lia].
  intros page_token r data Hr Hd Hnext.
  cbn in Hr. injection Hr as <-. cbn in Hd. injection Hd as <-.
  discriminate.
Defined.

Example paging_until_the_limit :
  exists comments,
    fetch_comments_for_video world_endless_pages 3 "v1" 3 []
    = Some (Ok comments,
            [ CallYouTubeComments "v1" None;
              CallYouTubeComments "v1" (Some "next");
              CallYouTubeComments "v1" (Some "next") ])
    /\ length comments = 3.
Proof. eexists. split; reflexivity. Qed.

Lemma emits_weaken {A : Type} (P Q : event -> Prop) (m : M A) :
  (forall e, P e -> Q e) -> emits P m -> emits Q m.
Proof.
  intros HPQ Hm tr r tr' H.
  apply Hm in H as (evs & -> & HP). exists evs. split; [reflexivity|].
  eapply List.Forall_impl; [|exact HP]. exact HPQ.
Qed.

Lemma filter_output_qualifies (comments : list comment) :
  Forall (fun c => qualifies c = true) (filter_financial_comments comments).
Proof.
  destruct (filter_output_facts comments) as (Hp & _ & _).
  apply List.Forall_forall. intros c Hc.
  apply (Permutation_in _ Hp) in Hc. now apply filter_In in Hc.
Qed.

Lemma in_firstn {A : Type} (n : nat) (l : list A) (x : A) :
  In x (firstn n l) -> In x l.
Proof.
  revert l. induction n as [|n IH]; intros [|y l]; cbn; try tauto.
  intros [->|H]; [now left|right; now apply IH].
Qed.

(** The invariant of the video loop on its three accumulators. *)
Lemma videos_loop_invariant (w : world) (fuel : nat)
    (max_videos max_comments_per_video : nat) (vs : list video_item) :
  forall (all : list comment) (video_summaries : list video_summary) (n : nat),
    length video_summaries = n ->
    youtube_data_ok max_videos (mk_youtube_data all video_summaries) ->
    returns (youtube_data_ok max_videos)
      (videos_loop w fuel max_videos max_comments_per_video vs
         all video_summaries n).
Proof.
  induction vs as [|v vs IH]; intros all sums n Hn Hok tr data tr';
    cbn [videos_loop].
  - now intros [= <- <-].
  - destruct (max_videos <=? n) eqn:Emax; [now intros [= <- <-]|].
    apply Nat.leb_gt in Emax.
    intros H. apply bind_inv in H as [(vid & tr1 & _ & H)|(msg & _ & [=])].
    destruct (negb _); [now apply IH in H|].
    apply bind_inv in H as [(comment_list & tr2 & _ & H)|(msg & _ & [=])].
    destruct comment_list as [|c0 cl]; [now apply IH in H|].
    pose proof (filter_output_qualifies (c0 :: cl)) as Hq.
    destruct (filter_financial_comments (c0 :: cl)) as [|r0 rl] eqn:Er;
      [now apply IH in H|].
    apply IH in H; [exact H|rewrite length_app; cbn; lia|].
    destruct Hok as (Hlen & Hall & Hvs & Hiff). cbn [videos all_comments] in *.
    split; [|split; [|split]]; cbn [videos all_comments].
    + rewrite length_app. cbn. lia.
    + apply Forall_app. now split.
    + apply Forall_app. split.
      * eapply List.Forall_impl; [|exact Hvs].
        intros s (Hs1 & Hs2 & Hs3). split; [exact Hs1|]. split; [|exact Hs3].
        intros c Hc. apply in_or_app. left. now apply Hs2.
      * constructor; [|constructor]. cbn [vs_top_comments vs_url vs_video_id].
        split; [|split; [|reflexivity]].
        -- rewrite length_firstn. cbn [length]. lia.
        -- intros c Hc. apply in_or_app. right.
           now apply (in_firstn 3).
    + split; intros Hnil.
      * now apply app_eq_nil in Hnil as [_ [=]].
      * now apply app_eq_nil in Hnil as [_ [=]].
Qed.

Lemma videos_loop_emits (w : world) (fuel : nat)
    (max_videos max_comments_per_video : nat) (vs : list video_item) :
  forall (all : list comment) (video_summaries : list video_summary) (n : nat),
    emits is_youtube_call
      (videos_loop w fuel max_videos max_comments_per_video vs
         all video_summaries n).
Proof.
  induction vs as [|v vs IH]; intros all sums n; cbn [videos_loop];
    [apply emits_ret|].
  destruct (max_videos <=? n); [apply emits_ret|].
  apply emits_bind.
  { destruct (videoId v); [apply emits_ret|apply emits_raise]. }
  intros vid. destruct (negb _); [apply IH|].
  apply emits_bind.
  { eapply emits_weaken; [|apply fetch_comments_for_video_safe_facts].
    intros e (p & ->). exact I. }
  intros [|c0 cl]; [apply IH|].
  destruct (filter_financial_comments (c0 :: cl)); apply IH.
Qed.

Lemma fetch_youtube_comments_for_query_safe_facts (w : world) (fuel : nat)
    (query : string) (max_videos max_comments_per_video : nat) :
  no_raise (fetch_youtube_comments_for_query w fuel query max_videos
              max_comments_per_video)
  /\ returns (youtube_data_ok max_videos)
       (fetch_youtube_comments_for_query w fuel query max_videos
          max_comments_per_video)
  /\ emits is_youtube_call
       (fetch_youtube_comments_for_query w fuel query max_videos
          max_comments_per_video).
Proof.
  assert (youtube_data_ok max_videos no_youtube_data) as Hempty.
  { unfold youtube_data_ok, no_youtube_data. cbn.
    split; [lia|]. split; [constructor|]. split; [constructor|]. tauto. }
  unfold fetch_youtube_comments_for_query.
  destruct (unset (YOUTUBE_API_KEY w)).
  { split; [apply no_raise_ret|]. split; [|apply emits_ret].
    now intros tr data tr' [= <- <-]. }
  split; [|split].
  - apply no_raise_try_except. intros _. apply no_raise_ret.
  - intros tr data tr' H.
    apply try_except_inv in H as [(a & H & [= <-])|(msg & tr1 & _ & H)];
      [|now injection H as <- <-].
    apply bind_inv in H as [(r & tr1 & _ & H)|(msg & _ & [=])].
    destruct (status_code r =? 403); [now injection H as <- <-|].
    apply bind_inv in H as [(_ & tr2 & _ & H)|(msg & _ & [=])].
    apply bind_inv in H as [(vs & tr3 & _ & H)|(msg & _ & [=])].
    eapply videos_loop_invariant in H; [exact H|reflexivity|exact Hempty].
  - apply emits_try_except; [|intros _; apply emits_ret].
    apply emits_bind; [now apply emits_call|].
    intros r. destruct (status_code r =? 403); [apply emits_ret|].
    apply emits_bind; [apply emits_raise_for_status|]. intros _.
    apply emits_bind; [apply emits_lift|]. intros vs.
    apply videos_loop_emits.
Qed.

(** X3. The comment-corpus fetch never raises and calls the video
    platform only.  Its result has at most [max_videos] videos, each with
    one to three top comments taken from the comments returned and with
    the watch URL of its own id; every comment returned passes the
    relevance filter; and there are videos exactly when there are
    comments. *)
Theorem fetch_youtube_comments_for_query_safe (w : world) (fuel : nat)
    (query : string) (max_videos max_comments_per_video : nat) :
  no_raise (fetch_youtube_comments_for_query w fuel query max_videos
              max_comments_per_video)
  /\ returns (youtube_data_ok max_videos)
       (fetch_youtube_comments_for_query w fuel query max_videos
          max_comments_per_video)
  /\ emits is_youtube_call
       (fetch_youtube_comments_for_query w fuel query max_videos
          max_comments_per_video).
Proof. apply fetch_youtube_comments_for_query_safe_facts. Qed.

(** ** Ticker validation and the two plain fetchers *)

Lemma empty_dict_lookup (d : gmap string pyval) (k : string) :
  empty_dict d = true -> dict_get d k = PyNone.
Proof.
  unfold empty_dict, dict_get. intros H. apply Nat.eqb_eq in H.
  apply map_size_empty_iff in H. subst d. now rewrite lookup_empty.
Qed.

Lemma validate_ticker_spec_facts (w : world) (ticker : string) (tr : list event) :
  match yf_Ticker w ticker with
  | Raise msg => validate_ticker w ticker tr = Some (Raise msg, tr)
  | Ok _ =>
      exists ok meta,
        validate_ticker w ticker tr
        = Some (Ok (ok, meta), tr ++ [CallTickerInfo ticker])
        /\ (ok = true <->
            exists info, ticker_info w ticker = Ok info
                         /\ truthy (company_name_of info) = true)
        /\ (ok = true ->
            m_message meta = "ok"
            /\ ticker_info w ticker = Ok (m_info meta)
            /\ m_name meta = company_name_of (m_info meta))
        /\ (ok = false -> m_name meta = PyNone)
  end.
Proof.
  unfold validate_ticker. run_monad.
  destruct (yf_Ticker w ticker) as [[]|msg0]; [|reflexivity].
  destruct (ticker_info w ticker) as [info|msg] eqn:Hinfo.
  - destruct (empty_dict info) eqn:Hempty.
    + do 2 eexists. split; [reflexivity|].
      split; [|split; [discriminate|reflexivity]].
      split; [discriminate|]. intros (info' & [= <-] & Hname).
      unfold company_name_of in Hname.
      rewrite !(empty_dict_lookup info) in Hname by exact Hempty.
      discriminate Hname.
    + fold (company_name_of info).
      destruct (truthy (company_name_of info)) eqn:Hname; cbn [negb].
      * do 2 eexists. split; [reflexivity|].
        split; [split; [eauto|reflexivity]|].
        split; [|discriminate]. intros _. cbn. auto.
      * do 2 eexists. split; [reflexivity|].
        split; [|split; [discriminate|reflexivity]].
        split; [discriminate|]. intros (info' & [= <-] & Hname').
        congruence.
  - do 2 eexists. split; [reflexivity|].
    split; [|split; [discriminate|reflexivity]].
    split; [discriminate|]. intros (info' & [=] & _).
Qed.

(** X4. The look-up of the validator is guarded, the construction of the
    handle before it is not.  When [yf.Ticker] raises, the validator
    raises that exception and has called nothing.  When the handle is
    built, the validator makes one call to the market-data provider and
    returns: the ticker is valid exactly when the provider answers with
    metadata whose [longName], or else [shortName], is truthy; then the
    message is ["ok"], the name is that value and the metadata is handed
    on.  Otherwise no name is returned. *)
Theorem validate_ticker_spec (w : world) (ticker : string) (tr : list event) :
  match yf_Ticker w ticker with
  | Raise msg => validate_ticker w ticker tr = Some (Raise msg, tr)
  | Ok _ =>
      exists ok meta,
        validate_ticker w ticker tr
        = Some (Ok (ok, meta), tr ++ [CallTickerInfo ticker])
        /\ (ok = true <->
            exists info, ticker_info w ticker = Ok info
                         /\ truthy (company_name_of info) = true)
        /\ (ok = true ->
            m_message meta = "ok"
            /\ ticker_info w ticker = Ok (m_info meta)
            /\ m_name meta = company_name_of (m_info meta))
        /\ (ok = false -> m_name meta = PyNone)
  end.
Proof. apply validate_ticker_spec_facts. Qed.

Lemma fetch_yahoo_company_spec_facts (w : world) (ticker : string) (tr : list event) :
  match yf_Ticker w ticker with
  | Raise msg => fetch_yahoo_company w ticker tr = Some (Raise msg, tr)
  | Ok _ =>
      exists yahoo tr',
        fetch_yahoo_company w ticker tr = Some (Ok yahoo, tr')
        /\ y_history yahoo <> Some []
        /\ (truthy (y_summary yahoo) = true \/ y_summary yahoo = PyStr "")
        /\ y_metrics_text yahoo = None
        /\ match ticker_info w ticker with
           | Raise _ =>
               tr' = tr ++ [CallTickerInfo ticker]
               /\ yahoo = mk_yahoo ∅ (PyStr "") None None
           | Ok info =>
               tr' = tr ++ [CallTickerInfo ticker; CallTickerHistory ticker]
               /\ y_info yahoo = info
               /\ y_history yahoo
                  = match ticker_history w ticker with
                    | Ok (r :: records) => Some (r :: records)
                    | _ => None
                    end
           end
  end.
Proof.
  unfold fetch_yahoo_company. run_monad.
  destruct (yf_Ticker w ticker) as [[]|msg0]; [|reflexivity].
  destruct (ticker_info w ticker) as [info|msg].
  - assert (forall a b : pyval,
               truthy (py_or a (py_or b (PyStr ""))) = true
               \/ py_or a (py_or b (PyStr "")) = PyStr "") as Hsum.
    { intros a b. unfold py_or.
      destruct (truthy a) eqn:Ea; [now left|].
      destruct (truthy b) eqn:Eb; [now left|now right]. }
    rewrite <- app_assoc. cbn [app].
    destruct (ticker_history w ticker) as [hist|msg];
      [destruct hist as [|x hist]|];
      do 2 eexists; (split; [reflexivity|]);
      cbn [y_history y_summary y_info y_metrics_text];
      (split; [congruence|]); (split; [apply Hsum|]); (split; [reflexivity|]);
      (split; [reflexivity|]); (split; reflexivity).
  - do 2 eexists. split; [reflexivity|].
    cbn [y_history y_summary y_info y_metrics_text].
    split; [congruence|]. split; [now right|]. split; [reflexivity|].
    split; reflexivity.
Qed.

(** X5. In the market-data fetch too the handle is built before the
    [try]: when [yf.Ticker] raises, the fetch raises that exception and
    has called nothing.  When the handle is built the fetch returns, after
    at most the two market-data calls, the history only after the
    metadata.  If the metadata call raises nothing else is asked and the
    result is the empty default; if it succeeds its metadata is kept
    whatever the history call does.  The history is the provider's list of
    records when that is not empty, and missing otherwise (never an empty
    list); the summary is a truthy value or the empty string. *)
Theorem fetch_yahoo_company_spec (w : world) (ticker : string) (tr : list event) :
  match yf_Ticker w ticker with
  | Raise msg => fetch_yahoo_company w ticker tr = Some (Raise msg, tr)
  | Ok _ =>
      exists yahoo tr',
        fetch_yahoo_company w ticker tr = Some (Ok yahoo, tr')
        /\ y_history yahoo <> Some []
        /\ (truthy (y_summary yahoo) = true \/ y_summary yahoo = PyStr "")
        /\ y_metrics_text yahoo = None
        /\ match ticker_info w ticker with
           | Raise _ =>
               tr' = tr ++ [CallTickerInfo ticker]
               /\ yahoo = mk_yahoo ∅ (PyStr "") None None
           | Ok info =>
               tr' = tr ++ [CallTickerInfo ticker; CallTickerHistory ticker]
               /\ y_info yahoo = info
               /\ y_history yahoo
                  = match ticker_history w ticker with
                    | Ok (r :: records) => Some (r :: records)
                    | _ => None
                    end
           end
  end.
Proof. apply fetch_yahoo_company_spec_facts. Qed.

Lemma first_wikipedia_page_shape (pages : list (gmap string pyval)) :
  first_wikipedia_page pages = ∅
  \/ wikipedia_entry (first_wikipedia_page pages).
Proof.
  induction pages as [|page pages IH]; [now left|].
  cbn [first_wikipedia_page].
  destruct (page !! "missing"); [exact IH|]. right.
  unfold wikipedia_entry. repeat split.
  - eexists. lookup_literal.
  - eexists. lookup_literal.
  - eexists. lookup_literal.
  - intros key H1 H2 H3. rewrite !lookup_insert_ne by congruence.
    apply lookup_empty.
Qed.

Lemma fetch_wikipedia_summary_spec_facts (w : world) (query : string)
    (tr : list event) :
  exists web,
    fetch_wikipedia_summary w query tr
    = Some (Ok web, tr ++ [CallWikipedia query])
    /\ (web = ∅ \/ wikipedia_entry web)
    /\ match wikipedia_api w query with
       | Raise _ => web = ∅
       | Ok r =>
           if (400 <=? status_code r) && (status_code r <? 600) then web = ∅
           else match json r with
                | Raise _ => web = ∅
                | Ok pages => web = first_wikipedia_page pages
                end
       end.
Proof.
  unfold fetch_wikipedia_summary, raise_for_status. run_monad.
  destruct (wikipedia_api w query) as [r|msg].
  - destruct ((400 <=? status_code r) && (status_code r <? 600)); run_monad.
    + eexists. split; [reflexivity|]. split; [now left|reflexivity].
    + destruct (json r) as [pages|msg].
      * eexists. split; [reflexivity|].
        split; [apply first_wikipedia_page_shape|reflexivity].
      * eexists. split; [reflexivity|]. split; [now left|reflexivity].
  - eexists. split; [reflexivity|]. split; [now left|reflexivity].
Qed.

(** X6. The encyclopedia fetch makes exactly one call and never raises.
    Its result is the empty dict or a dict with exactly the keys [title],
    [summary] and [url]; it is the empty dict whenever the request raises,
    the status is an HTTP error, or the body is not JSON. *)
Theorem fetch_wikipedia_summary_spec (w : world) (query : string)
    (tr : list event) :
  exists web,
    fetch_wikipedia_summary w query tr
    = Some (Ok web, tr ++ [CallWikipedia query])
    /\ (web = ∅ \/ wikipedia_entry web)
    /\ match wikipedia_api w query with
       | Raise _ => web = ∅
       | Ok r =>
           if (400 <=? status_code r) && (status_code r <? 600) then web = ∅
           else match json r with
                | Raise _ => web = ∅
                | Ok pages => web = first_wikipedia_page pages
                end
       end.
Proof. apply fetch_wikipedia_summary_spec_facts. Qed.

(** ** The comment-corpus analysis *)

(** X7. Only the first 30 comments reach the analysis: run on a list or on
    its first 30 comments, it makes the same call and returns the same
    analysis. *)
Theorem analysis_reads_first_30
    (json_loads : string -> res (gmap string jval))
    (analyze_prompt_head analyze_prompt_tail : string)
    (w : world) (comments : list comment) (source_name : string)
    (tr : list event) :
  analyze_comments_with_anthropic json_loads analyze_prompt_head
    analyze_prompt_tail w comments source_name tr
  = analyze_comments_with_anthropic json_loads analyze_prompt_head
      analyze_prompt_tail w (firstn 30 comments) source_name tr.
Proof.
  destruct comments as [|c cs]; [reflexivity|].
  assert (sample_texts (firstn 30 (c :: cs)) = sample_texts (c :: cs)) as Hs.
  { unfold sample_texts. now rewrite firstn_firstn, Nat.min_id. }
  change (firstn 30 (c :: cs)) with (c :: firstn 29 cs) in *.
  unfold analyze_comments_with_anthropic. now rewrite Hs.
Qed.

(** X8. On a non-empty corpus, when the LLM provider gives no text (no key
    configured, or the call raises), the analysis is the failure analysis:
    sentiment ["unknown"], summary ["(analysis failed)"], no themes and no
    quotes.  Without a key no call is made at all. *)
Theorem analysis_without_provider
    (json_loads : string -> res (gmap string jval))
    (analyze_prompt_head analyze_prompt_tail : string)
    (w : world) (comments : list comment) (source_name : string)
    (tr : list event) :
  comments <> [] ->
  llm_unavailable w
    (build_analyze_comments_prompt analyze_prompt_head analyze_prompt_tail
       (sample_texts comments)) 800 ->
  exists analysis tr',
    analyze_comments_with_anthropic json_loads analyze_prompt_head
      analyze_prompt_tail w comments source_name tr
    = Some (Ok analysis, tr')
    /\ analysis !! "source" = Some (JStr source_name)
    /\ analysis !! "sentiment" = Some (JStr "unknown")
    /\ analysis !! "summary" = Some (JStr "(analysis failed)")
    /\ analysis !! "themes" = Some (JArr [])
    /\ analysis !! "representative" = Some (JArr [])
    /\ (unset (ANTHROPIC_API_KEY w) = true -> tr' = tr).
Proof.
  intros Hne Hun. destruct comments as [|c cs]; [congruence|].
  assert (forall tr',
             (unset (ANTHROPIC_API_KEY w) = true -> tr' = tr) ->
             analyze_comments_with_anthropic json_loads analyze_prompt_head
               analyze_prompt_tail w (c :: cs) source_name tr
             = Some (Ok (failed_analysis source_name), tr') ->
             exists analysis tr'',
               analyze_comments_with_anthropic json_loads analyze_prompt_head
                 analyze_prompt_tail w (c :: cs) source_name tr
               = Some (Ok analysis, tr'')
               /\ analysis !! "source" = Some (JStr source_name)
               /\ analysis !! "sentiment" = Some (JStr "unknown")
               /\ analysis !! "summary" = Some (JStr "(analysis failed)")
               /\ analysis !! "themes" = Some (JArr [])
               /\ analysis !! "representative" = Some (JArr [])
               /\ (unset (ANTHROPIC_API_KEY w) = true -> tr'' = tr)) as Hdone.
  { intros tr' Htr Hrun. exists (failed_analysis source_name), tr'.
    split; [exact Hrun|]. unfold failed_analysis.
    repeat (split; [lookup_literal|]). exact Htr. }
  unfold analyze_comments_with_anthropic, anthropic_complete in *.
  destruct (unset (ANTHROPIC_API_KEY w)) eqn:Hkey.
  - apply (Hdone tr); [reflexivity|]. reflexivity.
  - destruct Hun as [Hk|(msg & Hmsg)]; [congruence|].
    eapply Hdone; [congruence|]. run_monad. rewrite Hmsg. reflexivity.
Qed.

Lemma analysis_without_provider_witness :
  exists analysis tr',
    analyze_comments_with_anthropic loads_bullish "" "" offline_world
      [substantive_comment] "YouTube" []
    = Some (Ok analysis, tr')
    /\ analysis !! "source" = Some (JStr "YouTube")
    /\ analysis !! "sentiment" = Some (JStr "unknown")
    /\ analysis !! "summary" = Some (JStr "(analysis failed)")
    /\ analysis !! "themes" = Some (JArr [])
    /\ analysis !! "representative" = Some (JArr [])
    /\ (unset (ANTHROPIC_API_KEY offline_world) = true -> tr' = []).
Proof.
  apply analysis_without_provider; [discriminate|].
  left. reflexivity.
Defined.

(** X9. A parsed analysis always names its source: the payload's own
    ["source"] when the model gave one, the caller's source name
    otherwise; every other key is that of the parsed object. *)
Theorem parsed_analysis_names_source
    (json_loads : string -> res (gmap string jval))
    (resp source_name : string) (payload : gmap string jval) :
  parse_analysis json_loads resp source_name = Some payload ->
  exists span raw,
    json_loads span = Ok raw
    /\ payload !! "source" = Some (default (JStr source_name) (raw !! "source"))
    /\ forall key, key <> "source" -> payload !! key = raw !! key.
Proof.
  unfold parse_analysis.
  destruct (find_char _ _) as [start|]; [|discriminate].
  destruct (rfind_char _ _) as [end_|]; [|discriminate].
  destruct (json_loads _) as [raw|msg] eqn:Hraw; [|discriminate].
  intros [= <-]. do 2 eexists. split; [exact Hraw|].
  unfold setdefault_source.
  destruct (raw !! "source") as [v|] eqn:Hsrc; cbn [default from_option id].
  - split; [exact Hsrc|reflexivity].
  - split; [apply lookup_insert_eq|].
    intros key Hkey. now rewrite lookup_insert_ne by congruence.
Qed.

Lemma parsed_analysis_names_source_witness :
  exists span raw,
    loads_bullish span = Ok raw
    /\ setdefault_source (<["sentiment" := JStr "bullish"]> ∅) "YouTube" !! "source"
       = Some (default (JStr "YouTube") (raw !! "source"))
    /\ forall key, key <> "source" ->
         setdefault_source (<["sentiment" := JStr "bullish"]> ∅) "YouTube" !! key
         = raw !! key.
Proof.
  apply (parsed_analysis_names_source loads_bullish "{}" "YouTube").
  reflexivity.
Defined.

(** *** The span handed to the parser *)

Lemma append_assoc_str (a b c : string) : (a +:+ b) +:+ c = a +:+ (b +:+ c).
Proof.
  induction a as [|x a IH]; [reflexivity|].
  change ((String x a +:+ b) +:+ c) with (String x ((a +:+ b) +:+ c)).
  change (String x a +:+ (b +:+ c)) with (String x (a +:+ (b +:+ c))).
  now rewrite IH.
Qed.

Lemma drop_str_app (a b : string) : drop_str (String.length a) (a +:+ b) = b.
Proof.
  induction a as [|x a IH]; [now destruct b|]. exact IH.
Qed.

Lemma take_str_app (a b : string) : take_str (String.length a) (a +:+ b) = a.
Proof.
  induction a as [|x a IH]; [reflexivity|].
  change (String x (take_str (String.length a) (a +:+ b)) = String x a).
  now rewrite IH.
Qed.

Lemma lacks_cons (c x : ascii) (s : string) :
  lacks c (String x s) -> Ascii.eqb x c = false /\ lacks c s.
Proof.
  unfold lacks. cbn [find_char].
  destruct (Ascii.eqb x c); [discriminate|].
  destruct (find_char c s); [discriminate|]. auto.
Qed.

Lemma rfind_char_lacks (c : ascii) (s : string) :
  lacks c s -> rfind_char c s = None.
Proof.
  induction s as [|x s IH]; [reflexivity|].
  intros H. apply lacks_cons in H as [Hx Hs].
  cbn [rfind_char]. now rewrite (IH Hs), Hx.
Qed.

Lemma find_char_app (c : ascii) (pre rest : string) :
  lacks c pre ->
  find_char c (pre +:+ String c rest) = Some (String.length pre).
Proof.
  induction pre as [|x pre IH]; intros H.
  - change ("" +:+ String c rest) with (String c rest).
    cbn [find_char String.length]. now rewrite Ascii.eqb_refl.
  - apply lacks_cons in H as [Hx Hs].
    change (String x pre +:+ String c rest)
      with (String x (pre +:+ String c rest)).
    cbn [find_char String.length]. now rewrite Hx, (IH Hs).
Qed.

Lemma rfind_char_app (c : ascii) (s post : string) :
  lacks c post ->
  rfind_char c (s +:+ String c post) = Some (String.length s).
Proof.
  intros H. induction s as [|x s IH].
  - change ("" +:+ String c post) with (String c post).
    cbn [rfind_char String.length].
    now rewrite (rfind_char_lacks c post H), Ascii.eqb_refl.
  - change (String x s +:+ String c post)
      with (String x (s +:+ String c post)).
    cbn [rfind_char String.length]. now rewrite IH.
Qed.

(** X10. The parser is handed exactly the span from the first opening
    brace to the last closing brace of the stripped response: whatever the
    model wrote before and after it is ignored. *)
Theorem parse_reads_brace_span
    (json_loads : string -> res (gmap string jval))
    (resp source_name pre mid post : string) :
  strip resp = pre +:+ String "{" (mid +:+ String "}" post) ->
  lacks "{" pre ->
  lacks "}" post ->
  parse_analysis json_loads resp source_name
  = match json_loads (String "{" (mid +:+ "}")) with
    | Ok payload => Some (setdefault_source payload source_name)
    | Raise _ => None
    end.
Proof.
  intros Hs Hpre Hpost. unfold parse_analysis. rewrite Hs.
  rewrite (find_char_app "{" pre _ Hpre).
  assert (pre +:+ String "{" (mid +:+ String "}" post)
          = (pre +:+ String "{" mid) +:+ String "}" post) as Hsplit.
  { rewrite append_assoc_str. reflexivity. }
  assert (rfind_char "}" (pre +:+ String "{" (mid +:+ String "}" post))
          = Some (String.length pre + S (String.length mid))) as ->.
  { rewrite Hsplit, (rfind_char_app "}" _ post Hpost).
    now rewrite length_append_str. }
  assert (slice (pre +:+ String "{" (mid +:+ String "}" post))
                (String.length pre)
                (String.length pre + S (String.length mid) + 1)
          = String "{" (mid +:+ "}")) as ->; [|reflexivity].
  unfold slice. rewrite drop_str_app.
  replace (String.length pre + S (String.length mid) + 1 - String.length pre)
    with (String.length (String "{" (mid +:+ "}")))
    by (cbn [String.length]; rewrite length_append_str; cbn; lia).
  replace (String "{" (mid +:+ String "}" post))
    with (String "{" (mid +:+ "}") +:+ post);
    [apply take_str_app|].
  change (String "{" (mid +:+ "}") +:+ post)
    with (String "{" ((mid +:+ "}") +:+ post)).
  now rewrite append_assoc_str.
Qed.

Lemma parse_reads_brace_span_witness :
  parse_analysis loads_bullish "Sure: {} done" "YouTube"
  = match loads_bullish (String "{" ("" +:+ "}")) with
    | Ok payload => Some (setdefault_source payload "YouTube")
    | Raise _ => None
    end.
Proof.
  apply (parse_reads_brace_span loads_bullish _ _ "Sure: " "" " done");
    reflexivity.
Defined.

(** ** The fusion call *)

Lemma compare_and_summarize_spec_facts
    (build_compare_prompt :
       pyval -> pyval -> list (gmap string jval) -> string -> string)
    (w : world) (yahoo : yahoo_data) (web : gmap string pyval)
    (social_summaries : list (gmap string jval)) (tr : list event) :
  exists result tr' prompt,
    compare_and_summarize build_compare_prompt w yahoo web social_summaries tr
    = Some (Ok result, tr')
    /\ source result = "anthropic"
    /\ if unset (ANTHROPIC_API_KEY w)
       then tr' = tr
            /\ markdown result = comparator_placeholder
            /\ error result = Some "ANTHROPIC_API_KEY not configured"
       else tr' = tr ++ [CallAnthropic prompt 2048]
            /\ match anthropic_messages w prompt 2048 with
               | Ok md => markdown result = md /\ error result = None
               | Raise msg =>
                   markdown result = comparator_placeholder
                   /\ error result = Some msg
               end.
Proof.
  unfold compare_and_summarize, anthropic_complete.
  remember (build_compare_prompt _ _ social_summaries _) as prompt eqn:Hp.
  clear Hp.
  destruct (unset (ANTHROPIC_API_KEY w)); run_monad.
  - do 2 eexists. exists prompt. split; [reflexivity|].
    split; [reflexivity|]. repeat split.
  - destruct (anthropic_messages w prompt 2048) as [md|msg] eqn:Hmsg;
      do 2 eexists; exists prompt; (split; [reflexivity|]);
      (split; [reflexivity|]); (split; [reflexivity|]);
      rewrite Hmsg; split; reflexivity.
Qed.

(** X11. The fusion never raises and always names ["anthropic"] as its
    source.  Without a key it makes no call and returns the placeholder
    markdown with the configuration error recorded; with a key it makes
    one call with 2048 tokens and returns the provider's markdown and no
    error, or, when the call raises, the placeholder and the error. *)
Theorem compare_and_summarize_spec
    (build_compare_prompt :
       pyval -> pyval -> list (gmap string jval) -> string -> string)
    (w : world) (yahoo : yahoo_data) (web : gmap string pyval)
    (social_summaries : list (gmap string jval)) (tr : list event) :
  exists result tr' prompt,
    compare_and_summarize build_compare_prompt w yahoo web social_summaries tr
    = Some (Ok result, tr')
    /\ source result = "anthropic"
    /\ if unset (ANTHROPIC_API_KEY w)
       then tr' = tr
            /\ markdown result = comparator_placeholder
            /\ error result = Some "ANTHROPIC_API_KEY not configured"
       else tr' = tr ++ [CallAnthropic prompt 2048]
            /\ match anthropic_messages w prompt 2048 with
               | Ok md => markdown result = md /\ error result = None
               | Raise msg =>
                   markdown result = comparator_placeholder
                   /\ error result = Some msg
               end.
Proof. apply compare_and_summarize_spec_facts. Qed.

(** ** The orchestrator *)

(** *** Which stages can go on for ever *)

Lemma ends_raise_for_status {A : Type} (r : response A) :
  ends (raise_for_status r).
Proof.
  unfold raise_for_status. destruct (_ && _); intros tr; unfold raise, ret; eauto.
Qed.

Lemma validate_ticker_ends (w : world) (ticker : string) :
  ends (validate_ticker w ticker).
Proof.
  intros tr. pose proof (validate_ticker_spec_facts w ticker tr) as H.
  destruct (yf_Ticker w ticker); [destruct H as (ok & meta & -> & _)|rewrite H];
    eauto.
Qed.

Lemma fetch_yahoo_company_ends (w : world) (ticker : string) :
  ends (fetch_yahoo_company w ticker).
Proof.
  intros tr. pose proof (fetch_yahoo_company_spec_facts w ticker tr) as H.
  destruct (yf_Ticker w ticker); [destruct H as (y & tr' & -> & _)|rewrite H];
    eauto.
Qed.

Lemma fetch_wikipedia_summary_ends (w : world) (query : string) :
  ends (fetch_wikipedia_summary w query).
Proof.
  intros tr.
  destruct (fetch_wikipedia_summary_spec_facts w query tr) as (web & -> & _).
  eauto.
Qed.

Lemma fetch_comments_for_video_ends_always (w : world) (fuel : nat)
    (video_id : string) (max_comments : nat) :
  pages_make_progress w video_id -> max_comments <= fuel ->
  ends (fetch_comments_for_video w fuel video_id max_comments).
Proof.
  intros Hprog Hfuel. unfold fetch_comments_for_video.
  destruct (unset (YOUTUBE_API_KEY w)); [apply ends_ret|].
  apply ends_try_except; [|intros _; apply ends_ret].
  intros tr. apply (fetch_comments_loop_ends w video_id max_comments Hprog).
  cbn [length]. lia.
Qed.

Lemma videos_loop_ends (w : world) (fuel : nat)
    (max_videos max_comments_per_video : nat) (vs : list video_item) :
  (forall video_id, pages_make_progress w video_id) ->
  max_comments_per_video <= fuel ->
  forall (all : list comment) (video_summaries : list video_summary) (n : nat),
    ends (videos_loop w fuel max_videos max_comments_per_video vs
            all video_summaries n).
Proof.
  intros Hprog Hfuel.
  induction vs as [|v vs IH]; intros all sums n; cbn [videos_loop];
    [apply ends_ret|].
  destruct (max_videos <=? n); [apply ends_ret|].
  apply ends_bind.
  { destruct (videoId v); intros tr; unfold ret, raise; eauto. }
  intros vid. destruct (negb _); [apply IH|].
  apply ends_bind; [now apply fetch_comments_for_video_ends_always|].
  intros [|c0 cl]; [apply IH|].
  destruct (filter_financial_comments (c0 :: cl)); apply IH.
Qed.

Lemma fetch_youtube_comments_for_query_ends (w : world) (fuel : nat)
    (query : string) (max_videos max_comments_per_video : nat) :
  (forall video_id, pages_make_progress w video_id) ->
  max_comments_per_video <= fuel ->
  ends (fetch_youtube_comments_for_query w fuel query max_videos
          max_comments_per_video).
Proof.
  intros Hprog Hfuel. unfold fetch_youtube_comments_for_query.
  destruct (unset (YOUTUBE_API_KEY w)); [apply ends_ret|].
  apply ends_try_except; [|intros _; apply ends_ret].
  apply ends_bind; [apply ends_call|].
  intros r. destruct (status_code r =? 403); [apply ends_ret|].
  apply ends_bind; [apply ends_raise_for_status|]. intros _.
  apply ends_bind; [apply ends_lift|]. intros vs.
  now apply videos_loop_ends.
Qed.

Lemma anthropic_complete_ends (w : world) (prompt : string) (max_tokens : nat) :
  ends (anthropic_complete w prompt max_tokens).
Proof.
  unfold anthropic_complete.
  destruct (unset (ANTHROPIC_API_KEY w)); [|apply ends_call].
  intros tr. unfold raise. eauto.
Qed.

Lemma analyze_ends
    (json_loads : string -> res (gmap string jval))
    (analyze_prompt_head analyze_prompt_tail : string)
    (w : world) (comments : list comment) (source_name : string) :
  ends (analyze_comments_with_anthropic json_loads analyze_prompt_head
          analyze_prompt_tail w comments source_name).
Proof.
  unfold analyze_comments_with_anthropic.
  destruct comments as [|c cs]; [apply ends_ret|].
  apply ends_bind.
  - apply ends_try_except; [|intros _; apply ends_ret].
    apply ends_bind; [apply anthropic_complete_ends|].
    intros resp. apply ends_ret.
  - intros [resp|]; [|apply ends_ret].
    destruct (parse_analysis json_loads resp source_name); apply ends_ret.
Qed.

Lemma compare_and_summarize_ends
    (build_compare_prompt :
       pyval -> pyval -> list (gmap string jval) -> string -> string)
    (w : world) (yahoo : yahoo_data) (web : gmap string pyval)
    (social_summaries : list (gmap string jval)) :
  ends (compare_and_summarize build_compare_prompt w yahoo web social_summaries).
Proof.
  intros tr.
  destruct (compare_and_summarize_spec_facts build_compare_prompt w yahoo web
              social_summaries tr) as (c & tr' & _ & -> & _).
  eauto.
Qed.

Section OrchestratorFacts.

Variable json_loads : string -> res (gmap string jval).
Variables analyze_prompt_head analyze_prompt_tail : string.
Variable build_compare_prompt :
  pyval -> pyval -> list (gmap string jval) -> string -> string.
Variable format_metrics_text : gmap string pyval -> string.
Variable num_str : pyval -> string.
Variable upper : string -> string.
Variable utcnow_isoformat : string.
Variable w : world.
Variable fuel : nat.
Variable ticker : string.

(** X22. The paging loop over the comment threads is the only loop of the
    pipeline that the providers can keep going.  If every comment page
    that names a next page holds at least one comment, a report run ends,
    in a report or in an exception, within 100 page requests for each
    video. *)
Theorem generate_company_report_terminates (tr : list event) :
  (forall video_id, pages_make_progress w video_id) ->
  100 <= fuel ->
  exists r tr',
    generate_company_report json_loads analyze_prompt_head
      analyze_prompt_tail build_compare_prompt format_metrics_text num_str
      upper utcnow_isoformat w fuel ticker tr
    = Some (r, tr').
Proof.
  intros Hprog Hfuel. revert tr.
  change (ends
            (generate_company_report json_loads analyze_prompt_head
               analyze_prompt_tail build_compare_prompt format_metrics_text
               num_str upper utcnow_isoformat w fuel ticker)).
  unfold generate_company_report.
  apply ends_bind; [apply validate_ticker_ends|].
  intros [ok meta]. cbn [fst snd].
  destruct ok; cbn [negb]; [|apply ends_ret].
  apply ends_bind; [apply fetch_yahoo_company_ends|]. intros yahoo.
  apply ends_bind; [apply fetch_wikipedia_summary_ends|]. intros web.
  apply ends_bind; [now apply fetch_youtube_comments_for_query_ends|].
  intros yt_data.
  apply ends_bind; [apply analyze_ends|]. intros yt_analysis.
  apply ends_bind; [apply ends_lift|]. intros metrics.
  apply ends_bind; [apply compare_and_summarize_ends|].
  intros c. apply ends_ret.
Qed.

Lemma validate_ticker_emits (P : event -> Prop) :
  P (CallTickerInfo ticker) -> emits P (validate_ticker w ticker).
Proof.
  intros HP tr r tr' H.
  pose proof (validate_ticker_spec_facts w ticker tr) as Hs.
  destruct (yf_Ticker w ticker).
  - destruct Hs as (ok & meta & Hrun & _).
    rewrite Hrun in H. injection H as _ <-.
    exists [CallTickerInfo ticker]. split; [reflexivity|]. now constructor.
  - rewrite Hs in H. injection H as _ <-.
    exists []. split; [now rewrite app_nil_r|constructor].
Qed.

Lemma fetch_yahoo_company_emits (P : event -> Prop) :
  P (CallTickerInfo ticker) -> P (CallTickerHistory ticker) ->
  emits P (fetch_yahoo_company w ticker).
Proof.
  intros Hi Hh tr r tr' H.
  pose proof (fetch_yahoo_company_spec_facts w ticker tr) as Hs.
  destruct (yf_Ticker w ticker).
  - destruct Hs as (y & tr1 & Hrun & _ & _ & _ & Htr).
    rewrite Hrun in H. injection H as _ <-.
    destruct (ticker_info w ticker); destruct Htr as (-> & _);
      eexists; (split; [reflexivity|]); repeat constructor; assumption.
  - rewrite Hs in H. injection H as _ <-.
    exists []. split; [now rewrite app_nil_r|constructor].
Qed.

Lemma fetch_wikipedia_summary_emits (P : event -> Prop) (query : string) :
  P (CallWikipedia query) -> emits P (fetch_wikipedia_summary w query).
Proof.
  intros HP tr r tr' H.
  destruct (fetch_wikipedia_summary_spec_facts w query tr) as (web & Hrun & _).
  rewrite Hrun in H. injection H as _ <-.
  exists [CallWikipedia query]. split; [reflexivity|]. now constructor.
Qed.

Lemma fetch_youtube_emits (P : event -> Prop) (query : string) :
  (unset (YOUTUBE_API_KEY w) = false -> forall e, is_youtube_call e -> P e) ->
  emits P (fetch_youtube_comments_for_query w fuel query 5 100).
Proof.
  intros HP.
  destruct (unset (YOUTUBE_API_KEY w)) eqn:Hkey.
  - unfold fetch_youtube_comments_for_query. rewrite Hkey. apply emits_ret.
  - eapply emits_weaken; [exact (HP eq_refl)|].
    apply fetch_youtube_comments_for_query_safe_facts.
Qed.

Lemma anthropic_complete_emits (P : event -> Prop) (prompt : string)
    (max_tokens : nat) :
  (unset (ANTHROPIC_API_KEY w) = false -> forall e, is_llm_call e -> P e) ->
  emits P (anthropic_complete w prompt max_tokens).
Proof.
  intros HP. unfold anthropic_complete.
  destruct (unset (ANTHROPIC_API_KEY w)); [apply emits_raise|].
  apply emits_call. now apply HP.
Qed.

Lemma analyze_emits (P : event -> Prop) (comments : list comment)
    (source_name : string) :
  (unset (ANTHROPIC_API_KEY w) = false -> forall e, is_llm_call e -> P e) ->
  emits P
    (analyze_comments_with_anthropic json_loads analyze_prompt_head
       analyze_prompt_tail w comments source_name).
Proof.
  intros HP. unfold analyze_comments_with_anthropic.
  destruct comments as [|c cs]; [apply emits_ret|].
  apply emits_bind.
  - apply emits_try_except; [|intros _; apply emits_ret].
    apply emits_bind; [now apply anthropic_complete_emits|].
    intros resp. apply emits_ret.
  - intros [resp|]; [|apply emits_ret].
    destruct (parse_analysis json_loads resp source_name); apply emits_ret.
Qed.

Lemma compare_and_summarize_emits (P : event -> Prop) (yahoo : yahoo_data)
    (web : gmap string pyval) (social_summaries : list (gmap string jval)) :
  (unset (ANTHROPIC_API_KEY w) = false -> forall e, is_llm_call e -> P e) ->
  emits P
    (compare_and_summarize build_compare_prompt w yahoo web social_summaries).
Proof.
  intros HP. unfold compare_and_summarize.
  apply emits_try_except; [|intros e; apply emits_ret].
  apply emits_bind; [now apply anthropic_complete_emits|].
  intros md. apply emits_ret.
Qed.

Lemma generate_company_report_emits (P : event -> Prop) :
  (forall e, is_market_call e -> P e) ->
  (forall query, P (CallWikipedia query)) ->
  (unset (YOUTUBE_API_KEY w) = false -> forall e, is_youtube_call e -> P e) ->
  (unset (ANTHROPIC_API_KEY w) = false -> forall e, is_llm_call e -> P e) ->
  emits P
    (generate_company_report json_loads analyze_prompt_head
       analyze_prompt_tail build_compare_prompt format_metrics_text num_str
       upper utcnow_isoformat w fuel ticker).
Proof.
  intros Hmarket Hwiki Hyt Hllm. unfold generate_company_report.
  apply emits_bind; [apply validate_ticker_emits; now apply Hmarket|].
  intros [ok meta]. cbn [fst snd].
  destruct ok; cbn [negb]; [|apply emits_ret].
  apply emits_bind;
    [apply fetch_yahoo_company_emits; now apply Hmarket|]. intros yahoo.
  apply emits_bind; [now apply fetch_wikipedia_summary_emits|]. intros web.
  apply emits_bind; [now apply fetch_youtube_emits|]. intros yt_data.
  apply emits_bind; [now apply analyze_emits|]. intros yt_analysis.
  apply emits_bind; [apply emits_lift|]. intros metrics.
  apply emits_bind; [now apply compare_and_summarize_emits|]. intros c.
  apply emits_ret.
Qed.

(** X13. Without a video-platform key the feature is off for the whole
    run: no call goes to the video platform, and a report that is not the
    validation error lists no videos and holds, as its one social
    analysis, the neutral analysis of an empty corpus. *)
Theorem report_without_youtube_key :
  unset (YOUTUBE_API_KEY w) = true ->
  emits (fun e => ~ is_youtube_call e)
    (generate_company_report json_loads analyze_prompt_head
       analyze_prompt_tail build_compare_prompt format_metrics_text num_str
       upper utcnow_isoformat w fuel ticker)
  /\ returns
       (fun report =>
          is_Some (report !! "error")
          \/ (report !! "youtube_videos" = Some (RVideos [])
              /\ report !! "social_analyses"
                 = Some (RAnalyses [empty_analysis "YouTube"])))
       (generate_company_report json_loads analyze_prompt_head
          analyze_prompt_tail build_compare_prompt format_metrics_text num_str
          upper utcnow_isoformat w fuel ticker).
Proof.
  intros Hkey. split.
  - apply generate_company_report_emits.
    + intros [] He; cbn in *; tauto.
    + intros query H. exact H.
    + congruence.
    + intros _ [] He; cbn in *; tauto.
  - intros tr report tr' H. unfold generate_company_report in H.
    apply bind_inv in H as [([ok meta] & tr1 & _ & H)|(? & _ & [=])].
    cbn [fst snd] in H. destruct ok; cbn [negb] in H.
    2: { injection H as <- _. left. eexists. lookup_literal. }
    apply bind_inv in H as [(yahoo & tr2 & _ & H)|(? & _ & [=])].
    apply bind_inv in H as [(web & tr3 & _ & H)|(? & _ & [=])].
    apply bind_inv in H as [(yt_data & tr4 & Hyt & H)|(? & _ & [=])].
    unfold fetch_youtube_comments_for_query in Hyt. rewrite Hkey in Hyt.
    injection Hyt as <- _.
    apply bind_inv in H as [(yt_analysis & tr5 & Ha & H)|(? & _ & [=])].
    cbn in Ha. injection Ha as <- _.
    apply bind_inv in H as [(metrics & tr6 & _ & H)|(? & _ & [=])].
    apply bind_inv in H as [(c & tr7 & _ & H)|(? & _ & [=])].
    injection H as <- _. right. split; lookup_literal.
Qed.

(** X14. Without an LLM key no call goes to the LLM provider in the whole
    run, however the run ends; and a report that the run returns, when it
    is not the validation error, has as its fusion section the placeholder
    markdown with the configuration error recorded. *)
Theorem report_without_llm_key :
  unset (ANTHROPIC_API_KEY w) = true ->
  emits (fun e => ~ is_llm_call e)
    (generate_company_report json_loads analyze_prompt_head
       analyze_prompt_tail build_compare_prompt format_metrics_text num_str
       upper utcnow_isoformat w fuel ticker)
  /\ returns
       (fun report =>
          is_Some (report !! "error")
          \/ exists c,
               report !! "comparator" = Some (RComparator c)
               /\ markdown c = comparator_placeholder
               /\ error c = Some "ANTHROPIC_API_KEY not configured")
       (generate_company_report json_loads analyze_prompt_head
          analyze_prompt_tail build_compare_prompt format_metrics_text num_str
          upper utcnow_isoformat w fuel ticker).
Proof.
  intros Hkey. split.
  - apply generate_company_report_emits.
    + intros [] He; cbn in *; tauto.
    + intros query H. exact H.
    + intros _ [] He; cbn in *; tauto.
    + congruence.
  - intros tr report tr' H. unfold generate_company_report in H.
    apply bind_inv in H as [([ok meta] & tr1 & _ & H)|(? & _ & [=])].
    cbn [fst snd] in H. destruct ok; cbn [negb] in H.
    2: { injection H as <- _. left. eexists. lookup_literal. }
    apply bind_inv in H as [(yahoo & tr2 & _ & H)|(? & _ & [=])].
    apply bind_inv in H as [(web & tr3 & _ & H)|(? & _ & [=])].
    apply bind_inv in H as [(yt_data & tr4 & _ & H)|(? & _ & [=])].
    apply bind_inv in H as [(yt_analysis & tr5 & _ & H)|(? & _ & [=])].
    apply bind_inv in H as [(metrics & tr6 & _ & H)|(? & _ & [=])].
    apply bind_inv in H as [(c & tr7 & Hc & H)|(? & _ & [=])].
    injection H as <- _. right. exists c. split; [lookup_literal|].
    match type of Hc with
    | compare_and_summarize _ _ ?y ?web' ?soc ?t = _ =>
        destruct (compare_and_summarize_spec_facts build_compare_prompt w y web' soc t)
          as (c' & tr'' & prompt & Hrun & _ & Hcase)
    end.
    rewrite Hrun in Hc. injection Hc as <- _.
    rewrite Hkey in Hcase. tauto.
Qed.

(** X15. When validation succeeds, the report that a run returns has
    exactly the eleven report keys, and so no ["error"] and no
    ["message"]; its ticker is the upper-cased input and its company name
    the validator's. *)
Theorem valid_report_keys (tr tr1 tr' : list event) (meta : ticker_meta)
    (report : gmap string report_value) :
  validate_ticker w ticker tr = Some (Ok (true, meta), tr1) ->
  generate_company_report json_loads analyze_prompt_head
    analyze_prompt_tail build_compare_prompt format_metrics_text num_str
    upper utcnow_isoformat w fuel ticker tr = Some (Ok report, tr') ->
  (forall key, is_Some (report !! key) <-> In key report_keys)
  /\ report !! "ticker" = Some (RStr (upper ticker))
  /\ report !! "company_name" = Some (RVal (m_name meta)).
Proof.
  intros Hv H. unfold generate_company_report in H.
  apply bind_inv in H as [([ok meta'] & tr1' & Hv' & H)|(? & _ & [=])].
  rewrite Hv in Hv'. injection Hv' as <- <- <-.
  cbn [fst snd negb] in H.
  apply bind_inv in H as [(yahoo & tr2 & _ & H)|(? & _ & [=])].
  apply bind_inv in H as [(web & tr3 & _ & H)|(? & _ & [=])].
  apply bind_inv in H as [(yt_data & tr4 & _ & H)|(? & _ & [=])].
  apply bind_inv in H as [(yt_analysis & tr5 & _ & H)|(? & _ & [=])].
  apply bind_inv in H as [(metrics & tr6 & _ & H)|(? & _ & [=])].
  apply bind_inv in H as [(c & tr7 & _ & H)|(? & _ & [=])].
  injection H as <- _.
  split; [|split; lookup_literal].
  intros key. split.
  - intros Hsome.
    destruct (decide (key ∈ report_keys)) as [Hin|Hout];
      [now apply list_elem_of_In|].
    exfalso.
    rewrite !lookup_insert_ne in Hsome
      by (intros <-; apply Hout; apply list_elem_of_In; cbn; tauto).
    rewrite lookup_empty in Hsome. now destruct Hsome.
  - intros Hin. unfold report_keys in Hin. cbn [In] in Hin.
    repeat (destruct Hin as [<-|Hin]; [eexists; lookup_literal|]).
    contradiction.
Qed.

End OrchestratorFacts.

(** Here the search finds a video whose comment pages never run out: the
    run asks for 100 of them and ends. *)
Lemma generate_company_report_terminates_witness :
  exists r tr',
    generate_company_report loads_bullish "" "" no_prompt no_text
      (fun _ => "") (fun s => s) "" world_endless_pages 100 "ACME" []
    = Some (r, tr').
Proof.
  apply generate_company_report_terminates; [|lia].
  intros video_id page_token r data Hr Hd Hnext.
  cbn in Hr. injection Hr as <-. cbn in Hd. injection Hd as <-.
  discriminate.
Defined.

Lemma report_without_youtube_key_witness :
  emits (fun e => ~ is_youtube_call e)
    (generate_company_report loads_bullish "" "" no_prompt no_text
       (fun _ => "") (fun s => s) "" world_known_ticker 0 "ACME")
  /\ returns
       (fun report =>
          is_Some (report !! "error")
          \/ (report !! "youtube_videos" = Some (RVideos [])
              /\ report !! "social_analyses"
                 = Some (RAnalyses [empty_analysis "YouTube"])))
       (generate_company_report loads_bullish "" "" no_prompt no_text
          (fun _ => "") (fun s => s) "" world_known_ticker 0 "ACME").
Proof. apply report_without_youtube_key. reflexivity. Defined.

Lemma report_without_llm_key_witness :
  emits (fun e => ~ is_llm_call e)
    (generate_company_report loads_bullish "" "" no_prompt no_text
       (fun _ => "") (fun s => s) "" world_known_ticker 0 "ACME")
  /\ returns
       (fun report =>
          is_Some (report !! "error")
          \/ exists c,
               report !! "comparator" = Some (RComparator c)
               /\ markdown c = comparator_placeholder
               /\ error c = Some "ANTHROPIC_API_KEY not configured")
       (generate_company_report loads_bullish "" "" no_prompt no_text
          (fun _ => "") (fun s => s) "" world_known_ticker 0 "ACME").
Proof. apply report_without_llm_key. reflexivity. Defined.

Lemma valid_report_keys_witness :
  exists report tr',
    generate_company_report loads_bullish "" "" no_prompt no_text
      (fun _ => "") (fun s => s) "" world_known_ticker 0 "ACME" []
    = Some (Ok report, tr')
    /\ (forall key, is_Some (report !! key) <-> In key report_keys)
    /\ report !! "ticker" = Some (RStr "ACME")
    /\ report !! "company_name" = Some (RVal (PyStr "Acme Corp")).
Proof.
  destruct (generate_company_report loads_bullish "" "" no_prompt no_text
              (fun _ => "") (fun s => s) "" world_known_ticker 0 "ACME" [])
    as [[[report|msg] tr']|] eqn:Hrun.
  - exists report, tr'. split; [reflexivity|].
    apply (valid_report_keys loads_bullish "" "" no_prompt no_text
             (fun _ => "") (fun s => s) "" world_known_ticker 0 "ACME"
             [] [CallTickerInfo "ACME"] tr'
             (mk_meta "ok" (PyStr "Acme Corp")
                (<["longName" := PyStr "Acme Corp"]> ∅)) report);
      [reflexivity|exact Hrun].
  - vm_compute in Hrun. discriminate Hrun.
  - vm_compute in Hrun. discriminate Hrun.
Defined.

(** ** The metrics engine *)

(** X16. Which keys a metrics dict has.  In every dict that the engine
    returns the six fundamentals are present, each with the provider's
    value or [None]; the four close-derived keys are there exactly when
    the history gives a close sample, and [avg_volume] exactly when it
    gives a volume sample. *)
Theorem metrics_keys (yahoo : yahoo_data) (metrics : gmap string pyval) :
  compute_company_metrics yahoo = Ok metrics ->
  (forall key field, In (key, field) fundamental_keys ->
     metrics !! key = Some (dict_get (y_info yahoo) field))
  /\ (forall key, In key close_keys ->
        (is_Some (metrics !! key)
         <-> fst (history_samples (default [] (y_history yahoo))) <> []))
  /\ (is_Some (metrics !! "avg_volume")
      <-> snd (history_samples (default [] (y_history yahoo))) <> []).
Proof.
  unfold compute_company_metrics.
  destruct (history_samples (default [] (y_history yahoo)))
    as [closes volumes].
  cbn [fst snd].
  assert (forall key field, In (key, field) fundamental_keys ->
            key <> "period_pct_change" /\ key <> "ma_50" /\ key <> "ma_200"
            /\ key <> "volatility_annual_approx" /\ key <> "avg_volume")
    as Hfresh.
  { intros key field Hin. unfold fundamental_keys in Hin. cbn [In] in Hin.
    repeat (destruct Hin as [[= <- <-]|Hin]; [repeat split; discriminate|]).
    contradiction. }
  assert (forall (m : gmap string pyval) key field,
            m = <["industry" := dict_get (y_info yahoo) "industry"]>
                (<["sector" := dict_get (y_info yahoo) "sector"]>
                (<["beta" := dict_get (y_info yahoo) "beta"]>
                (<["forward_pe" := dict_get (y_info yahoo) "forwardPE"]>
                (<["trailing_pe" := dict_get (y_info yahoo) "trailingPE"]>
                (<["market_cap" := dict_get (y_info yahoo) "marketCap"]> ∅)))))
            -> In (key, field) fundamental_keys ->
            m !! key = Some (dict_get (y_info yahoo) field)) as Hbase.
  { intros m key field -> Hin. unfold fundamental_keys in Hin. cbn [In] in Hin.
    repeat (destruct Hin as [[= <- <-]|Hin]; [lookup_literal|]).
    contradiction. }
  destruct closes as [|c closes].
  - cbn [mbind res_bind]. destruct volumes as [|v volumes]; intros [= <-];
      (split; [|split]).
    + intros key field Hin. now apply (Hbase _ key field eq_refl).
    + intros key Hin. unfold close_keys in Hin. cbn [In] in Hin.
      split; [|congruence]. intros [x Hx]. exfalso.
      repeat (destruct Hin as [<-|Hin];
              [rewrite !lookup_insert_ne in Hx by done;
               rewrite lookup_empty in Hx; discriminate Hx|]).
      contradiction.
    + split; [|congruence]. intros [x Hx]. exfalso.
      rewrite !lookup_insert_ne in Hx by done.
      rewrite lookup_empty in Hx. discriminate Hx.
    + intros key field Hin. destruct (Hfresh key field Hin) as (_ & _ & _ & _ & H5).
      rewrite lookup_insert_ne by congruence.
      now apply (Hbase _ key field eq_refl).
    + intros key Hin. unfold close_keys in Hin. cbn [In] in Hin.
      split; [|congruence]. intros [x Hx]. exfalso.
      repeat (destruct Hin as [<-|Hin];
              [rewrite !lookup_insert_ne in Hx by done;
               rewrite lookup_empty in Hx; discriminate Hx|]).
      contradiction.
    + split; [discriminate|]. intros _. eexists. lookup_literal.
  - unfold close_metrics.
    destruct (moving_average_or (c :: closes) 50 10) as [a|msg];
      cbn [mbind res_bind]; [|discriminate].
    destruct (moving_average_or (c :: closes) 200 50) as [b|msg];
      cbn [mbind res_bind]; [|discriminate].
    destruct (daily_returns (c :: closes)); destruct volumes as [|v volumes];
      cbn [mbind res_bind]; intros [= <-]; (split; [|split]);
      try (intros key field Hin;
           destruct (Hfresh key field Hin) as (H1 & H2 & H3 & H4 & H5);
           rewrite !lookup_insert_ne by congruence;
           now apply (Hbase _ key field eq_refl));
      try (intros key Hin; unfold close_keys in Hin; cbn [In] in Hin;
           split; [discriminate|]; intros _;
           repeat (destruct Hin as [<-|Hin]; [eexists; lookup_literal|]);
           contradiction);
      try (split; [discriminate|]; intros _; eexists; lookup_literal);
      try (split; [|congruence]; intros [x Hx]; exfalso;
           rewrite !lookup_insert_ne in Hx by done;
           rewrite lookup_empty in Hx; discriminate Hx).
Qed.

(** Three rows, the first with a zero close and a zero volume: two close
    samples and two volume samples, so every key is there. *)
Lemma metrics_keys_witness :
  exists metrics,
    compute_company_metrics
      (mk_yahoo ∅ (PyStr "") (Some history_with_leading_zero) None)
    = Ok metrics
    /\ (forall key field, In (key, field) fundamental_keys ->
          metrics !! key = Some (dict_get ∅ field))
    /\ (forall key, In key close_keys ->
          (is_Some (metrics !! key)
           <-> fst (history_samples history_with_leading_zero) <> []))
    /\ (is_Some (metrics !! "avg_volume")
        <-> snd (history_samples history_with_leading_zero) <> []).
Proof.
  eexists. split; [reflexivity|].
  apply (metrics_keys
           (mk_yahoo ∅ (PyStr "") (Some history_with_leading_zero) None)).
  reflexivity.
Defined.

Lemma moving_average_or_positive (closes : list Q) (nominal fallback : nat) :
  Forall (fun p => 0 < p)%Q closes -> closes <> [] ->
  0 < nominal -> 0 < fallback ->
  moving_average_or closes nominal fallback
  = Ok (PyNum (py_sum (lastn (ma_window nominal fallback (length closes)) closes)
               / inject_Z (Z.of_nat (ma_window nominal fallback (length closes))))%Q).
Proof.
  intros Hpos Hne Hn Hf.
  assert (0 < length closes) as Hlen by (destruct closes; [congruence|cbn; lia]).
  assert (forall k, 0 < k -> k <= length closes ->
            truthy (PyNum (py_sum (lastn k closes) / inject_Z (Z.of_nat k))%Q)
            = true) as Htruthy.
  { intros k Hk Hkl. cbn [truthy]. rewrite Qeq_bool_pos; [reflexivity|].
    apply Qlt_shift_div_l.
    - change 0%Q with (inject_Z 0). rewrite <- Zlt_Qlt. lia.
    - rewrite Qmult_0_l. apply py_sum_pos.
      + unfold lastn. now apply Forall_drop.
      + intros Hnil. apply (f_equal length) in Hnil.
        unfold lastn in Hnil. rewrite length_skipn in Hnil. cbn in Hnil. lia. }
  unfold moving_average_or, ma_window.
  destruct (nominal <=? length closes) eqn:E.
  - apply Nat.leb_le in E.
    rewrite (moving_average_enough closes nominal Hn E).
    cbn [mbind res_bind from_option]. now rewrite (Htruthy nominal Hn E).
  - apply Nat.leb_gt in E.
    rewrite (moving_average_short closes nominal E).
    cbn [mbind res_bind from_option truthy].
    rewrite (moving_average_enough closes (Nat.min fallback (length closes)))
      by lia.
    reflexivity.
Qed.

(** X17. On positive close samples both moving averages are simple means
    of the trailing window: the last 50 (200) closes when there are that
    many, and otherwise the last [min(10, N)] ([min(50, N)]) closes, so a
    short series still gets both averages. *)
Theorem moving_average_windows (yahoo : yahoo_data) (closes : list Q) :
  fst (history_samples (default [] (y_history yahoo))) = closes ->
  closes <> [] ->
  Forall (fun p => 0 < p)%Q closes ->
  exists metrics,
    compute_company_metrics yahoo = Ok metrics
    /\ metrics !! "ma_50"
       = Some (PyNum (mean (lastn (ma_window 50 10 (length closes)) closes)))
    /\ metrics !! "ma_200"
       = Some (PyNum (mean (lastn (ma_window 200 50 (length closes)) closes))).
Proof.
  intros Hcloses Hne Hpos.
  assert (forall nominal fallback, 0 < nominal -> 0 < fallback ->
            moving_average_or closes nominal fallback
            = Ok (PyNum (mean (lastn (ma_window nominal fallback (length closes))
                                 closes)))) as Hma.
  { intros nominal fallback Hn Hf.
    rewrite (moving_average_or_positive closes nominal fallback Hpos Hne Hn Hf).
    unfold mean. unfold lastn at 3. rewrite length_skipn.
    replace (length closes - (length closes
                              - ma_window nominal fallback (length closes)))
      with (ma_window nominal fallback (length closes)); [reflexivity|].
    unfold ma_window. destruct (nominal <=? length closes) eqn:E.
    - apply Nat.leb_le in E. lia.
    - lia. }
  unfold compute_company_metrics.
  destruct (history_samples (default [] (y_history yahoo))) as [cs volumes].
  cbn [fst] in Hcloses. subst cs.
  destruct closes as [|c rest] eqn:Hs; [congruence|]. rewrite <- Hs in *.
  unfold close_metrics.
  rewrite (Hma 50 10), (Hma 200 50) by lia.
  cbn [mbind res_bind].
  destruct (daily_returns closes); destruct volumes;
    eexists; (split; [reflexivity|]); split; lookup_literal.
Qed.

Lemma moving_average_windows_witness :
  exists metrics,
    compute_company_metrics
      (mk_yahoo ∅ (PyStr "") (Some history_with_leading_zero) None)
    = Ok metrics
    /\ metrics !! "ma_50"
       = Some (PyNum (mean (lastn (ma_window 50 10 (length [10 # 1; 20 # 1]%Q))
                              [10 # 1; 20 # 1]%Q)))
    /\ metrics !! "ma_200"
       = Some (PyNum (mean (lastn (ma_window 200 50 (length [10 # 1; 20 # 1]%Q))
                              [10 # 1; 20 # 1]%Q))).
Proof.
  apply moving_average_windows.
  - reflexivity.
  - discriminate.
  - repeat constructor.
Defined.

(** *** A flat price series *)

Lemma fold_Qplus_repeat (x : Q) (k : nat) (acc : Q) :
  (fold_left Qplus (repeat x k) acc == acc + inject_Z (Z.of_nat k) * x)%Q.
Proof.
  revert acc. induction k as [|k IH]; intros acc.
  - cbn. ring.
  - cbn [repeat fold_left]. rewrite IH.
    rewrite Nat2Z.inj_succ. unfold Z.succ. rewrite inject_Z_plus. ring.
Qed.

Lemma py_sum_repeat (x : Q) (k : nat) :
  (py_sum (repeat x k) == inject_Z (Z.of_nat k) * x)%Q.
Proof. unfold py_sum. rewrite fold_Qplus_repeat. ring. Qed.

Lemma inject_nat_nonzero (k : nat) :
  0 < k -> ~ (inject_Z (Z.of_nat k) == 0)%Q.
Proof.
  intros Hk H. apply Qeq_bool_iff in H.
  now rewrite (window_nonzero k Hk) in H.
Qed.

Lemma mean_repeat (x : Q) (k : nat) : 0 < k -> (mean (repeat x k) == x)%Q.
Proof.
  intros Hk. unfold mean. rewrite py_sum_repeat, repeat_length.
  field. now apply inject_nat_nonzero.
Qed.

Lemma pvariance_repeat (x : Q) (k : nat) :
  0 < k -> (pvariance (repeat x k) * 252 == 0)%Q.
Proof.
  intros Hk. unfold pvariance.
  rewrite map_repeat, repeat_length. rewrite !py_sum_repeat.
  field. now apply inject_nat_nonzero.
Qed.

Lemma daily_returns_step (a b : Q) (l : list Q) :
  daily_returns (a :: b :: l)
  = match py_div (b - a)%Q a with
    | Ok r => r :: daily_returns (b :: l)
    | Raise _ => daily_returns (b :: l)
    end.
Proof. reflexivity. Qed.

Lemma daily_returns_repeat (c : Q) (m : nat) :
  Qeq_bool c 0 = false ->
  daily_returns (repeat c (S m)) = repeat ((c - c) / c)%Q m.
Proof.
  intros Hc. induction m as [|m IH]; [reflexivity|].
  change (repeat c (S (S m))) with (c :: c :: repeat c m).
  rewrite daily_returns_step. unfold py_div. rewrite Hc.
  change (c :: repeat c m) with (repeat c (S m)). now rewrite IH.
Qed.

Lemma last_repeat (c d : Q) (m : nat) : List.last (repeat c (S m)) d = c.
Proof.
  induction m as [|m IH]; [reflexivity|].
  change (repeat c (S (S m))) with (c :: repeat c (S m)).
  change (repeat c (S m)) with (c :: repeat c m) at 1.
  cbn [List.last]. exact IH.
Qed.

Lemma lastn_repeat (c : Q) (k n : nat) :
  lastn k (repeat c n) = repeat c (n - (n - k)).
Proof.
  unfold lastn. rewrite repeat_length.
  generalize (n - k) as j. intros j. revert j.
  induction n as [|n IH]; intros [|j]; cbn; try reflexivity.
  apply IH.
Qed.

(** X18. On a history of [n >= 1] rows at one positive close the period
    change is 0; the volatility is 0 when there are at least two rows, and
    [None] (the key is there) for a single row.  Both hold of floats as
    they do of rationals: [c - c] and every daily return are exactly zero.
    Nothing is said of the two averages, whose sums are rounded. *)
Theorem flat_series_metrics
    (info : gmap string pyval) (summary : pyval) (mtext : option string)
    (c : Q) (n : nat) :
  (0 < c)%Q -> 1 <= n ->
  exists metrics p,
    compute_company_metrics
      (mk_yahoo info summary (Some (flat_history c n)) mtext) = Ok metrics
    /\ metrics !! "period_pct_change" = Some (PyNum p) /\ (p == 0)%Q
    /\ match n with
       | 1 => metrics !! "volatility_annual_approx" = Some PyNone
       | _ => exists v,
                metrics !! "volatility_annual_approx" = Some (PyRoot v)
                /\ (v == 0)%Q
       end.
Proof.
  intros Hc Hn.
  assert (Forall (fun p => 0 < p)%Q (repeat c n)) as Hpos.
  { apply List.Forall_forall. intros x Hx. apply repeat_spec in Hx. now subst. }
  assert (Qeq_bool c 0 = false) as Hc0 by now apply Qeq_bool_pos.
  assert (forall nominal fallback, 0 < nominal -> 0 < fallback ->
            exists a, moving_average_or (repeat c n) nominal fallback = Ok a)
    as Hma.
  { intros nominal fallback Hnom Hfb.
    rewrite (moving_average_or_positive (repeat c n) nominal fallback Hpos);
      [|destruct n; [lia|discriminate]|exact Hnom|exact Hfb].
    eauto. }
  unfold compute_company_metrics, flat_history.
  cbn [y_history y_info default from_option id].
  rewrite close_rows_samples, (filter_nonzero_positive _ Hpos).
  destruct n as [|m]; [lia|].
  change (repeat c (S m)) with (c :: repeat c m) at 1.
  cbv match. unfold close_metrics.
  destruct (Hma 50 10) as (a50 & ->); [lia|lia|].
  destruct (Hma 200 50) as (a200 & ->); [lia|lia|].
  cbn [mbind res_bind].
  rewrite (last_repeat c 0 m), (daily_returns_repeat c m Hc0).
  change (hd 0%Q (repeat c (S m))) with c.
  unfold py_div. rewrite Hc0.
  assert ((c - c) / c * 100 == 0)%Q as Hp.
  { field. intros H0. apply Qeq_bool_iff in H0. congruence. }
  destruct m as [|m].
  - cbn [repeat]. eexists. exists ((c - c) / c * 100)%Q.
    split; [reflexivity|].
    repeat (split; [first [lookup_literal | assumption]|]).
    lookup_literal.
  - change (repeat ((c - c) / c)%Q (S m))
      with (((c - c) / c)%Q :: repeat ((c - c) / c)%Q m) at 1.
    cbv iota.
    eexists. exists ((c - c) / c * 100)%Q.
    split; [reflexivity|].
    repeat (split; [first [lookup_literal | assumption]|]).
    eexists. split; [lookup_literal|].
    change (((c - c) / c)%Q :: repeat ((c - c) / c)%Q m)
      with (repeat ((c - c) / c)%Q (S m)).
    apply pvariance_repeat. lia.
Qed.

Lemma flat_series_metrics_witness :
  exists metrics p,
    compute_company_metrics
      (mk_yahoo ∅ (PyStr "") (Some (flat_history (150 # 1) 91)) None)
    = Ok metrics
    /\ metrics !! "period_pct_change" = Some (PyNum p) /\ (p == 0)%Q
    /\ exists v,
         metrics !! "volatility_annual_approx" = Some (PyRoot v)
         /\ (v == 0)%Q.
Proof.
  apply (flat_series_metrics ∅ (PyStr "") None (150 # 1) 91);
    [reflexivity|lia].
Defined.

(** ** More on the relevance filter and on truncation *)

Lemma filter_twice {A : Type} (p : A -> bool) (l : list A) :
  List.filter p (List.filter p l) = List.filter p l.
Proof.
  induction l as [|x l IH]; [reflexivity|].
  cbn [List.filter]. destruct (p x) eqn:E; [|exact IH].
  cbn [List.filter]. now rewrite E, IH.
Qed.

Lemma filter_no_longer {A : Type} (p : A -> bool) (l : list A) :
  length (List.filter p l) <= length l.
Proof.
  induction l as [|x l IH]; [reflexivity|].
  cbn [List.filter]. destruct (p x); cbn [length]; lia.
Qed.

(** X19. Comments that do not qualify are noise to the filter: with or
    without them in the input the output is the same list.  The output is
    never longer than the input and holds only comments of the input. *)
Theorem filter_ignores_noise (comments : list comment) :
  filter_financial_comments comments
  = filter_financial_comments (List.filter qualifies comments)
  /\ length (filter_financial_comments comments) <= length comments
  /\ (forall c, In c (filter_financial_comments comments) -> In c comments).
Proof.
  destruct (filter_output_facts comments) as (Hp & _ & _).
  split; [|split].
  - apply map_entry_of_inj.
    now rewrite !filter_financial_comments_entries, filter_twice.
  - rewrite (Permutation_length Hp). apply filter_no_longer.
  - intros c Hc. apply (Permutation_in _ Hp) in Hc.
    now apply filter_In in Hc.
Qed.

Lemma length_take_str_exact (n : nat) (s : string) :
  n <= String.length s -> String.length (take_str n s) = n.
Proof.
  revert s. induction n as [|n IH]; intros s Hn; [reflexivity|].
  destruct s as [|a s]; cbn [String.length] in Hn; [lia|].
  cbn [take_str String.length]. rewrite IH; [reflexivity|lia].
Qed.

(** X20. Truncation keeps the first [max_len] characters of the text, and
    its result is at most three characters over the limit; the result
    fits the limit exactly when the text did, a cut text being
    [max_len + 3] characters long. *)
Theorem safe_truncate_keeps_prefix (txt : string) (max_len : nat) :
  take_str max_len (safe_truncate txt max_len) = take_str max_len txt
  /\ String.length (safe_truncate txt max_len) <= max_len + 3
  /\ (String.length (safe_truncate txt max_len) <= max_len
      <-> String.length txt <= max_len).
Proof.
  rewrite safe_truncate_cut. unfold cut.
  destruct (String.length txt <=? max_len) eqn:E.
  - apply Nat.leb_le in E. split; [reflexivity|]. split; [lia|tauto].
  - apply Nat.leb_gt in E.
    assert (String.length (take_str max_len txt) = max_len) as Hlen
      by (apply length_take_str_exact; lia).
    split; [|split].
    + rewrite <- Hlen at 1. apply take_str_app.
    + rewrite length_append_str, Hlen. cbn. lia.
    + rewrite length_append_str, Hlen. cbn [String.length]. split; lia.
Qed.

(** ** The HTTP endpoint *)

(** X21. The endpoint answers a request without a ticker, or with an empty
    one, by a 400 and calls no provider.  Otherwise it runs the report
    once.  A report that the run returns is encoded and sent as a normal
    response, whatever it says, or answered by a 500 with the encoder's
    message when the encoding raises; an exception of the run is answered
    by a 500 with its message.  The endpoint ends when the run does. *)
Theorem post_report_outcome
    (json_loads : string -> res (gmap string jval))
    (analyze_prompt_head analyze_prompt_tail : string)
    (build_compare_prompt :
       pyval -> pyval -> list (gmap string jval) -> string -> string)
    (format_metrics_text : gmap string pyval -> string)
    (num_str : pyval -> string) (upper : string -> string)
    (utcnow_isoformat : string)
    (to_json_content :
       gmap string report_value -> res (gmap string report_value))
    (w : world) (fuel : nat) (payload : gmap string string)
    (tr tr' : list event) (r : res http_outcome) :
  post_report json_loads analyze_prompt_head analyze_prompt_tail
    build_compare_prompt format_metrics_text num_str upper utcnow_isoformat
    to_json_content w fuel payload tr = Some (r, tr') ->
  match payload !! "ticker" with
  | Some (String a t) =>
      match generate_company_report json_loads analyze_prompt_head
              analyze_prompt_tail build_compare_prompt format_metrics_text
              num_str upper utcnow_isoformat w fuel (String a t) tr with
      | Some (Ok report, tr1) =>
          tr' = tr1
          /\ r = match to_json_content report with
                 | Ok content => Ok (JSONResponse content)
                 | Raise detail => Ok (HTTPException 500 detail)
                 end
      | Some (Raise msg, tr1) =>
          tr' = tr1 /\ r = Ok (HTTPException 500 msg)
      | None => False
      end
  | _ =>
      r = Ok (HTTPException 400 "ticker is required in JSON body") /\ tr' = tr
  end.
Proof.
  unfold post_report.
  destruct (payload !! "ticker") as [[|a t]|]; cbn [default from_option id].
  - intros [= <- <-]. auto.
  - change (String.eqb (String a t) "") with false. cbv iota.
    unfold try_except, mbind, M_bind, bind, lift, ret.
    destruct (generate_company_report _ _ _ _ _ _ _ _ w fuel (String a t) tr)
      as [[[report|msg] tr1]|]; [| |discriminate].
    + destruct (to_json_content report); intros [= <- <-]; auto.
    + intros [= <- <-]. auto.
  - intros [= <- <-]. auto.
Qed.

(** Here the run raises, the symbol being refused, and the answer is the
    500 that carries the message. *)
Lemma post_report_outcome_witness :
  match (<["ticker" := "ZZZZ"]> ∅ : gmap string string) !! "ticker" with
  | Some (String a t) =>
      match generate_company_report loads_bullish "" "" no_prompt no_text
              (fun _ => "") (fun s => s) "" world_refused_symbol 0
              (String a t) [] with
      | Some (Ok report, tr1) =>
          [] = tr1
          /\ Ok (HTTPException 500 "symbol refused")
             = match plain_content report with
               | Ok content => Ok (JSONResponse content)
               | Raise detail => Ok (HTTPException 500 detail)
               end
      | Some (Raise msg, tr1) =>
          [] = tr1
          /\ Ok (HTTPException 500 "symbol refused")
             = Ok (HTTPException 500 msg)
      | None => False
      end
  | _ =>
      Ok (HTTPException 500 "symbol refused")
      = Ok (HTTPException 400 "ticker is required in JSON body")
      /\ @nil event = []
  end.
Proof.
  apply (post_report_outcome loads_bullish "" "" no_prompt no_text
           (fun _ => "") (fun s => s) "" plain_content world_refused_symbol 0
           (<["ticker" := "ZZZZ"]> ∅) [] []).
  vm_compute. reflexivity.
Defined.

(** X12. An exception of [yf.Ticker] is not a validation failure.  The
    validator builds the handle outside its [try], and the orchestrator
    calls the validator outside any: a report run on a symbol for which
    the construction raises ends in that exception, with no provider
    called and no error payload returned, and the endpoint answers it, the
    ticker not being empty, by a 500 with the message. *)
Theorem refused_symbol_escapes
    (json_loads : string -> res (gmap string jval))
    (analyze_prompt_head analyze_prompt_tail : string)
    (build_compare_prompt :
       pyval -> pyval -> list (gmap string jval) -> string -> string)
    (format_metrics_text : gmap string pyval -> string)
    (num_str : pyval -> string) (upper : string -> string)
    (utcnow_isoformat : string)
    (to_json_content :
       gmap string report_value -> res (gmap string report_value))
    (w : world) (fuel : nat) (payload : gmap string string)
    (ticker msg : string) (tr : list event) :
  yf_Ticker w ticker = Raise msg ->
  generate_company_report json_loads analyze_prompt_head analyze_prompt_tail
    build_compare_prompt format_metrics_text num_str upper utcnow_isoformat
    w fuel ticker tr
  = Some (Raise msg, tr)
  /\ (payload !! "ticker" = Some ticker -> ticker <> "" ->
      post_report json_loads analyze_prompt_head analyze_prompt_tail
        build_compare_prompt format_metrics_text num_str upper
        utcnow_isoformat to_json_content w fuel payload tr
      = Some (Ok (HTTPException 500 msg), tr)).
Proof.
  intros Hnew.
  assert (generate_company_report json_loads analyze_prompt_head
            analyze_prompt_tail build_compare_prompt format_metrics_text
            num_str upper utcnow_isoformat w fuel ticker tr
          = Some (Raise msg, tr)) as Hrun.
  { pose proof (validate_ticker_spec_facts w ticker tr) as Hv.
    rewrite Hnew in Hv.
    unfold generate_company_report, mbind, M_bind.
    unfold bind at 1. now rewrite Hv. }
  split; [exact Hrun|].
  intros Hp Hne. unfold post_report. rewrite Hp.
  cbn [default from_option id].
  apply String.eqb_neq in Hne. rewrite Hne.
  unfold try_except, mbind, M_bind. unfold bind at 1.
  now rewrite Hrun.
Qed.

Lemma refused_symbol_escapes_witness :
  generate_company_report loads_bullish "" "" no_prompt no_text
    (fun _ => "") (fun s => s) "" world_refused_symbol 0 "ZZZZ" []
  = Some (Raise "symbol refused", [])
  /\ ((<["ticker" := "ZZZZ"]> ∅ : gmap string string) !! "ticker" = Some "ZZZZ" ->
      "ZZZZ" <> "" ->
      post_report loads_bullish "" "" no_prompt no_text (fun _ => "")
        (fun s => s) "" plain_content world_refused_symbol 0
        (<["ticker" := "ZZZZ"]> ∅) []
      = Some (Ok (HTTPException 500 "symbol refused"), [])).
Proof.
  apply (refused_symbol_escapes loads_bullish "" "" no_prompt no_text
           (fun _ => "") (fun s => s) "" plain_content world_refused_symbol 0
           (<["ticker" := "ZZZZ"]> ∅) "ZZZZ" "symbol refused" []).
  reflexivity.
Defined.

(** X23. A ticker that fails validation is answered by a normal response
    whose content is the encoded error object, after the validator's one
    call: the endpoint raises no HTTP error for it. *)
Theorem invalid_ticker_is_a_normal_response
    (json_loads : string -> res (gmap string jval))
    (analyze_prompt_head analyze_prompt_tail : string)
    (build_compare_prompt :
       pyval -> pyval -> list (gmap string jval) -> string -> string)
    (format_metrics_text : gmap string pyval -> string)
    (num_str : pyval -> string) (upper : string -> string)
    (utcnow_isoformat : string)
    (to_json_content :
       gmap string report_value -> res (gmap string report_value))
    (w : world) (fuel : nat) (payload : gmap string string)
    (ticker : string) (meta : ticker_meta)
    (content : gmap string report_value) (tr tr' : list event) :
  payload !! "ticker" = Some ticker ->
  ticker <> "" ->
  validate_ticker w ticker tr = Some (Ok (false, meta), tr') ->
  to_json_content
    (<["error" := RStr "ticker_validation_failed"]>
     (<["message" := RStr (m_message meta)]> ∅)) = Ok content ->
  post_report json_loads analyze_prompt_head analyze_prompt_tail
    build_compare_prompt format_metrics_text num_str upper utcnow_isoformat
    to_json_content w fuel payload tr
  = Some (Ok (JSONResponse content), tr').
Proof.
  intros Hp Hne Hv Hc. unfold post_report. rewrite Hp.
  cbn [default from_option id].
  apply String.eqb_neq in Hne. rewrite Hne.
  unfold generate_company_report, try_except, mbind, M_bind.
  unfold bind at 1. unfold bind at 1. rewrite Hv.
  cbn [fst snd negb]. unfold ret at 1. unfold bind at 1, lift.
  rewrite Hc. reflexivity.
Qed.

Lemma invalid_ticker_is_a_normal_response_witness :
  post_report loads_bullish "" "" no_prompt no_text (fun _ => "")
    (fun s => s) "" plain_content offline_world 0
    (<["ticker" := "ZZZZ"]> ∅) []
  = Some (Ok (JSONResponse
                (<["error" := RStr "ticker_validation_failed"]>
                 (<["message" := RStr "Failed to fetch ticker info: unreachable"]>
                  ∅))),
          [CallTickerInfo "ZZZZ"]).
Proof.
  apply (invalid_ticker_is_a_normal_response loads_bullish "" "" no_prompt
           no_text (fun _ => "") (fun s => s) "" plain_content offline_world 0
           (<["ticker" := "ZZZZ"]> ∅) "ZZZZ"
           (mk_meta "Failed to fetch ticker info: unreachable" PyNone ∅));
    [reflexivity|discriminate|reflexivity|reflexivity].
Defined.
